(** * Jellydump: job registry, job runner and progress adapter

    A shallow embedding of [main.py]: the in-memory job registry guarded by
    [jobs_lock], the handlers of [POST /pull] and [GET /status], the
    background runner [_run_download], the progress hook built by
    [_yt_dlp_progress_hook], and the naming helpers.

    Conventions of the embedding.
    - A Python [str] is a Rocq [string]; each character stands for the code
      point of the same number (0..255).
    - A Python number carried by a progress event (an [int] below 2^53 in
      magnitude, or a finite [float]) is the rational it denotes, in [Q].
      Float arithmetic is written out with its rounding ([rn53]).
    - A job record (a Python [dict] with a fixed set of string keys) is a
      record of [option] fields; [None] means the key is absent.
    - The registry [jobs] is a [gmap string JobMeta].
    - Every [with jobs_lock:] block is one atomic function on the registry.
      The handler of [GET /status] reads the record after it has released
      the lock: its answer is a function of the record as each of its reads
      finds it.
    - An exception is an instance of a subclass of [Exception]; the numbers
      of an event are finite; [pathlib] is the one of Python 3.8 to 3.13.
    - What the process cannot decide (the clock, the identifier drawn by
      [uuid.uuid4()], what the downloader does) is an argument of the
      function that uses it. *)

From Stdlib Require Import ZArith QArith Qpower Qround Qabs Lqa Lia.
From Stdlib Require Import String Ascii List DecimalString DecimalN SpecFloat.
From stdpp Require Import gmap strings list fin_maps.

Local Open Scope string_scope.
Local Open Scope Z_scope.

(** ** Decimal text of integers *)

Module PyFormat.

(** [str(n)] for a non-negative integer. *)
Definition dec (n : Z) : string :=
  NilEmpty.string_of_uint (N.to_uint (Z.to_N n)).

Fixpoint zeros (k : nat) : string :=
  match k with
  | O => ""
  | S k' => String "0" (zeros k')
  end.

(** Left padding with ["0"] up to [width] characters. *)
Definition zfill (width : nat) (s : string) : string :=
  zeros (width - String.length s) ++ s.

(** [f"{z:0{width}d}"]: the sign, when there is one, counts in the width and
    the zeros go between the sign and the digits. *)
Definition format_0d (width : nat) (z : Z) : string :=
  if z <? 0 then "-" ++ zfill (width - 1) (dec (- z))
  else zfill width (dec z).

(** Round to the nearest integer, ties to the even one. *)
Definition round_half_even (q : Q) : Z :=
  let f := Qfloor q in
  match (q - inject_Z f ?= 1 # 2)%Q with
  | Lt => f
  | Gt => f + 1
  | Eq => if Z.even f then f else f + 1
  end.

(** [f"{q:.{prec}f}"]: the exact value [q] rounded half-even to [prec]
    decimals; a negative value keeps its sign even when it rounds to zero. *)
Definition format_f (prec : nat) (q : Q) : string :=
  let scale := 10 ^ Z.of_nat prec in
  let n := round_half_even (Qabs q * inject_Z scale) in
  let sign := match (q ?= 0)%Q with Lt => "-" | _ => "" end in
  match prec with
  | O => sign ++ dec n
  | S _ => sign ++ dec (n / scale) ++ "." ++ zfill prec (dec (n mod scale))
  end.

End PyFormat.
Import PyFormat.

(** ** Double-precision arithmetic on the values it denotes *)

Module PyFloat.

Definition pow2 (k : Z) : Q := (2 ^ k)%Q.

(** The binary exponent of a positive rational: the [e] with
    [2^e <= a < 2^(e+1)]. *)
Definition ilog2 (a : Q) : Z :=
  let k := Z.log2 (Qnum a) - Z.log2 (Zpos (Qden a)) in
  if Qle_bool (pow2 k) a then k else k - 1.

(** Rounding to the nearest number with a 53-bit significand, ties to even:
    the rounding of every binary64 operation whose exact result lies in the
    normal range (no overflow, no subnormal result). *)
Definition rn53 (q : Q) : Q :=
  let a := Qabs q in
  let s := ilog2 a - 52 in
  let r := (inject_Z (round_half_even (a * pow2 (- s))) * pow2 s)%Q in
  match (q ?= 0)%Q with
  | Eq => 0%Q
  | Lt => (- r)%Q
  | Gt => r
  end.

(** [x / y] on numbers ([y] nonzero): the correctly rounded quotient. *)
Definition truediv (x y : Q) : Q := rn53 (x / y).

(** [x * y] where [x] is a float. *)
Definition mul (x y : Q) : Q := rn53 (x * y).

(** [int(x)]: truncation toward zero. *)
Definition int (x : Q) : Z :=
  if Qle_bool 0 x then Qfloor x else Qceiling x.

(** The value of a finite binary64 datum of the standard library's
    specification of IEEE 754 arithmetic. *)
Definition SF2Q (f : spec_float) : option Q :=
  match f with
  | S754_zero _ => Some 0%Q
  | S754_finite s m e =>
      let v := (inject_Z (Zpos m) * pow2 e)%Q in
      Some (if s then (- v)%Q else v)
  | _ => None
  end.

Definition b64_of_Z (z : Z) : spec_float := binary_normalize 53 1024 z 0 false.
Definition b64_div : spec_float -> spec_float -> spec_float := SFdiv 53 1024.
Definition b64_mul : spec_float -> spec_float -> spec_float := SFmul 53 1024.

(** Agreement of [truediv] and [mul] with the binary64 operations at [d t],
    as a boolean test. *)
Definition agrees_with_b64 (d t : Z) : bool :=
  match SF2Q (b64_div (b64_of_Z d) (b64_of_Z t)),
        SF2Q (b64_mul (b64_div (b64_of_Z d) (b64_of_Z t)) (b64_of_Z 100)) with
  | Some x, Some y =>
      Qeq_bool x (truediv (inject_Z d) (inject_Z t))
      && Qeq_bool y (mul (truediv (inject_Z d) (inject_Z t)) 100)
  | _, _ => false
  end.

End PyFloat.

(** ** String methods used by the source *)

Module PyStr.

(** [c.isspace()] on the code points below 256. *)
Definition isspace (c : ascii) : bool :=
  let n := Z.of_N (N_of_ascii c) in
  ((9 <=? n) && (n <=? 13)) || ((28 <=? n) && (n <=? 32))
  || (n =? 133) || (n =? 160).

Fixpoint lstrip (s : string) : string :=
  match s with
  | String c s' => if isspace c then lstrip s' else s
  | EmptyString => EmptyString
  end.

Fixpoint rstrip (s : string) : string :=
  match s with
  | String c s' =>
      match rstrip s' with
      | EmptyString => if isspace c then EmptyString else String c EmptyString
      | r => String c r
      end
  | EmptyString => EmptyString
  end.

(** [s.strip()] *)
Definition strip (s : string) : string := rstrip (lstrip s).

(** [c.lower()] on the code points below 256: the letters A..Z and the
    accented capitals 192..222 (the multiplication sign 215 apart). *)
Definition lower_char (c : ascii) : ascii :=
  let n := Z.of_N (N_of_ascii c) in
  if ((65 <=? n) && (n <=? 90))
     || ((192 <=? n) && (n <=? 222) && negb (n =? 215))
  then ascii_of_N (N_of_ascii c + 32) else c.

Fixpoint lower (s : string) : string :=
  match s with
  | String c s' => String (lower_char c) (lower s')
  | EmptyString => EmptyString
  end.

(** [s.startswith(p)] *)
Definition startswith (p s : string) : bool := String.prefix p s.

(** [s.split(sep)] for a one-character separator. *)
Fixpoint split (sep : ascii) (s : string) : list string :=
  match s with
  | EmptyString => [EmptyString]
  | String c s' =>
      if Ascii.eqb c sep then EmptyString :: split sep s'
      else match split sep s' with
           | w :: ws => String c w :: ws
           | [] => [String c EmptyString]
           end
  end.

(** The index of the last occurrence of [c] in [s], as [s.rfind(c)]. *)
Fixpoint rfind (c : ascii) (s : string) : option nat :=
  match s with
  | EmptyString => None
  | String d s' =>
      match rfind c s' with
      | Some i => Some (S i)
      | None => if Ascii.eqb c d then Some O else None
      end
  end.

Definition drop (n : nat) (s : string) : string :=
  String.substring n (String.length s - n) s.

End PyStr.

(** ** The request payload and its validators *)

Record RequestPayload := {
  url : string;
  imdbid : string;
  name : string;
  season : Z;
}.

(** [validate_imdbid]: accepted when the text starts with ["tt"] and has at
    least seven characters. *)
Definition validate_imdbid (v : string) : bool :=
  negb (negb (PyStr.startswith "tt" v) || (Z.of_nat (String.length v) <? 7)).

(** [validate_season], together with the field constraint [ge=1]. *)
Definition validate_season (v : Z) : bool := negb (v <? 1).

(** A payload that passes both validators.  The check of [url] against
    [HttpUrl] is the validation library's own and constrains no operation
    below. *)
Definition valid_payload (p : RequestPayload) : bool :=
  validate_imdbid (imdbid p) && validate_season (season p).

(** ** Naming *)

Definition build_output_template (name : string) (season : Z) : string :=
  let season_str := format_0d 2 season in
  let episode_placeholder := "%(autonumber)02d" in
  let template :=
    name ++ " S" ++ season_str ++ "E" ++ episode_placeholder ++ ".%(ext)s" in
  template.

(** The three names that [_run_download] computes from the payload. *)
Definition safe_name (payload : RequestPayload) : string :=
  PyStr.strip (name payload).

Definition main_folder_name (payload : RequestPayload) : string :=
  safe_name payload ++ " [imdbid-" ++ imdbid payload ++ "]".

Definition season_folder_name (payload : RequestPayload) : string :=
  let season_str := format_0d 2 (season payload) in
  "Season " ++ season_str.

Definition output_template (payload : RequestPayload) : string :=
  build_output_template (safe_name payload) (season payload).

(** ** Exceptions *)

(** The exception classes that the runner tells apart: [FileExistsError]
    has a handler of its own, every other subclass of [Exception] goes to
    the general handler. *)
Inductive ExcClass :=
| FileExistsError
| FileNotFoundError
| NotADirectoryError
| ImportError
| OtherException.

Record Exc := { exc_class : ExcClass; exc_text : string }.

(** [str(exc)] *)
Definition str_exc (e : Exc) : string := exc_text e.

#[global] Instance ExcClass_eq_dec : EqDecision ExcClass.
Proof. solve_decision. Defined.

(** ** Paths and the file system *)

Module Fs.

(** A path is its tuple of [parts], innermost component first, so that the
    parent of [c :: p] is [p].  An absolute path ends with the root ["/"];
    the empty list is the current directory.  A [".."] component and a
    symbolic link are names like any other: they are not resolved. *)
Abbreviation Path := (list string).

Inductive Node := Directory | RegularFile | Special.

#[global] Instance Node_eq_dec : EqDecision Node.
Proof. solve_decision. Defined.

(** The file system as the runner sees it: what each path resolves to.  The
    root and the current directory always exist. *)
Definition is_anchor (p : Path) : bool :=
  bool_decide (p = []) || bool_decide (p = ["/"]).

Definition node (fs : gmap (list string) Node) (p : Path) : option Node :=
  if is_anchor p then Some Directory else fs !! p.

Definition is_dir (fs : gmap (list string) Node) (p : Path) : bool :=
  match node fs p with Some Directory => true | _ => false end.

Definition is_file (fs : gmap (list string) Node) (p : Path) : bool :=
  match node fs p with Some RegularFile => true | _ => false end.

Definition exists_ (fs : gmap (list string) Node) (p : Path) : bool :=
  match node fs p with Some _ => true | None => false end.

(** The components of a path text: split at ["/"], empty and ["."] parts
    dropped. *)
Definition parts (s : string) : list string :=
  List.filter (fun c => negb (String.eqb c "" || String.eqb c "."))
              (PyStr.split "/" s).

(** [p / s]: an absolute [s] replaces [p]. *)
Definition joinpath (p : Path) (s : string) : Path :=
  if PyStr.startswith "/" s then rev ("/" :: parts s)
  else (rev (parts s) ++ p)%list.

Fixpoint join_slash (l : list string) : string :=
  match l with
  | [] => ""
  | [c] => c
  | c :: l' => c ++ "/" ++ join_slash l'
  end.

(** [str(p)] *)
Definition str (p : Path) : string :=
  match rev p with
  | [] => "."
  | "/" :: l => "/" ++ join_slash l
  | l => join_slash l
  end.

(** [p.suffix]: the last dot of the final component and what follows it,
    unless that dot is the first or the last character. *)
Definition suffix (p : Path) : string :=
  match p with
  | [] => ""
  | nm :: _ =>
      match PyStr.rfind "." nm with
      | Some i =>
          if (0 <? i)%nat && (i <? String.length nm - 1)%nat
          then PyStr.drop i nm else ""
      | None => ""
      end
  end.

Definition child_of (folder p : Path) : bool :=
  match p with
  | _ :: par => bool_decide (par = folder)
  | [] => false
  end.

(** [folder.iterdir()]: the entries directly under [folder]. *)
Definition iterdir (fs : gmap (list string) Node) (folder : Path) : list Path :=
  List.filter (child_of folder) (map fst (map_to_list fs)).

Definition errno_text (what : string) (p : Path) : string :=
  what ++ ": '" ++ str p ++ "'".

(** The nearest ancestor of [p] that exists, [p] itself included, is not a
    directory: the walk to anything below [p] stops there with [ENOTDIR]. *)
Fixpoint blocked (fs : gmap (list string) Node) (p : Path) : bool :=
  match node fs p with
  | Some Directory => false
  | Some _ => true
  | None =>
      match p with
      | [] => false
      | _ :: par => blocked fs par
      end
  end.

(** [os.mkdir(p)]: [EEXIST] when [p] exists; [ENOTDIR] when a file stands
    where a directory is needed on the way to [p], at any level; [ENOENT]
    when the parent is missing. *)
Definition os_mkdir (p : Path) (fs : gmap (list string) Node)
  : Exc + gmap (list string) Node :=
  if exists_ fs p then
    inl {| exc_class := FileExistsError;
           exc_text := errno_text "[Errno 17] File exists" p |}
  else
    match node fs (tail p) with
    | None =>
        if blocked fs (tail p) then
          inl {| exc_class := NotADirectoryError;
                 exc_text := errno_text "[Errno 20] Not a directory" p |}
        else
          inl {| exc_class := FileNotFoundError;
                 exc_text := errno_text "[Errno 2] No such file or directory" p |}
    | Some Directory => inr (<[p := Directory]> fs)
    | Some _ =>
        inl {| exc_class := NotADirectoryError;
               exc_text := errno_text "[Errno 20] Not a directory" p |}
    end.

(** [p.mkdir(parents=False, exist_ok=exist_ok)]: an [OSError] of
    [os.mkdir] is swallowed only under [exist_ok] when [p] is a directory. *)
Definition mkdir_flat (exist_ok : bool) (p : Path) (fs : gmap (list string) Node)
  : Exc + gmap (list string) Node :=
  match os_mkdir p fs with
  | inr fs' => inr fs'
  | inl e =>
      if bool_decide (exc_class e = FileNotFoundError) then inl e
      else if negb exist_ok || negb (is_dir fs p) then inl e
      else inr fs
  end.

(** [p.mkdir(parents=parents, exist_ok=exist_ok)]: on [FileNotFoundError]
    with [parents], the parent is made with [parents=True, exist_ok=True]
    and the directory itself is then made without [parents]. *)
Fixpoint mkdir (parents exist_ok : bool) (p : Path)
    (fs : gmap (list string) Node) {struct p} : Exc + gmap (list string) Node :=
  match os_mkdir p fs with
  | inr fs' => inr fs'
  | inl e =>
      if bool_decide (exc_class e = FileNotFoundError) then
        match p with
        | _ :: par =>
            if negb parents then inl e
            else match mkdir true true par fs with
                 | inl e' => inl e'
                 | inr fs1 => mkdir_flat exist_ok p fs1
                 end
        | [] => inl e
        end
      else if negb exist_ok || negb (is_dir fs p) then inl e
      else inr fs
  end.

End Fs.

(** ** Counting the finished output files *)

Definition count_media_files (fs : gmap (list string) Fs.Node)
    (folder : Fs.Path) (suffix : string) : Z :=
  if negb (Fs.is_dir fs folder) then 0
  else
    Z.of_nat (length (List.filter
      (fun p => Fs.is_file fs p
                && String.eqb (PyStr.lower (Fs.suffix p)) (PyStr.lower suffix))
      (Fs.iterdir fs folder))).

(** ** Job records and the registry *)

Inductive Status := pending | running | finished | failed.

#[global] Instance Status_eq_dec : EqDecision Status.
Proof. solve_decision. Defined.

(** One entry of [jobs]; a field is [None] while its key is absent. *)
Record JobMeta := {
  status : Status;
  created_at : option string;
  payload : option RequestPayload;
  started_at : option string;
  progress_percent : option Z;
  current_title : option string;
  speed : option string;
  current_episode : option Z;
  finished_at : option string;
  result_path : option string;
  message : option string;
  error : option string;
}.

(** [meta["status"] in ("pending", "running")] *)
Definition is_active (meta : JobMeta) : bool :=
  match status meta with
  | pending | running => true
  | finished | failed => false
  end.

(** [any(meta["status"] in ("pending", "running") for meta in jobs.values())] *)
Definition any_active (jobs : gmap string JobMeta) : bool :=
  existsb is_active (map snd (map_to_list jobs)).

(** ** The progress hook *)

(** What the hook reads from an event [d]; [None] is an absent key (or the
    value [None]). *)
Record Event := {
  ev_status : option string;
  total_bytes : option Q;
  total_bytes_estimate : option Q;
  downloaded_bytes : option Q;
  info_title : option string;
  ev_speed : option Q;
}.

(** Truth value of an optional number: [None] and zero are false. *)
Definition truthy (x : option Q) : bool :=
  match x with
  | Some q => negb (Qeq_bool q 0)
  | None => false
  end.

(** [a or b] *)
Definition py_or (a b : option Q) : option Q := if truthy a then a else b.

Definition Qgt_bool (x y : Q) : bool := negb (Qle_bool x y).

(** Lines 59-61. *)
Definition hook_percent (d : Event) : Z :=
  let total := py_or (total_bytes d) (total_bytes_estimate d) in
  let downloaded := default 0%Q (downloaded_bytes d) in
  match total with
  | Some t =>
      if truthy total
      then PyFloat.int (PyFloat.mul (PyFloat.truediv downloaded t) 100)
      else 0
  | None => 0
  end.

(** Lines 65-76. *)
Definition hook_speed (speed_raw : option Q) : string :=
  match speed_raw with
  | Some r =>
      if truthy speed_raw then
        if Qgt_bool r (inject_Z (1024 ^ 3)) then
          format_f 2 (PyFloat.truediv r (inject_Z (1024 ^ 3))) ++ " GiB/s"
        else if Qgt_bool r (inject_Z (1024 ^ 2)) then
          format_f 2 (PyFloat.truediv r (inject_Z (1024 ^ 2))) ++ " MiB/s"
        else if Qgt_bool r 1024 then
          format_f 2 (PyFloat.truediv r 1024) ++ " KiB/s"
        else
          format_f 0 (PyFloat.rn53 r) ++ " B/s"
      else ""
  | None => ""
  end.

(** [job_meta.update({...})] of lines 83-88. *)
Definition hook_update (percent : Z) (title speed_text : string)
    (episode_no : Z) (m : JobMeta) : JobMeta :=
  {| status := status m;
     created_at := created_at m;
     payload := payload m;
     started_at := started_at m;
     progress_percent := Some percent;
     current_title := Some title;
     speed := Some speed_text;
     current_episode := Some episode_no;
     finished_at := finished_at m;
     result_path := result_path m;
     message := message m;
     error := error m |}.

(** The closure returned by [_yt_dlp_progress_hook job_id season_dir],
    applied to an event [d] with the file system as it is at that moment. *)
Definition hook (job_id : string) (season_dir : Fs.Path) (d : Event)
    (fs : gmap (list string) Fs.Node) (jobs : gmap string JobMeta)
  : gmap string JobMeta :=
  if negb (bool_decide (ev_status d = Some "downloading")
           || bool_decide (ev_status d = Some "finished"))
  then jobs
  else
    let percent := hook_percent d in
    let title := default "" (info_title d) in
    let speed_text := hook_speed (ev_speed d) in
    let episode_no := count_media_files fs season_dir ".mp4" in
    match jobs !! job_id with
    | Some job_meta =>
        <[job_id := hook_update percent title speed_text episode_no job_meta]> jobs
    | None => jobs
    end.

(** [_yt_dlp_progress_hook(job_id, season_dir)] returns that closure. *)
Abbreviation _yt_dlp_progress_hook := hook.

(** ** [POST /pull] *)

Record HTTPException := { status_code : Z; detail : string }.

Record PullResponse := {
  resp_job_id : string;
  resp_status : Status;
  resp_message : string;
}.

(** The record stored at line 175. *)
Definition new_job (request : RequestPayload) (now : string) : JobMeta :=
  {| status := pending;
     created_at := Some now;
     payload := Some request;
     started_at := None;
     progress_percent := None;
     current_title := None;
     speed := None;
     current_episode := None;
     finished_at := None;
     result_path := None;
     message := None;
     error := None |}.

(** The body of [pull] under [jobs_lock].  [job_id] is the text of the
    identifier drawn by [uuid.uuid4()] and [now] the creation time. *)
Definition pull (request : RequestPayload) (job_id now : string)
    (jobs : gmap string JobMeta)
  : gmap string JobMeta * (HTTPException + PullResponse) :=
  let active := any_active jobs in
  if active then
    (jobs,
     inl {| status_code := 409;
            detail := "Another download is already in progress. Please wait or cancel it." |})
  else
    (<[job_id := new_job request now]> jobs,
     inr {| resp_job_id := job_id;
            resp_status := pending;
            resp_message := "Download started." |}).

(** ** The runner's critical sections *)

(** [jobs[job_id]] raises [KeyError] for an unknown identifier. *)
Definition KeyError (job_id : string) : Exc :=
  {| exc_class := OtherException; exc_text := "'" ++ job_id ++ "'" |}.

Definition update_job (f : JobMeta -> JobMeta) (job_id : string)
    (jobs : gmap string JobMeta) : Exc + gmap string JobMeta :=
  match jobs !! job_id with
  | Some m => inr (<[job_id := f m]> jobs)
  | None => inl (KeyError job_id)
  end.

(** Lines 95-101. *)
Definition set_running (now : string) (m : JobMeta) : JobMeta :=
  {| status := running;
     created_at := created_at m;
     payload := payload m;
     started_at := Some now;
     progress_percent := Some 0;
     current_title := Some "";
     speed := Some "";
     current_episode := current_episode m;
     finished_at := finished_at m;
     result_path := result_path m;
     message := message m;
     error := error m |}.

(** Lines 139-147. *)
Definition set_finished (now : string) (season_dir : Fs.Path) (m : JobMeta)
  : JobMeta :=
  {| status := finished;
     created_at := created_at m;
     payload := payload m;
     started_at := started_at m;
     progress_percent := Some 100;
     current_title := Some "";
     speed := Some "";
     current_episode := current_episode m;
     finished_at := Some now;
     result_path := Some (Fs.str season_dir);
     message := Some "Download completed successfully";
     error := error m |}.

(** Lines 151-155 and 158-162. *)
Definition set_failed (now : string) (text : string) (m : JobMeta) : JobMeta :=
  {| status := failed;
     created_at := created_at m;
     payload := payload m;
     started_at := started_at m;
     progress_percent := progress_percent m;
     current_title := current_title m;
     speed := speed m;
     current_episode := current_episode m;
     finished_at := Some now;
     result_path := result_path m;
     message := message m;
     error := Some text |}.

Definition run_begin (job_id now : string) (jobs : gmap string JobMeta)
  : Exc + gmap string JobMeta :=
  update_job (set_running now) job_id jobs.

Definition run_finished (job_id now : string) (season_dir : Fs.Path)
    (jobs : gmap string JobMeta) : Exc + gmap string JobMeta :=
  update_job (set_finished now season_dir) job_id jobs.

(** The two [except] clauses: which message is recorded for [e]. *)
Definition failure_text (e : Exc) : string :=
  match exc_class e with
  | FileExistsError => "Season folder already exists"
  | _ => str_exc e
  end.

Definition run_except (job_id now : string) (e : Exc)
    (jobs : gmap string JobMeta) : Exc + gmap string JobMeta :=
  update_job (set_failed now (failure_text e)) job_id jobs.

(** ** The downloader, as the runner sees it *)

(** While [ydl.download] runs, files appear in the file system and the
    progress hook is called; then the call returns or raises. *)
Inductive DlAction :=
| DlWrite (p : Fs.Path) (n : Fs.Node)
| DlHook (d : Event).

Definition dl_step (job_id : string) (season_dir : Fs.Path) (a : DlAction)
    (w : gmap string JobMeta * gmap (list string) Fs.Node)
  : gmap string JobMeta * gmap (list string) Fs.Node :=
  match a with
  | DlWrite p n => (w.1, <[p := n]> w.2)
  | DlHook d => (hook job_id season_dir d w.2 w.1, w.2)
  end.

(** What the environment supplies to one run of [_run_download]. *)
Record RunEnv := {
  import_ok : bool;
  t_started : string;
  t_finished : string;
  dl_actions : list DlAction;
  dl_outcome : option Exc;
}.

Section Runner.

(** [BASE_DATA_DIR], read from the environment at start-up. *)
Variable BASE_DATA_DIR : Fs.Path.

Definition main_dir (payload : RequestPayload) : Fs.Path :=
  Fs.joinpath BASE_DATA_DIR (main_folder_name payload).

Definition season_dir (payload : RequestPayload) : Fs.Path :=
  Fs.joinpath (main_dir payload) (season_folder_name payload).

(** Lines 104-112: the file system after the two [mkdir] calls and the
    exception of the first one that raises, if any. *)
Definition make_dirs (payload : RequestPayload) (fs : gmap (list string) Fs.Node)
  : gmap (list string) Fs.Node * option Exc :=
  match Fs.mkdir true true (main_dir payload) fs with
  | inl e => (fs, Some e)
  | inr fs1 =>
      match Fs.mkdir false false (season_dir payload) fs1 with
      | inl e => (fs1, Some e)
      | inr fs2 => (fs2, None)
      end
  end.

(** Lines 135-136: the downloader at work. *)
Definition download (job_id : string) (payload : RequestPayload)
    (actions : list DlAction)
    (w : gmap string JobMeta * gmap (list string) Fs.Node)
  : gmap string JobMeta * gmap (list string) Fs.Node :=
  fold_left (fun w a => dl_step job_id (season_dir payload) a w) actions w.

(** The [try] block, lines 104-147: the world it leaves and the exception
    it raises, if any. *)
Definition try_body (job_id : string) (payload : RequestPayload) (env : RunEnv)
    (w : gmap string JobMeta * gmap (list string) Fs.Node)
  : (gmap string JobMeta * gmap (list string) Fs.Node) * option Exc :=
  match make_dirs payload w.2 with
  | (fs1, Some e) => ((w.1, fs1), Some e)
  | (fs1, None) =>
      let w1 := download job_id payload (dl_actions env) (w.1, fs1) in
      match dl_outcome env with
      | Some e => (w1, Some e)
      | None =>
          match run_finished job_id (t_finished env) (season_dir payload) w1.1 with
          | inl e => (w1, Some e)
          | inr jobs' => ((jobs', w1.2), None)
          end
      end
  end.

(** [_run_download job_id payload]: the world after the call and the
    exception that escapes it, if any. *)
Definition _run_download (job_id : string) (payload : RequestPayload)
    (env : RunEnv) (w : gmap string JobMeta * gmap (list string) Fs.Node)
  : (gmap string JobMeta * gmap (list string) Fs.Node) * option Exc :=
  if negb (import_ok env) then
    (w, Some {| exc_class := ImportError;
                exc_text := "No module named 'yt_dlp'" |})
  else
    match run_begin job_id (t_started env) w.1 with
    | inl e => (w, Some e)
    | inr jobs1 =>
        match try_body job_id payload env (jobs1, w.2) with
        | (w2, None) => (w2, None)
        | (w2, Some e) =>
            match run_except job_id (t_finished env) e w2.1 with
            | inl e' => (w2, Some e')
            | inr jobs3 => ((jobs3, w2.2), None)
            end
        end
    end.

End Runner.

(** ** The running system: request handlers and background tasks interleaved *)

(** Where a background task stands in [_run_download]. *)
Inductive Pc :=
| PcQueued                     (* added by [pull], not yet started *)
| PcTry                        (* line 103: inside [try], before the directories *)
| PcDownload                   (* lines 135-136: inside [ydl.download] *)
| PcRaised (e : Exc)           (* an exception on its way to the [except] clauses *)
| PcDone (escaped : option Exc).

Record Task := {
  task_job : string;
  task_payload : RequestPayload;
  task_pc : Pc;
}.

(** One move of a background task.  Each constructor is one stretch of
    [_run_download] that holds [jobs_lock] at most once. *)
Inductive TaskLabel :=
| TBegin (import_ok : bool) (now : string)
| TMkdirs
| TDl (a : DlAction)
| TDlReturn (now : string)
| TDlRaise (e : Exc)
| THandle (now : string).

Record System := {
  sys_jobs : gmap string JobMeta;
  sys_fs : gmap (list string) Fs.Node;
  sys_tasks : list Task;
}.

(** One move of the system: a [POST /pull] request served, or a move of
    the background task number [i]. *)
Inductive Label :=
| LPull (request : RequestPayload) (job_id now : string)
| LTask (i : nat) (a : TaskLabel).

Definition live (pc : Pc) : bool :=
  match pc with PcDone _ => false | _ => true end.

Section Interleaving.

Variable BASE_DATA_DIR : Fs.Path.

(** The move [a] of a task at [pc]; [None] when [a] is not the task's next
    move. *)
Definition runner_step (a : TaskLabel) (job_id : string)
    (payload : RequestPayload) (pc : Pc)
    (w : gmap string JobMeta * gmap (list string) Fs.Node)
  : option (Pc * (gmap string JobMeta * gmap (list string) Fs.Node)) :=
  match pc, a with
  | PcQueued, TBegin ok now =>
      if negb ok then
        Some (PcDone (Some {| exc_class := ImportError;
                              exc_text := "No module named 'yt_dlp'" |}), w)
      else
        match run_begin job_id now w.1 with
        | inl e => Some (PcDone (Some e), w)
        | inr jobs1 => Some (PcTry, (jobs1, w.2))
        end
  | PcTry, TMkdirs =>
      match make_dirs BASE_DATA_DIR payload w.2 with
      | (fs1, Some e) => Some (PcRaised e, (w.1, fs1))
      | (fs1, None) => Some (PcDownload, (w.1, fs1))
      end
  | PcDownload, TDl act =>
      Some (PcDownload, dl_step job_id (season_dir BASE_DATA_DIR payload) act w)
  | PcDownload, TDlRaise e => Some (PcRaised e, w)
  | PcDownload, TDlReturn now =>
      match run_finished job_id now (season_dir BASE_DATA_DIR payload) w.1 with
      | inl e => Some (PcRaised e, w)
      | inr jobs' => Some (PcDone None, (jobs', w.2))
      end
  | PcRaised e, THandle now =>
      match run_except job_id now e w.1 with
      | inl e' => Some (PcDone (Some e'), w)
      | inr jobs' => Some (PcDone None, (jobs', w.2))
      end
  | _, _ => None
  end.

(** A label that is not enabled leaves the system as it is. *)
Definition step (l : Label) (s : System) : System :=
  match l with
  | LPull request job_id now =>
      match pull request job_id now (sys_jobs s) with
      | (jobs', inr _) =>
          {| sys_jobs := jobs';
             sys_fs := sys_fs s;
             sys_tasks := sys_tasks s ++
               [{| task_job := job_id; task_payload := request;
                   task_pc := PcQueued |}] |}
      | (jobs', inl _) =>
          {| sys_jobs := jobs'; sys_fs := sys_fs s; sys_tasks := sys_tasks s |}
      end
  | LTask i a =>
      match sys_tasks s !! i with
      | Some t =>
          match runner_step a (task_job t) (task_payload t) (task_pc t)
                            (sys_jobs s, sys_fs s) with
          | Some (pc', w') =>
              {| sys_jobs := w'.1;
                 sys_fs := w'.2;
                 sys_tasks :=
                   <[i := {| task_job := task_job t;
                             task_payload := task_payload t;
                             task_pc := pc' |}]> (sys_tasks s) |}
          | None => s
          end
      | None => s
      end
  end.

Definition exec (ls : list Label) (s : System) : System :=
  fold_left (fun s l => step l s) ls s.

(** The process at start-up: an empty registry and no task. *)
Definition init (fs : gmap (list string) Fs.Node) : System :=
  {| sys_jobs := ∅; sys_fs := fs; sys_tasks := [] |}.

(** The labels of one uninterrupted run of task [i] under [env]. *)
Definition run_labels (i : nat) (env : RunEnv) : list Label :=
  map (LTask i)
    (TBegin (import_ok env) (t_started env)
     :: TMkdirs
     :: map TDl (dl_actions env)
     ++ [match dl_outcome env with
         | Some e => TDlRaise e
         | None => TDlReturn (t_finished env)
         end;
         THandle (t_finished env)])%list.

End Interleaving.

(** ** Properties of registry states *)

(** At most one record is [pending] or [running]. *)
Definition at_most_one_active (jobs : gmap string JobMeta) : Prop :=
  forall j1 j2 m1 m2,
    jobs !! j1 = Some m1 -> jobs !! j2 = Some m2 ->
    is_active m1 = true -> is_active m2 = true -> j1 = j2.

(** The moves of [status] along [pending -> running -> finished | failed],
    staying in place included. *)
Definition status_move (a b : Status) : bool :=
  match a, b with
  | pending, pending | pending, running => true
  | running, running | running, finished | running, failed => true
  | finished, finished | failed, failed => true
  | _, _ => false
  end.

Definition terminal (a : Status) : bool :=
  match a with finished | failed => true | _ => false end.

(** [result_path] is there exactly on [finished], [error] exactly on
    [failed]. *)
Definition outcome_fields_ok (m : JobMeta) : Prop :=
  (is_Some (result_path m) <-> status m = finished)
  /\ (is_Some (error m) <-> status m = failed).

(** ** The specification's wording, for comparison *)

(** The speed text as the specification words it: thresholds reached with
    [>=]. *)
Definition speed_spec (rate : option Q) : string :=
  match rate with
  | Some r =>
      if Qeq_bool r 0 then ""
      else if Qle_bool (inject_Z (1024 ^ 3)) r then
        format_f 2 (r / inject_Z (1024 ^ 3)) ++ " GiB/s"
      else if Qle_bool (inject_Z (1024 ^ 2)) r then
        format_f 2 (r / inject_Z (1024 ^ 2)) ++ " MiB/s"
      else if Qle_bool 1024 r then
        format_f 2 (r / 1024) ++ " KiB/s"
      else format_f 0 r ++ " B/s"
  | None => ""
  end.

(** The names as the specification words them: the display name taken as
    it was sent. *)
Definition root_folder_spec (p : RequestPayload) : string :=
  name p ++ " [imdbid-" ++ imdbid p ++ "]".

Definition output_template_spec (p : RequestPayload) : string :=
  name p ++ " S" ++ format_0d 2 (season p) ++ "E%(autonumber)02d.%(ext)s".

(** ** Predicates used in the statements *)

(** An event whose byte counts are consistent: when the total is known
    and nonzero, the downloaded count lies between zero and the total. *)
Definition event_in_range (d : Event) : bool :=
  let total := py_or (total_bytes d) (total_bytes_estimate d) in
  let downloaded := default 0%Q (downloaded_bytes d) in
  match total with
  | Some t =>
      if truthy total then Qle_bool 0 downloaded && Qle_bool downloaded t
      else true
  | None => true
  end.

Definition action_in_range (a : DlAction) : bool :=
  match a with
  | DlHook d => event_in_range d
  | DlWrite _ _ => true
  end.

Definition percent_in_range (m : JobMeta) : Prop :=
  match progress_percent m with
  | Some p => 0 <= p <= 100
  | None => True
  end.

Fixpoint all_digits (s : string) : bool :=
  match s with
  | String c s' =>
      (48 <=? Z.of_N (N_of_ascii c)) && (Z.of_N (N_of_ascii c) <=? 57)
      && all_digits s'
  | EmptyString => true
  end.

Fixpoint all_space (s : string) : bool :=
  match s with
  | String c s' => PyStr.isspace c && all_space s'
  | EmptyString => true
  end.

Definition starts_with_space (s : string) : bool :=
  match s with
  | String c _ => PyStr.isspace c
  | EmptyString => false
  end.

Fixpoint ends_with_space (s : string) : bool :=
  match s with
  | String c EmptyString => PyStr.isspace c
  | String _ s' => ends_with_space s'
  | EmptyString => false
  end.

(** The test of line 52 on one directory entry. *)
Definition is_media (fs : gmap (list string) Fs.Node) (suffix : string)
    (p : Fs.Path) : bool :=
  Fs.is_file fs p && String.eqb (PyStr.lower (Fs.suffix p)) (PyStr.lower suffix).

Fixpoint no_slash (s : string) : bool :=
  match s with
  | String c s' => negb (Ascii.eqb c "/") && no_slash s'
  | EmptyString => true
  end.

(** Every entry sits in a directory. *)
Definition fs_well_formed (fs : gmap (list string) Fs.Node) : Prop :=
  map_Forall (fun p _ => Fs.is_dir fs (tail p) = true) fs.

(** Nothing but directories on the way from [p] up to the root. *)
Fixpoint clear_way (fs : gmap (list string) Fs.Node) (p : Fs.Path) : bool :=
  match Fs.node fs p with
  | None | Some Fs.Directory =>
      match p with
      | [] => true
      | _ :: par => clear_way fs par
      end
  | Some _ => false
  end.

(** What the progress hook leaves alone in a record. *)
Definition frame_eq (m m' : JobMeta) : Prop :=
  status m' = status m
  /\ created_at m' = created_at m
  /\ payload m' = payload m
  /\ started_at m' = started_at m
  /\ finished_at m' = finished_at m
  /\ result_path m' = result_path m
  /\ message m' = message m
  /\ error m' = error m.

(** The failure raised inside the workflow of lines 104-136, if any: by one
    of the two [mkdir] calls, or else by the downloader. *)
Definition workflow_failure (BASE : Fs.Path) (payload : RequestPayload)
    (env : RunEnv) (fs : gmap (list string) Fs.Node) : option Exc :=
  match (make_dirs BASE payload fs).2 with
  | Some e => Some e
  | None => dl_outcome env
  end.

(** The status that the registry shows while a task stands at [pc]. *)
Definition pc_status (pc : Pc) : Status :=
  match pc with
  | PcQueued => pending
  | _ => running
  end.

Record Inv (s : System) : Prop := {
  inv_one : at_most_one_active (sys_jobs s);
  inv_fields : forall j m, sys_jobs s !! j = Some m -> outcome_fields_ok m;
  inv_task : forall i t,
      sys_tasks s !! i = Some t -> live (task_pc t) = true ->
      exists m, sys_jobs s !! task_job t = Some m
                /\ status m = pc_status (task_pc t);
  inv_live : forall i1 i2 t1 t2,
      sys_tasks s !! i1 = Some t1 -> sys_tasks s !! i2 = Some t2 ->
      live (task_pc t1) = true -> live (task_pc t2) = true -> i1 = i2;
}.

(** Later in the order [pending < running < finished | failed]. *)
Definition status_later (a b : Status) : bool :=
  match a, b with
  | pending, _ => true
  | running, pending => false
  | running, _ => true
  | finished, finished | failed, failed => true
  | _, _ => false
  end.

(** Every [pull] of the trace draws an identifier that the registry does
    not hold yet, as [uuid.uuid4()] does. *)
Fixpoint fresh_pulls (BASE : Fs.Path) (ls : list Label) (s : System) : Prop :=
  match ls with
  | [] => True
  | l :: ls' =>
      match l with
      | LPull _ job_id _ => sys_jobs s !! job_id = None
      | LTask _ _ => True
      end
      /\ fresh_pulls BASE ls' (step BASE l s)
  end.

Definition task_at (t : Task) (pc : Pc) : Task :=
  {| task_job := task_job t; task_payload := task_payload t; task_pc := pc |}.

(** The exception with which a finished task left [_run_download]. *)
Definition escaped_of (s : System) (i : nat) : option Exc :=
  match sys_tasks s !! i with
  | Some {| task_pc := PcDone esc |} => esc
  | _ => None
  end.

(** ** Sample data *)

Definition demo_payload : RequestPayload :=
  {| url := "https://example.org/playlist"; imdbid := "tt1234567";
     name := "Show"; season := 1 |}.

Definition demo_payload2 : RequestPayload :=
  {| url := "https://example.org/playlist"; imdbid := "tt1234567";
     name := "Show"; season := 2 |}.

Definition padded_payload : RequestPayload :=
  {| url := "https://example.org/playlist"; imdbid := "tt1234567";
     name := " Show"; season := 1 |}.

Definition demo_base : Fs.Path := ["data"].

Definition demo_season_dir : Fs.Path :=
  ["Season 01"; "Show [imdbid-tt1234567]"; "data"].

Definition demo_fs : gmap (list string) Fs.Node :=
  list_to_map
    [ (["data"], Fs.Directory);
      (["Show [imdbid-tt1234567]"; "data"], Fs.Directory);
      (["Season 01"; "Show [imdbid-tt1234567]"; "data"], Fs.Directory);
      (["Show S01E01.mp4"; "Season 01"; "Show [imdbid-tt1234567]"; "data"], Fs.RegularFile);
      (["Show S01E02.MP4"; "Season 01"; "Show [imdbid-tt1234567]"; "data"], Fs.RegularFile);
      (["Show S01E03.f137.mp4.part"; "Season 01"; "Show [imdbid-tt1234567]"; "data"], Fs.RegularFile);
      (["extras.mp4"; "Season 01"; "Show [imdbid-tt1234567]"; "data"], Fs.Directory);
      ([".mp4"; "Season 01"; "Show [imdbid-tt1234567]"; "data"], Fs.RegularFile) ].

Definition demo_running : gmap string JobMeta :=
  {[ "job-1" := set_running "2024-01-01T10:00:01"
                  (new_job demo_payload "2024-01-01T10:00:00") ]}.

Definition demo_pending : gmap string JobMeta :=
  (pull demo_payload "job-1" "2024-01-01T10:00:00" ∅).1.

Definition demo_pending2 : gmap string JobMeta :=
  (pull demo_payload2 "job-1" "2024-01-01T10:00:00" ∅).1.

(** An event whose size estimate (200 bytes) is below the 300 bytes
    already downloaded. *)
Definition low_estimate_event : Event :=
  {| ev_status := Some "downloading";
     total_bytes := None;
     total_bytes_estimate := Some 200%Q;
     downloaded_bytes := Some 300%Q;
     info_title := Some "Episode 1";
     ev_speed := Some 2048%Q |}.

Definition half_way_event : Event :=
  {| ev_status := Some "downloading";
     total_bytes := Some 1000%Q;
     total_bytes_estimate := None;
     downloaded_bytes := Some 290%Q;
     info_title := Some "Episode 1";
     ev_speed := Some 2048%Q |}.

Definition demo_env : RunEnv :=
  {| import_ok := true;
     t_started := "2024-01-01T10:00:01";
     t_finished := "2024-01-01T10:05:00";
     dl_actions :=
       [DlHook half_way_event;
        DlWrite ["Show S02E01.mp4"; "Season 02"; "Show [imdbid-tt1234567]"; "data"]
                Fs.RegularFile;
        DlHook half_way_event];
     dl_outcome := None |}.

Definition failing_env : RunEnv :=
  {| import_ok := true;
     t_started := "2024-01-01T10:00:01";
     t_finished := "2024-01-01T10:05:00";
     dl_actions := [DlHook half_way_event];
     dl_outcome :=
       Some {| exc_class := OtherException;
               exc_text := "ERROR: unable to download video data" |} |}.

Definition demo_trace : list Label :=
  (LPull demo_payload2 "job-1" "2024-01-01T10:00:00"
   :: LPull demo_payload "job-2" "2024-01-01T10:00:00"
   :: run_labels 0 failing_env)%list.

(** ** [GET /status/{job_id}] *)

Module Api.

(** The body of the answer.  A field of type [option (option _)] is a key
    that may be missing (outer [None]) or present with the value [null]
    (inner [None]); [st_created_at] is always a key; the other optional
    fields are keys exactly when they are [Some]. *)
Record StatusResponse := {
  st_job_id : string;
  st_status : Status;
  st_created_at : option string;
  st_progress_percent : option Z;
  st_current_title : option string;
  st_speed : option string;
  st_current_episode : option Z;
  st_message : option (option string);
  st_finished_at : option (option string);
  st_result_path : option (option string);
  st_error : option (option string);
}.

(** The handler keeps the record it found under [jobs_lock] and reads it
    after the lock is released, while the runner may be writing to it: the
    [k]-th read of the handler finds the record as [meta k].  A read
    [meta[key]] of a key that is not there raises [KeyError]. *)
Definition getitem {A : Type} (key : string) (x : option A) : Exc + A :=
  match x with
  | Some v => inr v
  | None => inl (KeyError key)
  end.

Definition bind {A B : Type} (x : Exc + A) (k : A -> Exc + B) : Exc + B :=
  match x with
  | inl e => inl e
  | inr a => k a
  end.

Notation "'try!' x ':=' e 'in' k" := (bind e (fun x => k))
  (at level 10, x name, e at level 100, k at level 200).

(** [key in meta] *)
Definition has {A : Type} (x : option A) : bool :=
  match x with
  | Some _ => true
  | None => false
  end.

(** Lines 206-210: [if key in meta and meta[key]: resp[key] = meta[key]],
    three reads [a], [b], [c] of one text field. *)
Definition text_if_truthy (key : string) (a b c : option string)
  : Exc + option string :=
  if has a then
    try! v := getitem key b in
    if negb (String.eqb v "") then
      try! w := getitem key c in inr (Some w)
    else inr None
  else inr None.

(** Lines 197-231, read by read: read 0 is the status of line 199, read 1
    the creation time of line 200, reads 2 and 3 the progress of lines
    203-204, reads 4 to 6 the title of lines 206-207, reads 7 to 9 the speed
    of lines 209-210, reads 10 to 12 the episode of lines 212-213, read 13 the
    status of line 215, reads 14 to 17 lines 218-222, reads 18 to 20 lines
    225-228.  The later [update] of [resp] overwrites the earlier key. *)
Definition respond (job_id : string) (meta : nat -> JobMeta)
  : Exc + StatusResponse :=
  let st := status (meta 0%nat) in
  let created := created_at (meta 1%nat) in
  try! progress :=
    (if has (progress_percent (meta 2%nat))
     then try! v := getitem "progress_percent"
                      (progress_percent (meta 3%nat)) in inr (Some v)
     else inr None) in
  try! title :=
    text_if_truthy "current_title" (current_title (meta 4%nat))
      (current_title (meta 5%nat)) (current_title (meta 6%nat)) in
  try! spd :=
    text_if_truthy "speed" (speed (meta 7%nat)) (speed (meta 8%nat))
      (speed (meta 9%nat)) in
  try! episode :=
    (if has (current_episode (meta 10%nat))
     then try! _ := getitem "current_episode"
                      (current_episode (meta 11%nat)) in
          try! v := getitem "current_episode"
                      (current_episode (meta 12%nat)) in inr (Some v)
     else inr None) in
  let processing := is_active (meta 13%nat) in
  let done := bool_decide (status (meta 14%nat) = finished) in
  let broken := bool_decide (status (meta 18%nat) = failed) in
  inr {| st_job_id := job_id;
         st_status := st;
         st_created_at := created;
         st_progress_percent := progress;
         st_current_title := title;
         st_speed := spd;
         st_current_episode := episode;
         st_message :=
           if done then Some (message (meta 17%nat))
           else if processing then Some (Some "Job is still processing.")
           else None;
         st_finished_at :=
           if broken then Some (finished_at (meta 19%nat))
           else if done then Some (finished_at (meta 15%nat))
           else None;
         st_result_path :=
           if done then Some (result_path (meta 16%nat)) else None;
         st_error :=
           if broken then Some (error (meta 20%nat)) else None |}.

(** A text that is present and not empty. *)
Definition if_truthy (x : option string) : option string :=
  match x with
  | Some t => if String.eqb t "" then None else Some t
  | None => None
  end.

(** The answer read off one state [meta] of the record. *)
Definition status_response (job_id : string) (meta : JobMeta)
  : StatusResponse :=
  {| st_job_id := job_id;
     st_status := status meta;
     st_created_at := created_at meta;
     st_progress_percent := progress_percent meta;
     st_current_title := if_truthy (current_title meta);
     st_speed := if_truthy (speed meta);
     st_current_episode := current_episode meta;
     st_message :=
       match status meta with
       | pending | running => Some (Some "Job is still processing.")
       | finished => Some (message meta)
       | failed => None
       end;
     st_finished_at :=
       match status meta with
       | finished | failed => Some (finished_at meta)
       | pending | running => None
       end;
     st_result_path :=
       match status meta with
       | finished => Some (result_path meta)
       | _ => None
       end;
     st_error :=
       match status meta with
       | failed => Some (error meta)
       | _ => None
       end |}.

(** [status(job_id)] when the runner writes while the handler reads: the
    lookup under [jobs_lock] on [jobs], then the reads of [meta]. *)
Definition status_racing (job_id : string) (jobs : gmap string JobMeta)
    (meta : nat -> JobMeta) : HTTPException + (Exc + StatusResponse) :=
  match jobs !! job_id with
  | Some _ => inr (respond job_id meta)
  | None => inl {| status_code := 404; detail := "Job ID not found" |}
  end.

(** [status(job_id)] when no write falls between the lookup and the last
    read: every read finds the record as the lookup found it. *)
Definition status (job_id : string) (jobs : gmap string JobMeta)
  : HTTPException + (Exc + StatusResponse) :=
  match jobs !! job_id with
  | Some m => inr (respond job_id (fun _ => m))
  | None => inl {| status_code := 404; detail := "Job ID not found" |}
  end.

End Api.

(** ** Further predicates used in the statements *)

(** Which keys a record holds at each status. *)
Definition record_shape (m : JobMeta) : Prop :=
  is_Some (created_at m) /\ is_Some (payload m)
  /\ match status m with
     | pending =>
         started_at m = None /\ progress_percent m = None
         /\ current_title m = None /\ speed m = None
         /\ current_episode m = None /\ finished_at m = None
         /\ message m = None
     | running =>
         is_Some (started_at m) /\ is_Some (progress_percent m)
         /\ is_Some (current_title m) /\ is_Some (speed m)
         /\ finished_at m = None /\ message m = None
     | finished =>
         is_Some (started_at m) /\ progress_percent m = Some 100
         /\ current_title m = Some "" /\ speed m = Some ""
         /\ is_Some (finished_at m) /\ is_Some (result_path m)
         /\ message m = Some "Download completed successfully"
     | failed =>
         is_Some (started_at m) /\ is_Some (progress_percent m)
         /\ is_Some (current_title m) /\ is_Some (speed m)
         /\ is_Some (finished_at m) /\ is_Some (error m)
         /\ message m = None
     end.

(** The text of a decimal numeral, read back. *)
Definition parse_dec (s : string) : option Z :=
  option_map (fun u => Z.of_N (N.of_uint u)) (NilEmpty.uint_of_string s).

(** The event [d] is one that the hook acts on. *)
Definition hook_accepts (d : Event) : bool :=
  bool_decide (ev_status d = Some "downloading")
  || bool_decide (ev_status d = Some "finished").

(** No key of [m] is missing in [m'], and the creation time and the request
    are the same. *)
Definition keys_kept (m m' : JobMeta) : Prop :=
  created_at m' = created_at m /\ payload m' = payload m
  /\ (is_Some (started_at m) -> is_Some (started_at m'))
  /\ (is_Some (progress_percent m) -> is_Some (progress_percent m'))
  /\ (is_Some (current_title m) -> is_Some (current_title m'))
  /\ (is_Some (speed m) -> is_Some (speed m'))
  /\ (is_Some (current_episode m) -> is_Some (current_episode m'))
  /\ (is_Some (finished_at m) -> is_Some (finished_at m'))
  /\ (is_Some (result_path m) -> is_Some (result_path m'))
  /\ (is_Some (message m) -> is_Some (message m'))
  /\ (is_Some (error m) -> is_Some (error m')).

(** From one read of the handler to the next the record loses none of the
    keys that the handler reads with [meta[key]]. *)
Definition keys_grow (meta : nat -> JobMeta) : Prop :=
  forall k : nat,
    (is_Some (progress_percent (meta k))
     -> is_Some (progress_percent (meta (S k))))
    /\ (is_Some (current_title (meta k))
        -> is_Some (current_title (meta (S k))))
    /\ (is_Some (speed (meta k)) -> is_Some (speed (meta (S k))))
    /\ (is_Some (current_episode (meta k))
        -> is_Some (current_episode (meta (S k)))).

(** The record as the handler's reads find it when the runner's last write
    falls just before read [c]. *)
Definition finish_before_read (c : nat) (now : string) (season_dir : Fs.Path)
    (m : JobMeta) (k : nat) : JobMeta :=
  if (k <? c)%nat then m else set_finished now season_dir m.

(** The downloader's action [a] leaves the registry alone: a file written,
    or an event that the hook does not act on. *)
Definition ignored_action (a : DlAction) : bool :=
  match a with
  | DlHook d => negb (hook_accepts d)
  | DlWrite _ _ => true
  end.

(** ** Further sample data *)

Definition import_failing_env : RunEnv :=
  {| import_ok := false;
     t_started := "2024-01-01T10:00:01";
     t_finished := "2024-01-01T10:05:00";
     dl_actions := [];
     dl_outcome := None |}.

Definition blocked_fs : gmap (list string) Fs.Node :=
  list_to_map
    [ (["data"], Fs.Directory);
      (["Show [imdbid-tt1234567]"; "data"], Fs.RegularFile) ].

Definition postprocessing_event : Event :=
  {| ev_status := Some "error";
     total_bytes := Some 1000%Q;
     total_bytes_estimate := None;
     downloaded_bytes := Some 1000%Q;
     info_title := Some "Episode 1";
     ev_speed := None |}.

(** A request whose display name is an absolute path. *)
Definition absolute_payload : RequestPayload :=
  {| url := url demo_payload;
     imdbid := imdbid demo_payload;
     name := " /srv/media ";
     season := 1 |}.

(** ** The output files *)

(** Line 115: the path handed to the downloader as [outtmpl]. *)
Definition outtmpl_path (BASE : Fs.Path) (payload : RequestPayload) : Fs.Path :=
  Fs.joinpath (season_dir BASE payload) (output_template payload).

Definition outtmpl (BASE : Fs.Path) (payload : RequestPayload) : string :=
  Fs.str (outtmpl_path BASE payload).

(** [s] without its ending [suffix], when it ends with it. *)
Fixpoint cut_suffix (suffix s : string) : option string :=
  if String.eqb s suffix then Some ""
  else match s with
       | EmptyString => None
       | String c s' => option_map (String c) (cut_suffix suffix s')
       end.

(** Modelled from the spec: the downloader, which is not code of this
    repository, names the output units.  The specification says that the
    file names follow the template with the autonumber, two digits wide, in
    the place of [%(autonumber)02d] and the extension in the place of
    [%(ext)s], and that the autonumber increments per completed output unit
    starting at 1 (lines 113-134 set no other start): the unit completed
    after [k] others has the number [k + 1]. *)
Definition unit_file_name (template : string) (k : nat) (ext : string)
  : option string :=
  option_map
    (fun before => before ++ format_0d 2 (Z.of_nat k + 1) ++ "." ++ ext)
    (cut_suffix "%(autonumber)02d.%(ext)s" template).

(** A request whose display name holds a "/". *)
Definition slash_payload : RequestPayload :=
  {| url := url demo_payload;
     imdbid := imdbid demo_payload;
     name := "AC/DC";
     season := 1 |}.

(** A file where the base directory should be, two levels above the season
    folder. *)
Definition file_for_base : gmap (list string) Fs.Node :=
  list_to_map [ (["data"], Fs.RegularFile) ].

(** * Checks of the embedding on concrete inputs *)

Example dec_120 : dec 120 = "120". Proof. reflexivity. Qed.
Example mkdir_below_a_file :
  Fs.mkdir false false ["Season 01"; "Show"; "data"] file_for_base
  = inl {| exc_class := NotADirectoryError;
           exc_text := "[Errno 20] Not a directory: 'data/Show/Season 01'" |}
  /\ Fs.mkdir true true ["Season 01"; "Show"; "data"] file_for_base
     = inl {| exc_class := NotADirectoryError;
              exc_text := "[Errno 20] Not a directory: 'data/Show/Season 01'" |}.
Proof. split; reflexivity. Qed.
Example format_02d_7 : format_0d 2 7 = "07". Proof. reflexivity. Qed.
Example format_02d_123 : format_0d 2 123 = "123". Proof. reflexivity. Qed.
Example format_2f_half_even : format_f 2 (1 # 8) = "0.12". Proof. reflexivity. Qed.
Example format_0f_neg : format_f 0 (- (3 # 10)) = "-0". Proof. reflexivity. Qed.
Example rn53_matches_binary64 :
  forallb (fun '(d, t) => PyFloat.agrees_with_b64 d t)
    [(29, 100); (1, 3); (57, 100); (300, 200); (123456789, 987654321);
     (1, 1); (7, 1000000007); (9007199254740991, 3); (0, 5)] = true.
Proof. vm_compute. reflexivity. Qed.

(** [int(0.29 * 100)] is 28 in double precision. *)
Example int_29_100 :
  PyFloat.int (PyFloat.mul (PyFloat.truediv 29 100) 100) = 28.
Proof. vm_compute. reflexivity. Qed.

Example strip_show : PyStr.strip "  Show	" = "Show". Proof. reflexivity. Qed.
Example strip_inner : PyStr.strip " The  Wire " = "The  Wire". Proof. reflexivity. Qed.
Example lower_MP4 : PyStr.lower ".MP4" = ".mp4". Proof. reflexivity. Qed.
Example split_ab : PyStr.split "/" "a//b" = ["a"; ""; "b"]. Proof. reflexivity. Qed.
Example names_show :
  let p := {| url := "https://example.org/v"; imdbid := "tt1234567";
              name := "Show"; season := 1 |} in
  valid_payload p = true
  /\ main_folder_name p = "Show [imdbid-tt1234567]"
  /\ season_folder_name p = "Season 01"
  /\ output_template p = "Show S01E%(autonumber)02d.%(ext)s".
Proof. repeat split. Qed.

Example count_demo :
  count_media_files demo_fs
    ["Season 01"; "Show [imdbid-tt1234567]"; "data"] ".mp4" = 2.
Proof. vm_compute. reflexivity. Qed.

Example count_missing :
  count_media_files demo_fs ["Season 02"; "Show [imdbid-tt1234567]"; "data"] ".mp4" = 0.
Proof. vm_compute. reflexivity. Qed.

Example joinpath_nested :
  Fs.joinpath ["data"] "a/b [imdbid-tt1234567]" = ["b [imdbid-tt1234567]"; "a"; "data"].
Proof. reflexivity. Qed.

Example mkdir_parents_demo :
  match Fs.mkdir true true ["c"; "b"; "a"] ∅ with
  | inr fs => map (fun p => Fs.is_dir fs p) [["a"]; ["b"; "a"]; ["c"; "b"; "a"]]
  | inl _ => []
  end = [true; true; true].
Proof. vm_compute. reflexivity. Qed.

Example speed_examples :
  map hook_speed [Some 500%Q; Some 2048%Q; Some (inject_Z (5 * 1024 * 1024));
                  Some (inject_Z (3 * 1024 ^ 3)); Some 0%Q; None;
                  Some 1024%Q; Some (3 # 2)%Q; Some (5 # 2)%Q]
  = ["500 B/s"; "2.00 KiB/s"; "5.00 MiB/s"; "3.00 GiB/s"; ""; "";
     "1024 B/s"; "2 B/s"; "2 B/s"].
Proof. vm_compute. reflexivity. Qed.

(** * Rounding: bounds and monotonicity *)

Lemma rhe_bounds (q : Q) :
  Qfloor q <= round_half_even q <= Qfloor q + 1.
Proof.
  unfold round_half_even.
  destruct (q - inject_Z (Qfloor q) ?= 1 # 2)%Q; [destruct (Z.even _)| |]; lia.
Qed.

Lemma rhe_comp (x y : Q) : (x == y)%Q -> round_half_even x = round_half_even y.
Proof.
  intros H. unfold round_half_even.
  rewrite (Qfloor_comp _ _ H).
  assert (Hc : ((x - inject_Z (Qfloor y) ?= 1 # 2) = (y - inject_Z (Qfloor y) ?= 1 # 2))%Q).
  { apply Qcompare_comp; [rewrite H|]; reflexivity. }
  rewrite Hc. reflexivity.
Qed.

Lemma rhe_inject (z : Z) : round_half_even (inject_Z z) = z.
Proof.
  unfold round_half_even. rewrite Qfloor_Z.
  assert (Hc : ((inject_Z z - inject_Z z ?= 1 # 2) = Lt)%Q).
  { rewrite <- Qlt_alt. lra. }
  rewrite Hc. reflexivity.
Qed.

Lemma rhe_mono (x y : Q) : (x <= y)%Q -> round_half_even x <= round_half_even y.
Proof.
  intros H.
  pose proof (Qfloor_resp_le _ _ H) as Hf.
  destruct (Z.eq_dec (Qfloor x) (Qfloor y)) as [E|N].
  - unfold round_half_even. rewrite E.
    destruct (x - inject_Z (Qfloor y) ?= 1 # 2)%Q eqn:Cx;
    destruct (y - inject_Z (Qfloor y) ?= 1 # 2)%Q eqn:Cy;
      try (destruct (Z.even (Qfloor y))); try lia; exfalso.
    + rewrite <- Qeq_alt in Cx. rewrite <- Qlt_alt in Cy. lra.
    + rewrite <- Qgt_alt in Cx. rewrite <- Qeq_alt in Cy. lra.
    + rewrite <- Qgt_alt in Cx. rewrite <- Qlt_alt in Cy. lra.
    + rewrite <- Qgt_alt in Cx. rewrite <- Qlt_alt in Cy. lra.
  - pose proof (rhe_bounds x). pose proof (rhe_bounds y). lia.
Qed.

Import PyFloat.

Lemma pow2_pos (k : Z) : (0 < pow2 k)%Q.
Proof. apply Qpower_0_lt. reflexivity. Qed.

Lemma pow2_add (a b : Z) : (pow2 (a + b) == pow2 a * pow2 b)%Q.
Proof. apply Qpower_plus. discriminate. Qed.

Lemma pow2_mono (a b : Z) : a <= b -> (pow2 a <= pow2 b)%Q.
Proof. intros H. apply Qpower_le_compat_l; [exact H | discriminate]. Qed.

Lemma pow2_inject (n : Z) : 0 <= n -> (inject_Z (2 ^ n) == pow2 n)%Q.
Proof. intros H. apply (Zpower_Qpower 2 n H). Qed.

Lemma pow2_succ (k : Z) : (pow2 (k + 1) == 2 * pow2 k)%Q.
Proof. rewrite pow2_add. unfold pow2 at 2. rewrite Qpower_1_r. ring. Qed.

Lemma log2_bounds_Q (n : Z) :
  0 < n ->
  (pow2 (Z.log2 n) <= inject_Z n)%Q /\ (inject_Z n < pow2 (Z.log2 n + 1))%Q.
Proof.
  intros Hn. destruct (Z.log2_spec n Hn) as [H1 H2].
  pose proof (Z.log2_nonneg n) as Hl.
  split.
  - rewrite <- pow2_inject by lia. rewrite <- Zle_Qle. exact H1.
  - rewrite <- pow2_inject by lia. rewrite <- Zlt_Qlt.
    replace (Z.log2 n + 1) with (Z.succ (Z.log2 n)) by lia. exact H2.
Qed.

Lemma ilog2_spec (a : Q) :
  (0 < a)%Q -> (pow2 (ilog2 a) <= a)%Q /\ (a < pow2 (ilog2 a + 1))%Q.
Proof.
  intros Ha. unfold ilog2.
  destruct a as [n d]. cbn [Qnum Qden].
  assert (Hn : 0 < n).
  { unfold Qlt in Ha. cbn in Ha. lia. }
  destruct (log2_bounds_Q n Hn) as [N1 N2].
  destruct (log2_bounds_Q (Z.pos d) (Pos2Z.is_pos d)) as [D1 D2].
  set (ln := Z.log2 n) in *. set (ld := Z.log2 (Z.pos d)) in *.
  assert (Had : (n # d == inject_Z n / inject_Z (Z.pos d))%Q) by apply Qmake_Qdiv.
  assert (HD : (0 < inject_Z (Z.pos d))%Q) by (rewrite <- (Zlt_Qlt 0); lia).
  assert (Hmul : ((n # d) * inject_Z (Z.pos d) == inject_Z n)%Q).
  { rewrite Had. field. intros E. rewrite E in HD. apply (Qlt_irrefl 0 HD). }
  pose proof (pow2_pos ld) as Pld. pose proof (pow2_pos (ln - ld)) as Pk.
  assert (Hk : (pow2 ln == pow2 (ln - ld) * pow2 ld)%Q).
  { rewrite <- pow2_add. replace (ln - ld + ld) with ln by lia. reflexivity. }
  pose proof (pow2_succ ln) as S1. pose proof (pow2_succ ld) as S2.
  pose proof (pow2_succ (ln - ld)) as S3.
  pose proof (pow2_succ (ln - ld - 1)) as S4.
  replace (ln - ld - 1 + 1) with (ln - ld) in * by lia.
  generalize dependent (inject_Z n). generalize dependent (inject_Z (Z.pos d)).
  intros D HD1 HD2 HD N HN1 HN2 Had Hmul.
  destruct (Qle_bool (pow2 (ln - ld)) (n # d)) eqn:E.
  - apply Qle_bool_iff in E. split; [exact E|]. nra.
  - assert (E' : ((n # d) < pow2 (ln - ld))%Q).
    { apply Qnot_le_lt. intros Hle. apply Qle_bool_iff in Hle. congruence. }
    replace (ln - ld - 1 + 1) with (ln - ld) by lia.
    split; [|exact E'].
    apply Qlt_le_weak. nra.
Qed.

Lemma rn53_pos_eq (a : Q) :
  (0 < a)%Q ->
  rn53 a = (inject_Z (round_half_even (a * pow2 (- (ilog2 a - 52))))
            * pow2 (ilog2 a - 52))%Q.
Proof.
  intros Ha. unfold rn53.
  assert (Hc : (a ?= 0)%Q = Gt) by (rewrite <- Qgt_alt; exact Ha).
  rewrite Hc.
  assert (Habs : Qabs a = a).
  { destruct a as [n d]. unfold Qlt in Ha. cbn in Ha. cbn.
    rewrite Z.abs_eq by lia. reflexivity. }
  rewrite Habs. reflexivity.
Qed.

Lemma scaled_bounds (a : Q) :
  (0 < a)%Q ->
  (pow2 52 <= a * pow2 (- (ilog2 a - 52)))%Q
  /\ (a * pow2 (- (ilog2 a - 52)) < pow2 53)%Q.
Proof.
  intros Ha. destruct (ilog2_spec a Ha) as [L U].
  set (e := ilog2 a) in *.
  pose proof (pow2_pos (- (e - 52))) as Pi.
  assert (E1 : (pow2 e * pow2 (- (e - 52)) == pow2 52)%Q).
  { rewrite <- pow2_add. replace (e + - (e - 52)) with 52 by lia. reflexivity. }
  assert (E2 : (pow2 (e + 1) * pow2 (- (e - 52)) == pow2 53)%Q).
  { rewrite <- pow2_add. replace (e + 1 + - (e - 52)) with 53 by lia. reflexivity. }
  split.
  - rewrite <- E1. apply Qmult_le_compat_r; [exact L | apply Qlt_le_weak, Pi].
  - rewrite <- E2. apply Qmult_lt_compat_r; [exact Pi | exact U].
Qed.

Lemma rn53_pos_bounds (a : Q) :
  (0 < a)%Q ->
  (pow2 (ilog2 a) <= rn53 a)%Q /\ (rn53 a <= pow2 (ilog2 a + 1))%Q.
Proof.
  intros Ha. rewrite (rn53_pos_eq a Ha).
  destruct (scaled_bounds a Ha) as [L U].
  set (e := ilog2 a) in *.
  set (x := (a * pow2 (- (e - 52)))%Q) in *.
  pose proof (pow2_pos (e - 52)) as Ps.
  assert (R1 : 2 ^ 52 <= round_half_even x).
  { rewrite <- (rhe_inject (2 ^ 52)). apply rhe_mono.
    rewrite pow2_inject by lia. exact L. }
  assert (R2 : round_half_even x <= 2 ^ 53).
  { rewrite <- (rhe_inject (2 ^ 53)). apply rhe_mono.
    rewrite pow2_inject by lia. apply Qlt_le_weak, U. }
  assert (E1 : (pow2 e == inject_Z (2 ^ 52) * pow2 (e - 52))%Q).
  { rewrite pow2_inject by lia. rewrite <- pow2_add.
    replace (52 + (e - 52)) with e by lia. reflexivity. }
  assert (E2 : (pow2 (e + 1) == inject_Z (2 ^ 53) * pow2 (e - 52))%Q).
  { rewrite pow2_inject by lia. rewrite <- pow2_add.
    replace (53 + (e - 52)) with (e + 1) by lia. reflexivity. }
  split.
  - rewrite E1. apply Qmult_le_compat_r; [|apply Qlt_le_weak, Ps].
    rewrite <- Zle_Qle. exact R1.
  - rewrite E2. apply Qmult_le_compat_r; [|apply Qlt_le_weak, Ps].
    rewrite <- Zle_Qle. exact R2.
Qed.

Lemma ilog2_mono (x y : Q) :
  (0 < x)%Q -> (x <= y)%Q -> ilog2 x <= ilog2 y.
Proof.
  intros Hx Hxy.
  assert (Hy : (0 < y)%Q) by (eapply Qlt_le_trans; eassumption).
  destruct (ilog2_spec x Hx) as [Lx Ux]. destruct (ilog2_spec y Hy) as [Ly Uy].
  destruct (Z_le_gt_dec (ilog2 x) (ilog2 y)) as [H|H]; [exact H|exfalso].
  assert (Hp : (pow2 (ilog2 y + 1) <= pow2 (ilog2 x))%Q) by (apply pow2_mono; lia).
  lra.
Qed.

Lemma rn53_mono_pos (x y : Q) :
  (0 < x)%Q -> (x <= y)%Q -> (rn53 x <= rn53 y)%Q.
Proof.
  intros Hx Hxy.
  assert (Hy : (0 < y)%Q) by (eapply Qlt_le_trans; eassumption).
  pose proof (ilog2_mono x y Hx Hxy) as He.
  destruct (Z.eq_dec (ilog2 x) (ilog2 y)) as [E|N].
  - rewrite (rn53_pos_eq x Hx), (rn53_pos_eq y Hy), E.
    pose proof (pow2_pos (ilog2 y - 52)) as Ps.
    pose proof (pow2_pos (- (ilog2 y - 52))) as Pi.
    apply Qmult_le_compat_r; [|apply Qlt_le_weak, Ps].
    rewrite <- Zle_Qle. apply rhe_mono.
    apply Qmult_le_compat_r; [exact Hxy | apply Qlt_le_weak, Pi].
  - destruct (rn53_pos_bounds x Hx) as [_ Ux].
    destruct (rn53_pos_bounds y Hy) as [Ly _].
    assert (Hp : (pow2 (ilog2 x + 1) <= pow2 (ilog2 y))%Q) by (apply pow2_mono; lia).
    lra.
Qed.

Lemma rn53_pos (x : Q) : (0 < x)%Q -> (0 < rn53 x)%Q.
Proof.
  intros Hx. destruct (rn53_pos_bounds x Hx) as [L _].
  pose proof (pow2_pos (ilog2 x)). lra.
Qed.

Lemma rn53_zero (x : Q) : (x == 0)%Q -> rn53 x = 0%Q.
Proof.
  intros Hx. unfold rn53.
  assert (Hc : (x ?= 0)%Q = Eq) by (rewrite <- Qeq_alt; exact Hx).
  rewrite Hc. reflexivity.
Qed.

Lemma rn53_nonneg (x : Q) : (0 <= x)%Q -> (0 <= rn53 x)%Q.
Proof.
  intros Hx. destruct (Qlt_le_dec 0 x) as [H|H].
  - apply Qlt_le_weak, rn53_pos, H.
  - rewrite rn53_zero; [apply Qle_refl | lra].
Qed.

Lemma rn53_le_fixed (x c : Q) :
  (0 <= x)%Q -> (x <= c)%Q -> (rn53 c == c)%Q -> (rn53 x <= c)%Q.
Proof.
  intros H0 Hxc Hc. destruct (Qlt_le_dec 0 x) as [H|H].
  - rewrite <- Hc. apply rn53_mono_pos; assumption.
  - rewrite rn53_zero by lra. lra.
Qed.

(** * The speed text (C2) *)

Lemma Qgt_bool_true (x y : Q) : Qgt_bool x y = true <-> (y < x)%Q.
Proof.
  unfold Qgt_bool. rewrite negb_true_iff.
  split.
  - intros H. apply Qnot_le_lt. intros Hle.
    apply Qle_bool_iff in Hle. congruence.
  - intros H. destruct (Qle_bool x y) eqn:E; [|reflexivity].
    apply Qle_bool_iff in E. exfalso. apply (Qlt_not_le _ _ H E).
Qed.

Lemma Qgt_bool_false (x y : Q) : Qgt_bool x y = false <-> (x <= y)%Q.
Proof.
  unfold Qgt_bool. rewrite negb_false_iff. apply Qle_bool_iff.
Qed.

Lemma truthy_Some (q : Q) : truthy (Some q) = true <-> ~ (q == 0)%Q.
Proof.
  unfold truthy. rewrite negb_true_iff. split.
  - intros H Hq. apply Qeq_bool_iff in Hq. congruence.
  - intros H. destruct (Qeq_bool q 0) eqn:E; [|reflexivity].
    apply Qeq_bool_iff in E. contradiction.
Qed.

Lemma truthy_zero (q : Q) : (q == 0)%Q -> truthy (Some q) = false.
Proof.
  intros H. unfold truthy. apply Qeq_bool_iff in H. rewrite H. reflexivity.
Qed.

Lemma truthy_pos (q : Q) : (0 < q)%Q -> truthy (Some q) = true.
Proof.
  intros H. apply truthy_Some. intros Hq. rewrite Hq in H.
  apply (Qlt_irrefl 0 H).
Qed.

Lemma all_digits_app (a b : string) :
  all_digits a = true -> all_digits b = true -> all_digits (a ++ b) = true.
Proof.
  induction a as [|c a IH]; intros Ha Hb; [exact Hb|].
  change (String c a ++ b) with (String c (a ++ b)).
  cbn [all_digits] in *. apply andb_true_iff in Ha. destruct Ha as [Hc Ha].
  rewrite Hc, (IH Ha Hb). reflexivity.
Qed.

Lemma all_digits_dec (n : Z) : all_digits (dec n) = true.
Proof.
  unfold dec. induction (N.to_uint (Z.to_N n)); cbn; auto.
Qed.

Lemma all_digits_zeros (k : nat) : all_digits (zeros k) = true.
Proof. induction k; cbn; auto. Qed.

Lemma zfill2_length (k : Z) :
  0 <= k < 100 -> String.length (zfill 2 (dec k)) = 2%nat.
Proof.
  intros H.
  assert (A : forallb
                (fun n => Nat.eqb (String.length (zfill 2 (dec (Z.of_nat n)))) 2)
                (seq 0 100) = true) by (vm_compute; reflexivity).
  rewrite forallb_forall in A. specialize (A (Z.to_nat k)).
  rewrite Z2Nat.id in A by lia. apply Nat.eqb_eq, A, in_seq. lia.
Qed.

(** The shape of [f"{x:.2f}"] and of [f"{x:.0f}"] for a non-negative [x]:
    digits, a point and exactly two digits; digits only. *)
Lemma format_f_shape (x : Q) :
  (0 <= x)%Q ->
  (exists whole frac,
      format_f 2 x = whole ++ "." ++ frac
      /\ all_digits whole = true /\ all_digits frac = true
      /\ String.length frac = 2%nat)
  /\ all_digits (format_f 0 x) = true.
Proof.
  intros Hx.
  assert (Hs : match (x ?= 0)%Q with Lt => "-" | _ => "" end = "").
  { destruct (x ?= 0)%Q eqn:E; try reflexivity.
    rewrite <- Qlt_alt in E. exfalso. apply (Qlt_not_le _ _ E Hx). }
  unfold format_f. rewrite Hs. split.
  - eexists _, _. split; [reflexivity|].
    split; [apply all_digits_dec | split].
    + apply all_digits_app; [apply all_digits_zeros | apply all_digits_dec].
    + apply zfill2_length. apply Z.mod_pos_bound. reflexivity.
  - apply all_digits_dec.
Qed.

(** C2, as worded, fails at the thresholds themselves: a rate of exactly
    1024 B/s is printed in bytes, and a rate of exactly 1024 KiB/s in KiB. *)
Lemma speed_threshold_counterexample :
  hook_speed (Some 1024%Q) = "1024 B/s"
  /\ speed_spec (Some 1024%Q) = "1.00 KiB/s"
  /\ hook_speed (Some (inject_Z (1024 ^ 2))) = "1024.00 KiB/s"
  /\ speed_spec (Some (inject_Z (1024 ^ 2))) = "1.00 MiB/s"
  /\ hook_speed (Some 1024%Q) <> speed_spec (Some 1024%Q).
Proof.
  repeat split; try (vm_compute; reflexivity).
  vm_compute. discriminate.
Qed.

(** C2 (amended): the speed text follows binary thresholds that must be
    exceeded: a rate above 1 GiB/s is printed in GiB/s with two decimals, a
    rate above 1 MiB/s and at most 1 GiB/s in MiB/s, a rate above 1 KiB/s and
    at most 1 MiB/s in KiB/s, any other nonzero rate in B/s with no decimals,
    and an unknown or zero rate gives the empty text; 500, 2048, 5*1024*1024
    and 3*1024**3 give "500 B/s", "2.00 KiB/s", "5.00 MiB/s", "3.00 GiB/s";
    the two-decimal text is digits, a point and two digits, the text without
    decimals is digits only. *)
Theorem speed_thresholds (r : Q) :
  ((inject_Z (1024 ^ 3) < r)%Q ->
     hook_speed (Some r)
     = format_f 2 (PyFloat.truediv r (inject_Z (1024 ^ 3))) ++ " GiB/s")
  /\ ((inject_Z (1024 ^ 2) < r)%Q -> (r <= inject_Z (1024 ^ 3))%Q ->
     hook_speed (Some r)
     = format_f 2 (PyFloat.truediv r (inject_Z (1024 ^ 2))) ++ " MiB/s")
  /\ ((1024 < r)%Q -> (r <= inject_Z (1024 ^ 2))%Q ->
     hook_speed (Some r) = format_f 2 (PyFloat.truediv r 1024) ++ " KiB/s")
  /\ ((r <= 1024)%Q -> ~ (r == 0)%Q ->
     hook_speed (Some r) = format_f 0 (PyFloat.rn53 r) ++ " B/s")
  /\ ((r == 0)%Q -> hook_speed (Some r) = "")
  /\ hook_speed None = ""
  /\ hook_speed (Some 500%Q) = "500 B/s"
  /\ hook_speed (Some 2048%Q) = "2.00 KiB/s"
  /\ hook_speed (Some (inject_Z (5 * 1024 * 1024))) = "5.00 MiB/s"
  /\ hook_speed (Some (inject_Z (3 * 1024 ^ 3))) = "3.00 GiB/s"
  /\ (forall x, (0 <= x)%Q ->
       (exists whole frac,
           format_f 2 x = whole ++ "." ++ frac
           /\ all_digits whole = true /\ all_digits frac = true
           /\ String.length frac = 2%nat)
       /\ all_digits (format_f 0 x) = true).
Proof.
  assert (H32 : (inject_Z (1024 ^ 2) < inject_Z (1024 ^ 3))%Q) by reflexivity.
  assert (H21 : (1024 < inject_Z (1024 ^ 2))%Q) by reflexivity.
  assert (H10 : (0 < 1024)%Q) by reflexivity.
  split; [|split; [|split; [|split; [|split;
    [|repeat (split; [vm_compute; reflexivity|]); apply format_f_shape]]]]].
  - intros H. unfold hook_speed.
    rewrite truthy_pos by (eapply Qlt_trans; [|exact H]; reflexivity).
    apply Qgt_bool_true in H. rewrite H. reflexivity.
  - intros H Hle. unfold hook_speed.
    rewrite truthy_pos by (eapply Qlt_trans; [|exact H]; reflexivity).
    apply Qgt_bool_false in Hle. rewrite Hle.
    apply Qgt_bool_true in H. rewrite H. reflexivity.
  - intros H Hle. unfold hook_speed.
    rewrite truthy_pos by (eapply Qlt_trans; [exact H10 | exact H]).
    assert (Hle3 : (r <= inject_Z (1024 ^ 3))%Q)
      by (eapply Qle_trans; [exact Hle | apply Qlt_le_weak, H32]).
    apply Qgt_bool_false in Hle, Hle3. rewrite Hle3, Hle.
    apply Qgt_bool_true in H. rewrite H. reflexivity.
  - intros Hle Hnz. unfold hook_speed.
    apply truthy_Some in Hnz. rewrite Hnz.
    assert (Hle2 : (r <= inject_Z (1024 ^ 2))%Q)
      by (eapply Qle_trans; [exact Hle | apply Qlt_le_weak, H21]).
    assert (Hle3 : (r <= inject_Z (1024 ^ 3))%Q)
      by (eapply Qle_trans; [exact Hle2 | apply Qlt_le_weak, H32]).
    apply Qgt_bool_false in Hle, Hle2, Hle3. rewrite Hle3, Hle2, Hle.
    reflexivity.
  - intros H. unfold hook_speed. rewrite (truthy_zero _ H). reflexivity.
Qed.

Lemma speed_thresholds_witness :
  (inject_Z (1024 ^ 2) < 3000000)%Q /\ (3000000 <= inject_Z (1024 ^ 3))%Q
  /\ hook_speed (Some 3000000%Q)
     = format_f 2 (PyFloat.truediv 3000000 (inject_Z (1024 ^ 2))) ++ " MiB/s".
Proof.
  assert (H1 : (inject_Z (1024 ^ 2) < 3000000)%Q) by reflexivity.
  assert (H2 : (3000000 <= inject_Z (1024 ^ 3))%Q) by (vm_compute; discriminate).
  split; [exact H1 | split; [exact H2 |]].
  exact (proj1 (proj2 (speed_thresholds 3000000)) H1 H2).
Defined.

(** * The progress percentage (C3) *)

(** C3, as worded, fails: with an estimate below the downloaded count the
    stored percentage is 150. *)
Lemma percent_above_100_counterexample :
  hook_percent low_estimate_event = 150
  /\ (progress_percent <$>
        (hook "job-1" ["Season 01"; "Show [imdbid-tt1234567]"; "data"]
              low_estimate_event ∅ demo_running !! "job-1"))
     = Some (Some 150)
  /\ ~ (0 <= hook_percent low_estimate_event <= 100).
Proof.
  assert (H : hook_percent low_estimate_event = 150) by (vm_compute; reflexivity).
  split; [exact H | split].
  - vm_compute. reflexivity.
  - rewrite H. lia.
Qed.

Lemma int_nonneg (x : Q) : (0 <= x)%Q -> 0 <= PyFloat.int x.
Proof.
  intros H. unfold PyFloat.int.
  apply Qle_bool_iff in H. rewrite H.
  apply Qle_bool_iff in H. rewrite <- (Qfloor_Z 0). apply Qfloor_resp_le, H.
Qed.

Lemma int_le (x : Q) (z : Z) : (0 <= x)%Q -> (x <= inject_Z z)%Q -> PyFloat.int x <= z.
Proof.
  intros H Hz. unfold PyFloat.int.
  apply Qle_bool_iff in H. rewrite H.
  rewrite <- (Qfloor_Z z). apply Qfloor_resp_le, Hz.
Qed.

Lemma percent_value_bounds (dl t : Q) :
  (0 < t)%Q -> (0 <= dl)%Q ->
  0 <= PyFloat.int (PyFloat.mul (PyFloat.truediv dl t) 100)
  /\ ((dl <= t)%Q ->
      PyFloat.int (PyFloat.mul (PyFloat.truediv dl t) 100) <= 100).
Proof.
  intros Ht Hd. unfold PyFloat.mul, PyFloat.truediv.
  assert (Hq : (0 <= dl / t)%Q).
  { apply Qle_shift_div_l; [exact Ht | lra]. }
  pose proof (rn53_nonneg _ Hq) as Hx.
  assert (Hy : (0 <= rn53 (dl / t) * 100)%Q) by lra.
  split.
  - apply int_nonneg, rn53_nonneg, Hy.
  - intros Hle.
    assert (Hq1 : (dl / t <= 1)%Q).
    { apply Qle_shift_div_r; [exact Ht | lra]. }
    assert (Hx1 : (rn53 (dl / t) <= 1)%Q).
    { apply rn53_le_fixed; [exact Hq | exact Hq1 | vm_compute; reflexivity]. }
    apply int_le; [apply rn53_nonneg, Hy |].
    change (inject_Z 100) with 100%Q.
    apply rn53_le_fixed; [exact Hy | lra | vm_compute; reflexivity].
Qed.

Lemma hook_percent_falsy (d : Event) :
  truthy (py_or (total_bytes d) (total_bytes_estimate d)) = false ->
  hook_percent d = 0.
Proof.
  intros H. unfold hook_percent.
  destruct (py_or (total_bytes d) (total_bytes_estimate d)) as [t|]; [|reflexivity].
  rewrite H. reflexivity.
Qed.

Lemma hook_percent_truthy (d : Event) (t : Q) :
  py_or (total_bytes d) (total_bytes_estimate d) = Some t ->
  truthy (Some t) = true ->
  hook_percent d
  = PyFloat.int (PyFloat.mul
      (PyFloat.truediv (default 0%Q (downloaded_bytes d)) t) 100).
Proof.
  intros H Ht. unfold hook_percent. rewrite H, Ht. reflexivity.
Qed.

Lemma hook_percent_in_range (d : Event) :
  event_in_range d = true -> 0 <= hook_percent d <= 100.
Proof.
  unfold event_in_range. intros H.
  destruct (py_or (total_bytes d) (total_bytes_estimate d)) as [t|] eqn:E.
  - destruct (truthy (Some t)) eqn:Et.
    + rewrite (hook_percent_truthy d t E Et).
      apply andb_true_iff in H. destruct H as [H0 H1].
      apply Qle_bool_iff in H0, H1.
      apply truthy_Some in Et.
      assert (Hpos : (0 < t)%Q).
      { destruct (Qlt_le_dec 0 t) as [L|L]; [exact L|].
        exfalso. apply Et. lra. }
      destruct (percent_value_bounds _ t Hpos H0) as [B0 B1].
      split; [exact B0 | exact (B1 H1)].
    + rewrite hook_percent_falsy by (rewrite E; exact Et). lia.
  - rewrite hook_percent_falsy by (rewrite E; reflexivity). lia.
Qed.

Lemma hook_lookup (job_id j : string) (sd : Fs.Path) (d : Event)
    (fs : gmap (list string) Fs.Node) (jobs : gmap string JobMeta) (m' : JobMeta) :
  hook job_id sd d fs jobs !! j = Some m' ->
  jobs !! j = Some m'
  \/ (j = job_id
      /\ exists m, jobs !! job_id = Some m
         /\ m' = hook_update (hook_percent d) (default "" (info_title d))
                   (hook_speed (ev_speed d))
                   (count_media_files fs sd ".mp4") m).
Proof.
  unfold hook. intros H.
  destruct (negb _); [left; exact H|].
  destruct (jobs !! job_id) as [m|] eqn:E; [|left; exact H].
  destruct (decide (j = job_id)) as [->|N].
  - rewrite lookup_insert_eq in H. inversion H. right. eauto.
  - rewrite lookup_insert_ne in H by congruence. left; exact H.
Qed.

Lemma hook_stores (job_id : string) (sd : Fs.Path) (d : Event)
    (fs : gmap (list string) Fs.Node) (jobs : gmap string JobMeta) (m : JobMeta) :
  jobs !! job_id = Some m ->
  ev_status d = Some "downloading" \/ ev_status d = Some "finished" ->
  hook job_id sd d fs jobs !! job_id
  = Some (hook_update (hook_percent d) (default "" (info_title d))
            (hook_speed (ev_speed d)) (count_media_files fs sd ".mp4") m).
Proof.
  intros Hm Hs. unfold hook.
  assert (Hb : negb (bool_decide (ev_status d = Some "downloading")
                     || bool_decide (ev_status d = Some "finished")) = false).
  { apply negb_false_iff, orb_true_iff.
    destruct Hs as [Hs|Hs]; [left|right]; apply bool_decide_eq_true; exact Hs. }
  rewrite Hb, Hm. apply lookup_insert_eq.
Qed.

Lemma download_percent_in_range (BASE : Fs.Path) (job_id : string)
    (payload : RequestPayload) (actions : list DlAction) :
  forallb action_in_range actions = true ->
  forall w,
    (forall j m, w.1 !! j = Some m -> percent_in_range m) ->
    forall j m,
      (download BASE job_id payload actions w).1 !! j = Some m ->
      percent_in_range m.
Proof.
  unfold download.
  induction actions as [|a actions IH]; intros Hall w Hw j m; cbn [fold_left].
  - apply Hw.
  - cbn in Hall. apply andb_true_iff in Hall. destruct Hall as [Ha Hall].
    apply (IH Hall). clear j m IH.
    intros j m. destruct a as [p n|d]; cbn [dl_step fst snd].
    + apply Hw.
    + intros H. apply hook_lookup in H.
      destruct H as [H|(-> & m0 & Hm0 & ->)]; [exact (Hw _ _ H)|].
      unfold percent_in_range. cbn.
      apply hook_percent_in_range. exact Ha.
Qed.

(** C3 (amended): the stored [progress_percent] is 0 when the runner starts
    and 100 on finish; a progress event stores 0 when the total is unknown
    or zero and otherwise the integer part of [(downloaded / total) * 100]
    as computed in double precision; that value is never negative for
    non-negative counts, and lies in 0..100 whenever the downloaded count
    does not exceed the total, for single events and along every sequence of
    such events. *)
Theorem progress_percent_range (BASE : Fs.Path) (d : Event)
    (job_id now : string) (payload : RequestPayload) (sd : Fs.Path)
    (fs : gmap (list string) Fs.Node) (jobs : gmap string JobMeta)
    (m : JobMeta) (actions : list DlAction) :
  let total := py_or (total_bytes d) (total_bytes_estimate d) in
  let downloaded := default 0%Q (downloaded_bytes d) in
  progress_percent (set_running now m) = Some 0
  /\ progress_percent (set_finished now sd m) = Some 100
  /\ (jobs !! job_id = Some m ->
      ev_status d = Some "downloading" \/ ev_status d = Some "finished" ->
      progress_percent <$> (hook job_id sd d fs jobs !! job_id)
      = Some (Some (hook_percent d)))
  /\ (truthy total = false -> hook_percent d = 0)
  /\ (forall t, total = Some t -> truthy total = true ->
      hook_percent d
      = PyFloat.int (PyFloat.mul (PyFloat.truediv downloaded t) 100))
  /\ (forall t, total = Some t -> (0 < t)%Q -> (0 <= downloaded)%Q ->
      0 <= hook_percent d
      /\ ((downloaded <= t)%Q -> hook_percent d <= 100))
  /\ (forallb action_in_range actions = true ->
      (forall j mj, jobs !! j = Some mj -> percent_in_range mj) ->
      forall j mj,
        (download BASE job_id payload actions (jobs, fs)).1 !! j = Some mj ->
        percent_in_range mj).
Proof.
  intros total downloaded. subst total downloaded.
  split; [reflexivity | split; [reflexivity |]].
  split; [|split; [|split; [|split]]].
  - intros Hm Hs. rewrite (hook_stores _ _ _ _ _ _ Hm Hs). reflexivity.
  - apply hook_percent_falsy.
  - intros t Ht Htr. rewrite Ht in Htr. apply hook_percent_truthy; assumption.
  - intros t Ht Hpos Hd.
    rewrite (hook_percent_truthy d t Ht (truthy_pos t Hpos)).
    apply percent_value_bounds; assumption.
  - intros Hall Hj. apply download_percent_in_range; assumption.
Qed.

Lemma progress_percent_range_witness :
  0 <= hook_percent half_way_event
  /\ hook_percent half_way_event <= 100
  /\ (progress_percent <$>
        (hook "job-1" ["Season 01"] half_way_event ∅ demo_running !! "job-1"))
     = Some (Some (hook_percent half_way_event)).
Proof.
  pose proof (progress_percent_range [] half_way_event "job-1" "t" demo_payload
                ["Season 01"] ∅ demo_running
                (set_running "2024-01-01T10:00:01"
                   (new_job demo_payload "2024-01-01T10:00:00")) [])
    as (_ & _ & Hst & _ & _ & Hb & _).
  destruct (Hb 1000%Q eq_refl eq_refl) as [B0 B1]; [vm_compute; discriminate|].
  split; [exact B0 | split].
  - apply B1. vm_compute. discriminate.
  - apply Hst; [reflexivity | left; reflexivity].
Defined.

(** * Folder and file names (C8) *)

(** C8, as worded, fails for a display name with surrounding white space:
    the folder and the template are built from the stripped name; and it
    fails for a display name with a "/": the name is joined as a path, so the
    root output folder is nested and named after the last component only. *)
Lemma folder_name_counterexample :
  valid_payload padded_payload = true
  /\ main_folder_name padded_payload = "Show [imdbid-tt1234567]"
  /\ root_folder_spec padded_payload = " Show [imdbid-tt1234567]"
  /\ main_folder_name padded_payload <> root_folder_spec padded_payload
  /\ output_template padded_payload <> output_template_spec padded_payload
  /\ valid_payload slash_payload = true
  /\ root_folder_spec slash_payload = "AC/DC [imdbid-tt1234567]"
  /\ main_dir demo_base slash_payload
     = ["DC [imdbid-tt1234567]"; "AC"; "data"]
  /\ main_dir demo_base slash_payload
     <> root_folder_spec slash_payload :: demo_base.
Proof.
  repeat split; try (vm_compute; discriminate).
Qed.

Lemma append_cons (c : ascii) (a b : string) :
  String c a ++ b = String c (a ++ b).
Proof. reflexivity. Qed.

Lemma append_nil_l (b : string) : "" ++ b = b.
Proof. reflexivity. Qed.

Lemma lstrip_spec (s : string) :
  exists pre, s = pre ++ PyStr.lstrip s
              /\ all_space pre = true
              /\ starts_with_space (PyStr.lstrip s) = false.
Proof.
  induction s as [|c s IH]; cbn [PyStr.lstrip].
  - exists "". auto.
  - destruct (PyStr.isspace c) eqn:E.
    + destruct IH as (pre & H1 & H2 & H3).
      exists (String c pre). split; [|split].
      * rewrite append_cons. f_equal. exact H1.
      * cbn [all_space]. rewrite E, H2. reflexivity.
      * exact H3.
    + exists "". rewrite append_nil_l. cbn [all_space starts_with_space]. auto.
Qed.

Lemma rstrip_spec (s : string) :
  exists post, s = PyStr.rstrip s ++ post
               /\ all_space post = true
               /\ ends_with_space (PyStr.rstrip s) = false.
Proof.
  induction s as [|c s IH]; cbn [PyStr.rstrip].
  - exists "". auto.
  - destruct IH as (post & H1 & H2 & H3).
    destruct (PyStr.rstrip s) as [|c' r] eqn:Er.
    + rewrite append_nil_l in H1. subst post.
      destruct (PyStr.isspace c) eqn:E.
      * exists (String c s). rewrite append_nil_l.
        cbn [all_space ends_with_space]. rewrite E, H2. auto.
      * exists s. rewrite append_cons, append_nil_l.
        cbn [all_space ends_with_space]. rewrite E. auto.
    + exists post. rewrite append_cons, <- H1.
      split; [reflexivity | split; [exact H2 |]].
      cbn [ends_with_space] in *. exact H3.
Qed.

Lemma rstrip_keeps_head (s : string) :
  starts_with_space s = false -> starts_with_space (PyStr.rstrip s) = false.
Proof.
  destruct s as [|c s]; [auto|]. cbn [PyStr.rstrip starts_with_space].
  intros H. destruct (PyStr.rstrip s); [rewrite H|]; cbn; auto.
Qed.

Lemma strip_spec (s : string) :
  exists pre post,
    s = pre ++ PyStr.strip s ++ post
    /\ all_space pre = true /\ all_space post = true
    /\ starts_with_space (PyStr.strip s) = false
    /\ ends_with_space (PyStr.strip s) = false.
Proof.
  unfold PyStr.strip.
  destruct (lstrip_spec s) as (pre & H1 & H2 & H3).
  destruct (rstrip_spec (PyStr.lstrip s)) as (post & H4 & H5 & H6).
  exists pre, post. rewrite <- H4, <- H1.
  repeat split; auto using rstrip_keeps_head.
Qed.

Lemma dec_digit (z : Z) : 0 <= z < 10 -> String.length (dec z) = 1%nat.
Proof.
  intros H.
  assert (C : z = 0 \/ z = 1 \/ z = 2 \/ z = 3 \/ z = 4 \/ z = 5 \/ z = 6
              \/ z = 7 \/ z = 8 \/ z = 9) by lia.
  repeat (destruct C as [->|C]; [reflexivity|]). subst. reflexivity.
Qed.

Lemma dec_length_ge2 (z : Z) : 10 <= z -> (2 <= String.length (dec z))%nat.
Proof.
  intros H. unfold dec.
  pose proof (DecimalN.Unsigned.of_to (Z.to_N z)) as R.
  assert (Hn : (10 <= Z.to_N z)%N) by lia.
  destruct (N.to_uint (Z.to_N z)) as [|u|u|u|u|u|u|u|u|u|u];
    try (cbn in R; lia);
    (destruct u; [cbn in R; lia | cbn; lia ..]).
Qed.

Lemma format_02d_small (z : Z) :
  0 <= z < 10 -> format_0d 2 z = "0" ++ dec z.
Proof.
  intros H. unfold format_0d, zfill.
  destruct (z <? 0) eqn:E; [lia|].
  rewrite (dec_digit z H). reflexivity.
Qed.

Lemma format_02d_large (z : Z) : 10 <= z -> format_0d 2 z = dec z.
Proof.
  intros H. unfold format_0d, zfill.
  destruct (z <? 0) eqn:E; [lia|].
  pose proof (dec_length_ge2 z H) as L.
  replace (2 - String.length (dec z))%nat with 0%nat by lia. reflexivity.
Qed.

(** * Counting finished files (C9) *)

Lemma is_file_lookup (fs : gmap (list string) Fs.Node) (p : Fs.Path) :
  Fs.is_file fs p = true -> fs !! p = Some Fs.RegularFile.
Proof.
  unfold Fs.is_file, Fs.node. intros H.
  destruct (Fs.is_anchor p); [discriminate|].
  destruct (fs !! p) as [[]|]; congruence.
Qed.

Lemma media_entries_elem (fs : gmap (list string) Fs.Node) (folder : Fs.Path)
    (suffix : string) (p : Fs.Path) :
  p ∈ List.filter (is_media fs suffix) (Fs.iterdir fs folder)
  <-> Fs.child_of folder p = true /\ is_media fs suffix p = true.
Proof.
  unfold Fs.iterdir.
  rewrite list_elem_of_In, filter_In, filter_In, <- list_elem_of_In.
  split; [tauto|]. intros [Hc Hm]. repeat split; try assumption.
  unfold is_media in Hm. apply andb_true_iff in Hm. destruct Hm as [Hf _].
  apply is_file_lookup in Hf.
  apply list_elem_of_fmap. exists (p, Fs.RegularFile). split; [reflexivity|].
  apply elem_of_map_to_list. exact Hf.
Qed.

Lemma media_entries_NoDup (fs : gmap (list string) Fs.Node) (folder : Fs.Path)
    (suffix : string) :
  NoDup (List.filter (is_media fs suffix) (Fs.iterdir fs folder)).
Proof.
  unfold Fs.iterdir. apply NoDup_ListNoDup.
  apply List.NoDup_filter, List.NoDup_filter, NoDup_ListNoDup.
  apply NoDup_fst_map_to_list.
Qed.

(** The count depends on the directory and its direct entries only. *)
Lemma count_media_files_ext (fs1 fs2 : gmap (list string) Fs.Node)
    (folder : Fs.Path) (suffix : string) :
  Fs.node fs1 folder = Fs.node fs2 folder ->
  (forall p, Fs.child_of folder p = true -> Fs.node fs1 p = Fs.node fs2 p) ->
  count_media_files fs1 folder suffix = count_media_files fs2 folder suffix.
Proof.
  intros Hf Hc. unfold count_media_files, Fs.is_dir. rewrite Hf.
  destruct (negb _); [reflexivity|]. f_equal.
  apply Permutation_length, NoDup_Permutation; try apply media_entries_NoDup.
  intros p.
  change (p ∈ List.filter (is_media fs1 suffix) (Fs.iterdir fs1 folder)
          <-> p ∈ List.filter (is_media fs2 suffix) (Fs.iterdir fs2 folder)).
  rewrite !media_entries_elem.
  split; intros [H1 H2]; (split; [exact H1|]);
    unfold is_media, Fs.is_file in *;
    [rewrite <- (Hc p H1) | rewrite (Hc p H1)]; exact H2.
Qed.

Lemma hook_update_twice (percent : Z) (title speed_text : string) (n : Z)
    (m : JobMeta) :
  hook_update percent title speed_text n
    (hook_update percent title speed_text n m)
  = hook_update percent title speed_text n m.
Proof. reflexivity. Qed.

Lemma hook_idempotent (job_id : string) (sd : Fs.Path) (d : Event)
    (fs : gmap (list string) Fs.Node) (jobs : gmap string JobMeta) :
  hook job_id sd d fs (hook job_id sd d fs jobs) = hook job_id sd d fs jobs.
Proof.
  unfold hook.
  destruct (negb _); [reflexivity|].
  destruct (jobs !! job_id) as [m|] eqn:E.
  - rewrite lookup_insert_eq, hook_update_twice. apply insert_insert_eq.
  - rewrite E. reflexivity.
Qed.

(** C9: the episode count is re-derived from the directory: it is 0 when the
    folder is not a directory, it depends only on the folder and its direct
    entries, evaluating it (the hook included) leaves the file system as it
    was, the value the hook stores is that count whatever was stored before,
    and running the hook again on the same event and directory changes
    nothing. *)
Theorem current_episode_rederived (job_id : string) (sd folder : Fs.Path)
    (suffix : string) (d : Event) (fs fs' : gmap (list string) Fs.Node)
    (jobs : gmap string JobMeta) (m : JobMeta) :
  (Fs.is_dir fs folder = false -> count_media_files fs folder suffix = 0)
  /\ (Fs.node fs folder = Fs.node fs' folder ->
      (forall p, Fs.child_of folder p = true -> Fs.node fs p = Fs.node fs' p) ->
      count_media_files fs folder suffix = count_media_files fs' folder suffix)
  /\ (dl_step job_id sd (DlHook d) (jobs, fs)).2 = fs
  /\ (jobs !! job_id = Some m ->
      ev_status d = Some "downloading" \/ ev_status d = Some "finished" ->
      current_episode <$> (hook job_id sd d fs jobs !! job_id)
      = Some (Some (count_media_files fs sd ".mp4")))
  /\ hook job_id sd d fs (hook job_id sd d fs jobs) = hook job_id sd d fs jobs.
Proof.
  split; [|split; [|split; [|split]]].
  - intros H. unfold count_media_files. rewrite H. reflexivity.
  - apply count_media_files_ext.
  - reflexivity.
  - intros Hm Hs. rewrite (hook_stores _ _ _ _ _ _ Hm Hs). reflexivity.
  - apply hook_idempotent.
Qed.

Lemma current_episode_rederived_witness :
  count_media_files demo_fs ["Season 02"; "Show [imdbid-tt1234567]"; "data"] ".mp4" = 0
  /\ current_episode <$>
       (hook "job-1" demo_season_dir half_way_event demo_fs demo_running !! "job-1")
     = Some (Some 2).
Proof.
  pose proof (current_episode_rederived "job-1" demo_season_dir
                ["Season 02"; "Show [imdbid-tt1234567]"; "data"] ".mp4"
                half_way_event demo_fs demo_fs demo_running
                (set_running "2024-01-01T10:00:01"
                   (new_job demo_payload "2024-01-01T10:00:00")))
    as (H0 & _ & _ & Hst & _).
  split.
  - apply H0. vm_compute. reflexivity.
  - rewrite Hst; [vm_compute; reflexivity | reflexivity | left; reflexivity].
Defined.

(** * Directories (C4, C10) *)

Lemma no_slash_app (a b : string) :
  no_slash a = true -> no_slash b = true -> no_slash (a ++ b) = true.
Proof.
  induction a as [|c a IH]; intros Ha Hb; [exact Hb|].
  rewrite append_cons. cbn [no_slash] in *.
  apply andb_true_iff in Ha. destruct Ha as [Hc Ha].
  rewrite Hc, (IH Ha Hb). reflexivity.
Qed.

Lemma no_slash_uint (u : Decimal.uint) :
  no_slash (NilEmpty.string_of_uint u) = true.
Proof. induction u; cbn; auto. Qed.

Lemma no_slash_zeros (k : nat) : no_slash (zeros k) = true.
Proof. induction k; cbn; auto. Qed.

Lemma no_slash_format_0d (w : nat) (z : Z) : no_slash (format_0d w z) = true.
Proof.
  unfold format_0d, zfill, dec.
  destruct (z <? 0); repeat apply no_slash_app;
    auto using no_slash_zeros, no_slash_uint.
Qed.

Lemma split_no_slash (s : string) :
  no_slash s = true -> PyStr.split "/" s = [s].
Proof.
  induction s as [|c s IH]; intros H; [reflexivity|].
  cbn [no_slash] in H. apply andb_true_iff in H. destruct H as [Hc Hs].
  apply negb_true_iff in Hc. cbn [PyStr.split]. rewrite Hc, (IH Hs). reflexivity.
Qed.

Lemma joinpath_single (p : Fs.Path) (c : ascii) (s : string) :
  no_slash (String c s) = true -> String c s <> "." ->
  Fs.joinpath p (String c s) = String c s :: p.
Proof.
  intros H Hd. unfold Fs.joinpath, Fs.parts.
  rewrite (split_no_slash _ H).
  assert (Hp : PyStr.startswith "/" (String c s) = false).
  { cbn [no_slash] in H. apply andb_true_iff in H. destruct H as [Hc _].
    apply negb_true_iff in Hc.
    change (PyStr.startswith "/" (String c s))
      with (if ascii_dec "/"%char c then String.prefix "" s else false).
    destruct (ascii_dec "/" c) as [<-|N]; [discriminate|reflexivity]. }
  rewrite Hp. cbn [List.filter].
  assert (Hdot : String.eqb (String c s) "." = false).
  { apply String.eqb_neq. exact Hd. }
  rewrite Hdot. reflexivity.
Qed.

Lemma season_dir_cons (BASE : Fs.Path) (payload : RequestPayload) :
  season_dir BASE payload = season_folder_name payload :: main_dir BASE payload.
Proof.
  unfold season_dir, season_folder_name.
  change ("Season " ++ format_0d 2 (season payload))
    with (String "S" ("eason " ++ format_0d 2 (season payload))).
  apply joinpath_single.
  - change (String "S" ("eason " ++ format_0d 2 (season payload)))
      with ("Season " ++ format_0d 2 (season payload)).
    apply no_slash_app; [reflexivity | apply no_slash_format_0d].
  - discriminate.
Qed.

Lemma is_dir_exists (fs : gmap (list string) Fs.Node) (p : Fs.Path) :
  Fs.is_dir fs p = true -> Fs.exists_ fs p = true.
Proof.
  unfold Fs.is_dir, Fs.exists_. destruct (Fs.node fs p) as [[]|]; congruence.
Qed.

Lemma mkdir_unfold (parents exist_ok : bool) (p : Fs.Path)
    (fs : gmap (list string) Fs.Node) :
  Fs.mkdir parents exist_ok p fs =
  match Fs.os_mkdir p fs with
  | inr fs' => inr fs'
  | inl e =>
      if bool_decide (exc_class e = FileNotFoundError) then
        match p with
        | _ :: par =>
            if negb parents then inl e
            else match Fs.mkdir true true par fs with
                 | inl e' => inl e'
                 | inr fs1 => Fs.mkdir_flat exist_ok p fs1
                 end
        | [] => inl e
        end
      else if negb exist_ok || negb (Fs.is_dir fs p) then inl e
      else inr fs
  end.
Proof. destruct p; reflexivity. Qed.

Lemma os_mkdir_exists (p : Fs.Path) (fs : gmap (list string) Fs.Node) :
  Fs.exists_ fs p = true ->
  Fs.os_mkdir p fs
  = inl {| exc_class := FileExistsError;
           exc_text := Fs.errno_text "[Errno 17] File exists" p |}.
Proof. intros H. unfold Fs.os_mkdir. rewrite H. reflexivity. Qed.

(** [mkdir(exist_ok=False)] on a path that exists raises [FileExistsError]
    and changes nothing. *)
Lemma mkdir_exclusive (parents : bool) (p : Fs.Path)
    (fs : gmap (list string) Fs.Node) :
  Fs.exists_ fs p = true ->
  Fs.mkdir parents false p fs
  = inl {| exc_class := FileExistsError;
           exc_text := Fs.errno_text "[Errno 17] File exists" p |}.
Proof.
  intros H. rewrite mkdir_unfold, (os_mkdir_exists p fs H). reflexivity.
Qed.

(** [mkdir(exist_ok=True)] on a directory that exists does nothing. *)
Lemma mkdir_existing_dir (parents : bool) (p : Fs.Path)
    (fs : gmap (list string) Fs.Node) :
  Fs.is_dir fs p = true -> Fs.mkdir parents true p fs = inr fs.
Proof.
  intros H. rewrite mkdir_unfold, (os_mkdir_exists p fs (is_dir_exists _ _ H)).
  cbn. rewrite H. reflexivity.
Qed.

Lemma anchor_length (p : Fs.Path) : Fs.is_anchor p = true -> (length p <= 1)%nat.
Proof.
  unfold Fs.is_anchor. intros H. apply orb_true_iff in H.
  destruct H as [H|H]; apply bool_decide_eq_true in H; subst; cbn; lia.
Qed.

Lemma node_insert_eq (p : Fs.Path) (n : Fs.Node) (fs : gmap (list string) Fs.Node) :
  Fs.is_anchor p = false -> Fs.node (<[p := n]> fs) p = Some n.
Proof. intros H. unfold Fs.node. rewrite H. apply lookup_insert_eq. Qed.

Lemma os_mkdir_fresh (p : Fs.Path) (fs : gmap (list string) Fs.Node) :
  Fs.exists_ fs p = false -> Fs.is_dir fs (tail p) = true ->
  Fs.os_mkdir p fs = inr (<[p := Fs.Directory]> fs).
Proof.
  intros H Hd. unfold Fs.os_mkdir. rewrite H.
  unfold Fs.is_dir in Hd. destruct (Fs.node fs (tail p)) as [[]|]; congruence.
Qed.

Lemma not_exists_not_anchor (p : Fs.Path) (fs : gmap (list string) Fs.Node) :
  Fs.exists_ fs p = false -> Fs.is_anchor p = false /\ fs !! p = None.
Proof.
  unfold Fs.exists_, Fs.node. destruct (Fs.is_anchor p); [discriminate|].
  destruct (fs !! p); [discriminate|auto].
Qed.

Lemma clear_way_not_blocked (fs : gmap (list string) Fs.Node) (p : Fs.Path) :
  clear_way fs p = true -> Fs.blocked fs p = false.
Proof.
  induction p as [|c par IH]; cbn [clear_way Fs.blocked];
    destruct (Fs.node fs _) as [[]|]; try discriminate; auto.
Qed.

(** [mkdir(parents=True, exist_ok=True)] succeeds when nothing but
    directories lies on the way: the path is a directory afterwards, entries
    below it and entries that existed are as before. *)
Lemma mkdir_parents_ok (p : Fs.Path) (fs : gmap (list string) Fs.Node) :
  clear_way fs p = true ->
  exists fs',
    Fs.mkdir true true p fs = inr fs'
    /\ Fs.is_dir fs' p = true
    /\ (forall q, (length p < length q)%nat -> fs' !! q = fs !! q)
    /\ (forall q n, fs !! q = Some n -> fs' !! q = Some n).
Proof.
  induction p as [|c par IH]; intros Hw.
  - exists fs. rewrite mkdir_existing_dir by reflexivity. auto.
  - cbn [clear_way] in Hw.
    destruct (Fs.node fs (c :: par)) as [n|] eqn:En.
    + destruct n; try discriminate.
      assert (Hd : Fs.is_dir fs (c :: par) = true)
        by (unfold Fs.is_dir; rewrite En; reflexivity).
      exists fs. rewrite mkdir_existing_dir by exact Hd. auto.
    + assert (Hex : Fs.exists_ fs (c :: par) = false)
        by (unfold Fs.exists_; rewrite En; reflexivity).
      destruct (not_exists_not_anchor _ _ Hex) as [Hna Hnone].
      destruct (IH Hw) as (fs1 & Hmk & Hd1 & Hbelow & Hkeep).
      destruct (Fs.is_dir fs par) eqn:Hdp.
      * exists (<[c :: par := Fs.Directory]> fs).
        rewrite mkdir_unfold, os_mkdir_fresh by assumption.
        split; [reflexivity | split; [|split]].
        -- unfold Fs.is_dir. rewrite node_insert_eq by exact Hna. reflexivity.
        -- intros q Hq. apply lookup_insert_ne. intros E. subst q. lia.
        -- intros q n Hq. rewrite lookup_insert_ne; [exact Hq|].
           intros E. subst q. rewrite Hnone in Hq. discriminate.
      * assert (Hnp : Fs.node fs par = None).
        { unfold Fs.is_dir in Hdp. destruct par as [|c' par'].
          - discriminate.
          - cbn [clear_way] in Hw.
            destruct (Fs.node fs (c' :: par')) as [[]|]; congruence. }
        assert (Hex1 : Fs.exists_ fs1 (c :: par) = false).
        { unfold Fs.exists_, Fs.node. rewrite Hna.
          rewrite Hbelow by (rewrite length_cons; lia). rewrite Hnone. reflexivity. }
        exists (<[c :: par := Fs.Directory]> fs1).
        rewrite mkdir_unfold. unfold Fs.os_mkdir at 1.
        rewrite Hex. cbn [tail]. rewrite Hnp.
        rewrite (clear_way_not_blocked _ _ Hw). cbn. rewrite Hmk.
        unfold Fs.mkdir_flat. rewrite os_mkdir_fresh by assumption.
        split; [reflexivity | split; [|split]].
        -- unfold Fs.is_dir. rewrite node_insert_eq by exact Hna. reflexivity.
        -- intros q Hq.
           rewrite lookup_insert_ne by (intros E; subst q; simpl in Hq; lia).
           apply Hbelow. lia.
        -- intros q n Hq.
           rewrite lookup_insert_ne
             by (intros E; subst q; rewrite Hnone in Hq; discriminate).
           apply Hkeep, Hq.
Qed.

(** * The runner, one run at a time (C4, C5, C10) *)

Lemma frame_eq_refl (m : JobMeta) : frame_eq m m.
Proof. repeat split. Qed.

Lemma frame_eq_trans (a b c : JobMeta) :
  frame_eq a b -> frame_eq b c -> frame_eq a c.
Proof.
  unfold frame_eq. intros (?&?&?&?&?&?&?&?) (?&?&?&?&?&?&?&?).
  repeat split; congruence.
Qed.

Lemma hook_other (job_id j : string) (sd : Fs.Path) (d : Event)
    (fs : gmap (list string) Fs.Node) (jobs : gmap string JobMeta) :
  j <> job_id -> hook job_id sd d fs jobs !! j = jobs !! j.
Proof.
  intros N. unfold hook. destruct (negb _); [reflexivity|].
  destruct (jobs !! job_id); [|reflexivity].
  apply lookup_insert_ne. congruence.
Qed.

Lemma hook_frame (job_id : string) (sd : Fs.Path) (d : Event)
    (fs : gmap (list string) Fs.Node) (jobs : gmap string JobMeta) (m : JobMeta) :
  jobs !! job_id = Some m ->
  exists m', hook job_id sd d fs jobs !! job_id = Some m' /\ frame_eq m m'.
Proof.
  intros Hm. unfold hook. destruct (negb _).
  - exists m. split; [exact Hm | apply frame_eq_refl].
  - rewrite Hm. eexists. split; [apply lookup_insert_eq | repeat split].
Qed.

Lemma download_other (BASE : Fs.Path) (job_id j : string)
    (payload : RequestPayload) (actions : list DlAction) :
  j <> job_id ->
  forall w, (download BASE job_id payload actions w).1 !! j = w.1 !! j.
Proof.
  intros N. unfold download.
  induction actions as [|a actions IH]; intros w; cbn [fold_left]; [reflexivity|].
  rewrite IH. destruct a as [p n|d]; cbn [dl_step fst snd]; [reflexivity|].
  apply hook_other, N.
Qed.

Lemma download_frame (BASE : Fs.Path) (job_id : string)
    (payload : RequestPayload) (actions : list DlAction) :
  forall w m,
    w.1 !! job_id = Some m ->
    exists m', (download BASE job_id payload actions w).1 !! job_id = Some m'
               /\ frame_eq m m'.
Proof.
  unfold download.
  induction actions as [|a actions IH]; intros w m Hm; cbn [fold_left].
  - exists m. split; [exact Hm | apply frame_eq_refl].
  - destruct a as [p n|d].
    + apply IH. exact Hm.
    + destruct (hook_frame job_id (season_dir BASE payload) d w.2 w.1 m Hm)
        as (m1 & H1 & F1).
      destruct (IH (dl_step job_id (season_dir BASE payload) (DlHook d) w) m1 H1)
        as (m2 & H2 & F2).
      exists m2. split; [exact H2 | eapply frame_eq_trans; eassumption].
Qed.

(** The record of [job_id] after [_run_download], case by case. *)
Lemma run_download_outcome (BASE : Fs.Path) (job_id : string)
    (payload : RequestPayload) (env : RunEnv)
    (jobs : gmap string JobMeta) (fs : gmap (list string) Fs.Node) (m : JobMeta) :
  jobs !! job_id = Some m ->
  import_ok env = true ->
  exists jobs' fs' m1,
    _run_download BASE job_id payload env (jobs, fs) = ((jobs', fs'), None)
    /\ frame_eq (set_running (t_started env) m) m1
    /\ (forall j, j <> job_id -> jobs' !! j = jobs !! j)
    /\ jobs' !! job_id
       = Some (match workflow_failure BASE payload env fs with
               | Some e => set_failed (t_finished env) (failure_text e) m1
               | None => set_finished (t_finished env) (season_dir BASE payload) m1
               end).
Proof.
  intros Hm Hi. unfold _run_download, run_begin, update_job.
  rewrite Hi. cbn [negb fst snd]. rewrite Hm.
  unfold try_body, workflow_failure. cbn [fst snd].
  destruct (make_dirs BASE payload fs) as [fs1 [e|]] eqn:Emk; cbn [fst snd].
  - unfold run_except, update_job. rewrite lookup_insert_eq.
    exists (<[job_id := set_failed (t_finished env) (failure_text e)
                          (set_running (t_started env) m)]>
              (<[job_id := set_running (t_started env) m]> jobs)),
      fs1, (set_running (t_started env) m).
    split; [reflexivity | split; [apply frame_eq_refl | split]].
    + intros j N. rewrite !lookup_insert_ne by congruence. reflexivity.
    + apply lookup_insert_eq.
  - set (w0 := (<[job_id := set_running (t_started env) m]> jobs, fs1)).
    destruct (download_frame BASE job_id payload (dl_actions env) w0
                (set_running (t_started env) m)) as (m1 & H1 & F1).
    { apply lookup_insert_eq. }
    assert (Hoth : forall j, j <> job_id ->
              (download BASE job_id payload (dl_actions env) w0).1 !! j = jobs !! j).
    { intros j N. rewrite download_other by exact N.
      subst w0. cbn [fst]. apply lookup_insert_ne. congruence. }
    destruct (dl_outcome env) as [e|].
    + unfold run_except, update_job. cbn [fst snd]. rewrite H1.
      eexists _, _, m1.
      split; [reflexivity | split; [exact F1 | split]].
      * intros j N. cbn [fst]. rewrite lookup_insert_ne by congruence.
        apply Hoth, N.
      * apply lookup_insert_eq.
    + unfold run_finished, update_job. rewrite H1.
      eexists _, _, m1.
      split; [reflexivity | split; [exact F1 | split]].
      * intros j N. rewrite lookup_insert_ne by congruence. apply Hoth, N.
      * apply lookup_insert_eq.
Qed.

Lemma any_active_true (jobs : gmap string JobMeta) :
  any_active jobs = true
  <-> exists j m, jobs !! j = Some m /\ is_active m = true.
Proof.
  unfold any_active. rewrite existsb_exists. split.
  - intros (m & Hin & Ha). apply list_elem_of_In, list_elem_of_fmap in Hin.
    destruct Hin as ([j m'] & -> & Hin). apply elem_of_map_to_list in Hin.
    exists j, m'. auto.
  - intros (j & m & Hm & Ha). exists m. split; [|exact Ha].
    apply list_elem_of_In, list_elem_of_fmap. exists (j, m). split; [reflexivity|].
    apply elem_of_map_to_list, Hm.
Qed.

Lemma any_active_false (jobs : gmap string JobMeta) :
  any_active jobs = false
  <-> forall j m, jobs !! j = Some m -> is_active m = false.
Proof.
  split.
  - intros H j m Hm. destruct (is_active m) eqn:E; [|reflexivity].
    assert (T : any_active jobs = true) by (apply any_active_true; eauto).
    congruence.
  - intros H. destruct (any_active jobs) eqn:E; [|reflexivity].
    apply any_active_true in E. destruct E as (j & m & Hm & Ha).
    rewrite (H j m Hm) in Ha. discriminate.
Qed.

(** X29: whatever fails inside the [try] block (one of the two [mkdir]
    calls, or the downloader raising), [_run_download] returns without
    letting the exception escape and leaves the job [failed], with
    [finished_at] and a textual [error]; when nothing fails the job is
    [finished]; on no path does the job stay [running] once the runner has
    returned; when the import of line 92 fails nothing is written. *)
Theorem runner_failures_recorded (BASE : Fs.Path) (job_id : string)
    (payload : RequestPayload) (env : RunEnv)
    (jobs : gmap string JobMeta) (fs : gmap (list string) Fs.Node) (m : JobMeta) :
  jobs !! job_id = Some m ->
  status m = pending ->
  exists jobs' fs' escaped m',
    _run_download BASE job_id payload env (jobs, fs) = ((jobs', fs'), escaped)
    /\ jobs' !! job_id = Some m'
    /\ status m' <> running
    /\ (import_ok env = true ->
        escaped = None
        /\ match workflow_failure BASE payload env fs with
           | Some e =>
               status m' = failed
               /\ finished_at m' = Some (t_finished env)
               /\ error m' = Some (failure_text e)
           | None =>
               status m' = finished
               /\ finished_at m' = Some (t_finished env)
           end)
    /\ (import_ok env = false -> jobs' = jobs /\ fs' = fs /\ status m' = pending).
Proof.
  intros Hm Hp. destruct (import_ok env) eqn:Hi.
  - destruct (run_download_outcome BASE job_id payload env jobs fs m Hm Hi)
      as (jobs' & fs' & m1 & Hrun & F & Hoth & Hj).
    exists jobs', fs', None. eexists. split; [exact Hrun|].
    split; [exact Hj|].
    destruct (workflow_failure BASE payload env fs) as [e|]; cbn.
    + split; [discriminate|]. split; [|discriminate]. auto.
    + split; [discriminate|]. split; [|discriminate]. auto.
  - exists jobs, fs. eexists. exists m.
    split; [unfold _run_download; rewrite Hi; reflexivity|].
    split; [exact Hm|]. split; [rewrite Hp; discriminate|].
    split; [discriminate|]. auto.
Qed.

(** C5, at an input where the code breaks it: the import of the downloader
    on line 92 stands before the [try] block, so when it fails the exception
    leaves [_run_download] and no [except] clause records it: the job is not
    made [failed], it gets neither [finished_at] nor [error], its record stays
    [pending], and the next [pull] is refused with 409. *)
Theorem import_failure_not_recorded :
  exists (e : Exc) (m : JobMeta),
    _run_download demo_base "job-1" demo_payload import_failing_env
      (demo_pending, demo_fs) = ((demo_pending, demo_fs), Some e)
    /\ exc_class e = ImportError
    /\ demo_pending !! "job-1" = Some m
    /\ status m = pending
    /\ status m <> failed
    /\ finished_at m = None
    /\ error m = None
    /\ pull demo_payload2 "job-2" "2024-01-01T10:10:00" demo_pending
       = (demo_pending,
          inl {| status_code := 409;
                 detail := "Another download is already in progress. Please wait or cancel it." |}).
Proof.
  eexists _, _.
  split; [reflexivity|]. split; [reflexivity|].
  split; [vm_compute; reflexivity|].
  split; [reflexivity|]. split; [discriminate|].
  split; [reflexivity|]. split; [reflexivity|].
  vm_compute. reflexivity.
Qed.

Lemma season_dir_parent (BASE : Fs.Path) (payload : RequestPayload) :
  tail (season_dir BASE payload) = main_dir BASE payload
  /\ Fs.is_anchor (season_dir BASE payload) = false.
Proof.
  rewrite season_dir_cons. split; [reflexivity|].
  unfold Fs.is_anchor, season_folder_name.
  change ("Season " ++ format_0d 2 (season payload))
    with (String "S" ("eason " ++ format_0d 2 (season payload))).
  rewrite !bool_decide_eq_false_2; [reflexivity | discriminate | discriminate].
Qed.

Lemma make_dirs_season_exists (BASE : Fs.Path) (payload : RequestPayload)
    (fs : gmap (list string) Fs.Node) :
  Fs.is_dir fs (main_dir BASE payload) = true ->
  Fs.exists_ fs (season_dir BASE payload) = true ->
  make_dirs BASE payload fs
  = (fs, Some {| exc_class := FileExistsError;
                 exc_text := Fs.errno_text "[Errno 17] File exists"
                               (season_dir BASE payload) |}).
Proof.
  intros Hd He. unfold make_dirs.
  rewrite (mkdir_existing_dir true _ fs Hd), (mkdir_exclusive false _ fs He).
  reflexivity.
Qed.

Lemma make_dirs_new_season (BASE : Fs.Path) (payload : RequestPayload)
    (fs : gmap (list string) Fs.Node) :
  Fs.is_dir fs (main_dir BASE payload) = true ->
  Fs.exists_ fs (season_dir BASE payload) = false ->
  make_dirs BASE payload fs
  = (<[season_dir BASE payload := Fs.Directory]> fs, None).
Proof.
  intros Hd He. unfold make_dirs.
  rewrite (mkdir_existing_dir true _ fs Hd), mkdir_unfold, os_mkdir_fresh;
    [reflexivity | exact He |].
  rewrite (proj1 (season_dir_parent BASE payload)). exact Hd.
Qed.

Lemma well_formed_parent (fs : gmap (list string) Fs.Node) (p : Fs.Path) :
  fs_well_formed fs -> Fs.is_anchor p = false -> Fs.exists_ fs p = true ->
  Fs.is_dir fs (tail p) = true.
Proof.
  intros Hwf Hna He. unfold Fs.exists_, Fs.node in He. rewrite Hna in He.
  destruct (fs !! p) as [n|] eqn:E; [|discriminate].
  exact (Hwf p n E).
Qed.

(** C4: making the season directory is exclusive-create; when the season
    directory is already there, the run leaves the file system as it was and
    the job [failed], with [finished_at] recorded and the error text
    "Season folder already exists"; if no other job was active, no active job
    remains and the next [pull] is accepted. *)
Theorem season_folder_exclusive (BASE : Fs.Path) (job_id : string)
    (payload : RequestPayload) (env : RunEnv)
    (jobs : gmap string JobMeta) (fs : gmap (list string) Fs.Node) (m : JobMeta) :
  jobs !! job_id = Some m ->
  import_ok env = true ->
  fs_well_formed fs ->
  Fs.exists_ fs (season_dir BASE payload) = true ->
  (exists e, Fs.mkdir false false (season_dir BASE payload) fs = inl e
             /\ exc_class e = FileExistsError)
  /\ exists jobs' m',
      _run_download BASE job_id payload env (jobs, fs) = ((jobs', fs), None)
      /\ jobs' !! job_id = Some m'
      /\ status m' = failed
      /\ finished_at m' = Some (t_finished env)
      /\ error m' = Some "Season folder already exists"
      /\ ((forall j mj, j <> job_id -> jobs !! j = Some mj -> is_active mj = false) ->
          any_active jobs' = false
          /\ forall request new_id now,
               pull request new_id now jobs'
               = (<[new_id := new_job request now]> jobs',
                  inr {| resp_job_id := new_id; resp_status := pending;
                         resp_message := "Download started." |})).
Proof.
  intros Hm Hi Hwf He.
  destruct (season_dir_parent BASE payload) as [Hpar Hna].
  pose proof (well_formed_parent fs _ Hwf Hna He) as Hd. rewrite Hpar in Hd.
  split.
  { eexists. split; [apply mkdir_exclusive, He | reflexivity]. }
  destruct (run_download_outcome BASE job_id payload env jobs fs m Hm Hi)
    as (jobs' & fs' & m1 & Hrun & F & Hoth & Hj).
  unfold workflow_failure in Hj.
  assert (Hfs : fs' = fs).
  { revert Hrun. unfold _run_download, run_begin, update_job, try_body.
    rewrite Hi. cbn [negb fst snd]. rewrite Hm. cbn [fst snd].
    rewrite (make_dirs_season_exists BASE payload fs Hd He).
    unfold run_except, update_job. cbn [fst snd]. rewrite lookup_insert_eq.
    intros H. inversion H. reflexivity. }
  subst fs'.
  rewrite (make_dirs_season_exists BASE payload fs Hd He) in Hj. cbn in Hj.
  exists jobs'. eexists. split; [exact Hrun|]. split; [exact Hj|].
  split; [reflexivity | split; [reflexivity | split; [reflexivity|]]].
  intros Hidle.
  assert (Hna' : any_active jobs' = false).
  { apply any_active_false. intros j mj Hmj.
    destruct (decide (j = job_id)) as [->|N].
    - rewrite Hj in Hmj. inversion Hmj. reflexivity.
    - rewrite (Hoth j N) in Hmj. exact (Hidle j mj N Hmj). }
  split; [exact Hna'|].
  intros request new_id now. unfold pull. rewrite Hna'. reflexivity.
Qed.


(** * Invariants of the running system (C1, C6, C7) *)

Lemma fields_ok_running (m m' : JobMeta) :
  outcome_fields_ok m -> status m <> finished -> status m <> failed ->
  result_path m' = result_path m -> error m' = error m ->
  status m' <> finished -> status m' <> failed ->
  outcome_fields_ok m'.
Proof.
  unfold outcome_fields_ok. intros [H1 H2] N1 N2 E1 E2 N3 N4.
  rewrite E1, E2. tauto.
Qed.

(** Closes the goal of [runner_step_shape] for a move that leaves the
    record of the task as it is and the task alive. *)
Local Ltac record_kept Hid Hok Hrefl Hs :=
  split; [exact Hid |
  split; [exact Hok |
  split; [exact Hrefl |
  split; [intros _; exact Hs | discriminate]]]].

(** One move of a task, seen from the registry: the task's record is
    replaced by a record that is one status move away. *)
Lemma runner_step_shape (BASE : Fs.Path) (a : TaskLabel) (job : string)
    (payload : RequestPayload) (pc pc' : Pc)
    (jobs jobs' : gmap string JobMeta) (fs fs' : gmap (list string) Fs.Node)
    (m : JobMeta) :
  runner_step BASE a job payload pc (jobs, fs) = Some (pc', (jobs', fs')) ->
  jobs !! job = Some m ->
  status m = pc_status pc ->
  outcome_fields_ok m ->
  live pc = true
  /\ exists m',
      jobs' = <[job := m']> jobs
      /\ outcome_fields_ok m'
      /\ status_move (status m) (status m') = true
      /\ (live pc' = true -> status m' = pc_status pc')
      /\ (live pc' = false -> is_active m' = true -> status m' = pending).
Proof.
  intros Hstep Hm Hs Hok.
  assert (Hid : jobs = <[job := m]> jobs) by (symmetry; apply insert_id, Hm).
  assert (Hrefl : status_move (status m) (status m) = true)
    by (destruct (status m); reflexivity).
  destruct pc as [| | |e|esc], a as [ok now| |act|now|e'|now];
    cbn in Hstep; try discriminate; (split; [reflexivity|]); cbn in Hs.
  - (* begin *)
    destruct ok; cbn in Hstep.
    + unfold run_begin, update_job in Hstep. rewrite Hm in Hstep.
      inversion Hstep; subst. eexists. split; [reflexivity|].
      split; [|split; [cbn; rewrite Hs; reflexivity | split]].
      * apply (fields_ok_running m); cbn; try rewrite Hs; auto; discriminate.
      * reflexivity.
      * discriminate.
    + inversion Hstep; subst. exists m.
      split; [exact Hid | split; [exact Hok | split; [exact Hrefl | split]]].
      * discriminate.
      * intros _ _. exact Hs.
  - (* mkdirs *)
    destruct (make_dirs BASE payload fs) as [fs1 [e|]];
      inversion Hstep; subst; exists m; record_kept Hid Hok Hrefl Hs.
  - (* a move of the downloader *)
    destruct act as [p n|d]; cbn [dl_step fst snd] in Hstep;
      inversion Hstep; subst.
    + exists m. record_kept Hid Hok Hrefl Hs.
    + unfold hook. destruct (negb _).
      * exists m. record_kept Hid Hok Hrefl Hs.
      * rewrite Hm. eexists. split; [reflexivity|].
        split; [exact Hok | split; [exact Hrefl | split]];
          [intros _; exact Hs | discriminate].
  - (* the download returns *)
    unfold run_finished, update_job in Hstep. cbn [fst] in Hstep.
    rewrite Hm in Hstep. inversion Hstep; subst.
    eexists. split; [reflexivity|].
    split; [|split; [cbn; rewrite Hs; reflexivity | split]].
    + destruct Hok as [H1 H2]. split; cbn.
      * split; [reflexivity | intros _; eexists; reflexivity].
      * rewrite H2, Hs. split; discriminate.
    + discriminate.
    + intros _ H. discriminate.
  - (* the download raises *)
    inversion Hstep; subst. exists m. record_kept Hid Hok Hrefl Hs.
  - (* an except clause *)
    unfold run_except, update_job in Hstep. cbn [fst] in Hstep.
    rewrite Hm in Hstep. inversion Hstep; subst.
    eexists. split; [reflexivity|].
    split; [|split; [cbn; rewrite Hs; reflexivity | split]].
    + destruct Hok as [H1 H2]. split; cbn.
      * rewrite H1, Hs. split; discriminate.
      * split; [reflexivity | intros _; eexists; reflexivity].
    + discriminate.
    + intros _ H. discriminate.
Qed.

Lemma runner_step_live (BASE : Fs.Path) (a : TaskLabel) (job : string)
    (payload : RequestPayload) (pc : Pc)
    (w : gmap string JobMeta * gmap (list string) Fs.Node)
    (r : Pc * (gmap string JobMeta * gmap (list string) Fs.Node)) :
  runner_step BASE a job payload pc w = Some r -> live pc = true.
Proof. destruct pc, a; cbn; intros H; try discriminate; reflexivity. Qed.

Lemma pc_status_active (m : JobMeta) (pc : Pc) :
  status m = pc_status pc -> is_active m = true.
Proof. unfold is_active. intros ->. destruct pc; reflexivity. Qed.

Lemma init_inv (fs : gmap (list string) Fs.Node) : Inv (init fs).
Proof.
  split; cbn.
  - intros j1 j2 m1 m2 H. rewrite lookup_empty in H. discriminate.
  - intros j m H. rewrite lookup_empty in H. discriminate.
  - intros i t H. rewrite lookup_nil in H. discriminate.
  - intros i1 i2 t1 t2 H. rewrite lookup_nil in H. discriminate.
Qed.

Lemma pull_inv (request : RequestPayload) (job_id now : string) (s : System) :
  Inv s -> any_active (sys_jobs s) = false ->
  Inv {| sys_jobs := <[job_id := new_job request now]> (sys_jobs s);
         sys_fs := sys_fs s;
         sys_tasks := (sys_tasks s ++
           [{| task_job := job_id; task_payload := request;
               task_pc := PcQueued |}])%list |}.
Proof.
  intros [I1 I2 I3 I4] Ha.
  pose proof (proj1 (any_active_false _) Ha) as Hidle.
  assert (Hdead : forall i t, sys_tasks s !! i = Some t -> live (task_pc t) = false).
  { intros i t Ht. destruct (live (task_pc t)) eqn:El; [|reflexivity].
    destruct (I3 i t Ht El) as (m & Hm & Hs).
    pose proof (pc_status_active m _ Hs) as Hact.
    rewrite (Hidle _ _ Hm) in Hact. discriminate. }
  assert (Hact : forall j m,
             <[job_id := new_job request now]> (sys_jobs s) !! j = Some m ->
             is_active m = true -> j = job_id /\ m = new_job request now).
  { intros j m Hm Hact. apply lookup_insert_Some in Hm.
    destruct Hm as [[-> <-]|[N Hm]]; [auto|].
    rewrite (Hidle _ _ Hm) in Hact. discriminate. }
  assert (Hnew : forall i t,
             (sys_tasks s ++ [{| task_job := job_id; task_payload := request;
                                 task_pc := PcQueued |}])%list !! i = Some t ->
             live (task_pc t) = true ->
             i = length (sys_tasks s)
             /\ t = {| task_job := job_id; task_payload := request;
                       task_pc := PcQueued |}).
  { intros i t Ht Hl. apply lookup_snoc_Some in Ht.
    destruct Ht as [[_ Ht]|[-> <-]]; [|auto].
    rewrite (Hdead _ _ Ht) in Hl. discriminate. }
  split; cbn [sys_jobs sys_tasks sys_fs].
  - intros j1 j2 m1 m2 H1 H2 A1 A2.
    destruct (Hact _ _ H1 A1) as [-> _]. destruct (Hact _ _ H2 A2) as [-> _].
    reflexivity.
  - intros j m Hm. apply lookup_insert_Some in Hm.
    destruct Hm as [[-> <-]|[N Hm]]; [|exact (I2 _ _ Hm)].
    split; cbn; split; intros H; try discriminate; destruct H; discriminate.
  - intros i t Ht Hl. destruct (Hnew _ _ Ht Hl) as [-> ->]. cbn.
    eexists. split; [apply lookup_insert_eq | reflexivity].
  - intros i1 i2 t1 t2 H1 H2 L1 L2.
    destruct (Hnew _ _ H1 L1) as [-> _]. destruct (Hnew _ _ H2 L2) as [-> _].
    reflexivity.
Qed.

Lemma task_inv (s : System) (i : nat) (t : Task) (pc' : Pc) (m m' : JobMeta)
    (fs' : gmap (list string) Fs.Node) :
  Inv s ->
  sys_tasks s !! i = Some t ->
  live (task_pc t) = true ->
  sys_jobs s !! task_job t = Some m ->
  status m = pc_status (task_pc t) ->
  outcome_fields_ok m' ->
  (live pc' = true -> status m' = pc_status pc') ->
  (live pc' = false -> is_active m' = true -> status m' = pending) ->
  Inv {| sys_jobs := <[task_job t := m']> (sys_jobs s);
         sys_fs := fs';
         sys_tasks := <[i := {| task_job := task_job t;
                                task_payload := task_payload t;
                                task_pc := pc' |}]> (sys_tasks s) |}.
Proof.
  intros [I1 I2 I3 I4] Ht Hl Hm Hs Hok Hlive Hdone.
  pose proof (pc_status_active m _ Hs) as Hact.
  assert (Hkey : forall j mj,
             <[task_job t := m']> (sys_jobs s) !! j = Some mj ->
             is_active mj = true -> j = task_job t).
  { intros j mj Hj Aj. apply lookup_insert_Some in Hj.
    destruct Hj as [[<- _]|[N Hj]]; [reflexivity|].
    exact (I1 _ _ _ _ Hj Hm Aj Hact). }
  assert (Honly : forall k tk,
             <[i := {| task_job := task_job t; task_payload := task_payload t;
                       task_pc := pc' |}]> (sys_tasks s) !! k = Some tk ->
             live (task_pc tk) = true ->
             k = i /\ tk = {| task_job := task_job t;
                              task_payload := task_payload t;
                              task_pc := pc' |}).
  { intros k tk Hk Lk. apply list_lookup_insert_Some in Hk.
    destruct Hk as [(-> & <- & _)|[N Hk]]; [auto|].
    exfalso. apply N. exact (I4 _ _ _ _ Ht Hk Hl Lk). }
  split; cbn [sys_jobs sys_tasks sys_fs].
  - intros j1 j2 m1 m2 H1 H2 A1 A2.
    rewrite (Hkey _ _ H1 A1), (Hkey _ _ H2 A2). reflexivity.
  - intros j mj Hj. apply lookup_insert_Some in Hj.
    destruct Hj as [[_ <-]|[N Hj]]; [exact Hok | exact (I2 _ _ Hj)].
  - intros k tk Hk Lk. destruct (Honly _ _ Hk Lk) as [-> ->]. cbn in *.
    exists m'. split; [apply lookup_insert_eq | exact (Hlive Lk)].
  - intros i1 i2 t1 t2 H1 H2 L1 L2.
    destruct (Honly _ _ H1 L1) as [-> _]. destruct (Honly _ _ H2 L2) as [-> _].
    reflexivity.
Qed.

Lemma step_inv (BASE : Fs.Path) (l : Label) (s : System) :
  Inv s -> Inv (step BASE l s).
Proof.
  intros HI. destruct l as [request job_id now|i a]; cbn [step].
  - unfold pull. destruct (any_active (sys_jobs s)) eqn:Ea.
    + destruct s, HI. split; assumption.
    + apply pull_inv; assumption.
  - destruct (sys_tasks s !! i) as [t|] eqn:Et; [|exact HI].
    destruct (runner_step BASE a (task_job t) (task_payload t) (task_pc t)
                (sys_jobs s, sys_fs s)) as [[pc' [jobs' fs']]|] eqn:Er;
      [|exact HI].
    pose proof (runner_step_live _ _ _ _ _ _ _ Er) as Hl.
    destruct (inv_task s HI i t Et Hl) as (m & Hm & Hs).
    destruct (runner_step_shape _ _ _ _ _ _ _ _ _ _ m Er Hm Hs
                (inv_fields s HI _ _ Hm))
      as (_ & m' & -> & Hok & _ & Hlive & Hdone).
    cbn [fst snd]. eapply task_inv; eassumption.
Qed.

Lemma exec_inv (BASE : Fs.Path) (ls : list Label) (s : System) :
  Inv s -> Inv (exec BASE ls s).
Proof.
  unfold exec. revert s.
  induction ls as [|l ls IH]; intros s HI; cbn [fold_left]; [exact HI|].
  apply IH, step_inv, HI.
Qed.

Lemma status_move_refl (a : Status) : status_move a a = true.
Proof. destruct a; reflexivity. Qed.

Lemma step_moves (BASE : Fs.Path) (l : Label) (s : System) :
  Inv s ->
  (forall request job_id now,
      l = LPull request job_id now -> sys_jobs s !! job_id = None) ->
  forall j m,
    sys_jobs s !! j = Some m ->
    exists m', sys_jobs (step BASE l s) !! j = Some m'
               /\ status_move (status m) (status m') = true.
Proof.
  intros HI Hfresh j mj Hj. destruct l as [request job_id now|i a]; cbn [step].
  - unfold pull. destruct (any_active (sys_jobs s)) eqn:Ea; cbn [sys_jobs].
    + exists mj. split; [exact Hj | apply status_move_refl].
    + exists mj. split; [|apply status_move_refl].
      rewrite lookup_insert_ne; [exact Hj|].
      intros <-. rewrite (Hfresh _ _ _ eq_refl) in Hj. discriminate.
  - destruct (sys_tasks s !! i) as [t|] eqn:Et;
      [|exists mj; split; [exact Hj | apply status_move_refl]].
    destruct (runner_step BASE a (task_job t) (task_payload t) (task_pc t)
                (sys_jobs s, sys_fs s)) as [[pc' [jobs' fs']]|] eqn:Er;
      [|exists mj; split; [exact Hj | apply status_move_refl]].
    pose proof (runner_step_live _ _ _ _ _ _ _ Er) as Hl.
    destruct (inv_task s HI i t Et Hl) as (m & Hm & Hs).
    destruct (runner_step_shape _ _ _ _ _ _ _ _ _ _ m Er Hm Hs
                (inv_fields s HI _ _ Hm))
      as (_ & m' & -> & Hok & Hmove & _).
    cbn [sys_jobs fst].
    destruct (decide (j = task_job t)) as [->|N].
    + rewrite Hm in Hj. inversion Hj; subst mj.
      exists m'. split; [apply lookup_insert_eq | exact Hmove].
    + exists mj. split; [|apply status_move_refl].
      rewrite lookup_insert_ne by congruence. exact Hj.
Qed.

Lemma status_move_spec (a b : Status) :
  status_move a b = true
  <-> a = b \/ (a = pending /\ b = running)
      \/ (a = running /\ (b = finished \/ b = failed)).
Proof.
  destruct a, b; cbn; split; intros H; try reflexivity; try discriminate;
    try (left; reflexivity);
    try (right; left; split; reflexivity);
    try (right; right; split; [reflexivity | (left + right); reflexivity]);
    destruct H as [H|[[H1 H2]|[H1 [H2|H2]]]]; discriminate.
Qed.

Lemma status_later_trans (a b c : Status) :
  status_later a b = true -> status_move b c = true -> status_later a c = true.
Proof. destruct a, b, c; cbn; congruence. Qed.

Lemma exec_moves (BASE : Fs.Path) (ls : list Label) :
  forall s, Inv s -> fresh_pulls BASE ls s ->
  forall j m,
    sys_jobs s !! j = Some m ->
    exists m', sys_jobs (exec BASE ls s) !! j = Some m'
               /\ status_later (status m) (status m') = true.
Proof.
  induction ls as [|l ls IH] using rev_ind; intros s HI Hf j m Hj.
  - exists m. split; [exact Hj | destruct (status m); reflexivity].
  - assert (Hsplit : fresh_pulls BASE ls s
                     /\ fresh_pulls BASE [l] (exec BASE ls s)).
    { clear -Hf. revert s Hf. induction ls as [|l0 ls IH]; intros s Hf.
      - split; [exact I | exact Hf].
      - cbn [app fresh_pulls] in Hf. destruct Hf as [H0 Hf].
        destruct (IH _ Hf) as [H1 H2]. split; [split; assumption | exact H2]. }
    destruct Hsplit as [Hf1 Hf2].
    destruct (IH s HI Hf1 j m Hj) as (m1 & H1 & L1).
    unfold exec in *. rewrite fold_left_app. cbn [fold_left].
    pose proof (exec_inv BASE ls s HI) as HI1. unfold exec in HI1.
    destruct (step_moves BASE l _ HI1) with (j := j) (m := m1)
      as (m2 & H2 & M2); [|exact H1|].
    { intros request job_id now ->. cbn in Hf2. apply Hf2. }
    exists m2. split; [exact H2 | eapply status_later_trans; eassumption].
Qed.

(** C1: [pull] answers 409 and leaves the registry as it is whenever some
    record is [pending] or [running]; otherwise it stores a [pending] record
    in the same locked step; and whatever requests and task moves are
    interleaved from start-up on, at most one record is [pending] or
    [running]. *)
Theorem single_active_job (BASE : Fs.Path) (fs0 : gmap (list string) Fs.Node)
    (ls : list Label) (request : RequestPayload) (job_id now : string)
    (jobs : gmap string JobMeta) :
  ((exists j m, jobs !! j = Some m
                /\ (status m = pending \/ status m = running)) ->
   pull request job_id now jobs
   = (jobs,
      inl {| status_code := 409;
             detail := "Another download is already in progress. Please wait or cancel it." |}))
  /\ ((forall j m, jobs !! j = Some m ->
                   status m <> pending /\ status m <> running) ->
      pull request job_id now jobs
      = (<[job_id := new_job request now]> jobs,
         inr {| resp_job_id := job_id; resp_status := pending;
                resp_message := "Download started." |})
      /\ status (new_job request now) = pending)
  /\ at_most_one_active (sys_jobs (exec BASE ls (init fs0)))
  /\ (forall j1 j2 m1 m2,
        sys_jobs (step BASE (LPull request job_id now)
                    (exec BASE ls (init fs0))) !! j1 = Some m1 ->
        sys_jobs (step BASE (LPull request job_id now)
                    (exec BASE ls (init fs0))) !! j2 = Some m2 ->
        (status m1 = pending \/ status m1 = running) ->
        (status m2 = pending \/ status m2 = running) ->
        j1 = j2).
Proof.
  assert (Hact : forall m, is_active m = true
                           <-> status m = pending \/ status m = running).
  { intros m. unfold is_active. destruct (status m); split; intros H; auto;
      try discriminate; destruct H; discriminate. }
  split; [|split; [|split]].
  - intros (j & m & Hm & Hs). unfold pull.
    assert (Ha : any_active jobs = true).
    { apply any_active_true. exists j, m. split; [exact Hm | apply Hact, Hs]. }
    rewrite Ha. reflexivity.
  - intros Hidle. unfold pull.
    assert (Ha : any_active jobs = false).
    { apply any_active_false. intros j m Hm.
      destruct (is_active m) eqn:E; [|reflexivity].
      apply Hact in E. destruct (Hidle j m Hm). tauto. }
    rewrite Ha. split; reflexivity.
  - apply inv_one, exec_inv, init_inv.
  - intros j1 j2 m1 m2 H1 H2 S1 S2.
    pose proof (step_inv BASE (LPull request job_id now) _
                  (exec_inv BASE ls _ (init_inv fs0))) as HI.
    apply (inv_one _ HI j1 j2 m1 m2 H1 H2); apply Hact; assumption.
Qed.

(** C6: along every interleaving, with every new identifier fresh, one
    move of the system takes each record's status either nowhere or one step
    along [pending -> running -> finished | failed]; so [running] is never
    skipped, a [finished] or [failed] record keeps its status through any
    number of moves, and no record disappears. *)
Theorem status_monotone (BASE : Fs.Path) (fs0 : gmap (list string) Fs.Node)
    (ls ls' : list Label) (l : Label) (j : string) (m : JobMeta) :
  sys_jobs (exec BASE ls (init fs0)) !! j = Some m ->
  (fresh_pulls BASE [l] (exec BASE ls (init fs0)) ->
   exists m',
     sys_jobs (step BASE l (exec BASE ls (init fs0))) !! j = Some m'
     /\ (status m' = status m
         \/ (status m = pending /\ status m' = running)
         \/ (status m = running
             /\ (status m' = finished \/ status m' = failed))))
  /\ (fresh_pulls BASE ls' (exec BASE ls (init fs0)) ->
      exists m',
        sys_jobs (exec BASE ls' (exec BASE ls (init fs0))) !! j = Some m'
        /\ status_later (status m) (status m') = true
        /\ (terminal (status m) = true -> status m' = status m)).
Proof.
  intros Hj.
  pose proof (exec_inv BASE ls _ (init_inv fs0)) as HI.
  split.
  - intros [Hf _].
    destruct (step_moves BASE l _ HI) with (j := j) (m := m)
      as (m' & H' & M'); [|exact Hj|].
    { intros request job_id now ->. exact Hf. }
    exists m'. split; [exact H'|].
    apply status_move_spec in M'.
    destruct M' as [E|[E|E]]; [left; symmetry; exact E | auto | auto].
  - intros Hf.
    destruct (exec_moves BASE ls' _ HI Hf j m Hj) as (m' & H' & L').
    exists m'. split; [exact H' | split; [exact L'|]].
    destruct (status m), (status m'); cbn in *; congruence.
Qed.

(** C7: in every state the system can reach, every record has
    [result_path] set exactly when its status is [finished] and [error] set
    exactly when its status is [failed]. *)
Theorem outcome_fields (BASE : Fs.Path) (fs0 : gmap (list string) Fs.Node)
    (ls : list Label) (j : string) (m : JobMeta) :
  sys_jobs (exec BASE ls (init fs0)) !! j = Some m ->
  (is_Some (result_path m) <-> status m = finished)
  /\ (is_Some (error m) <-> status m = failed).
Proof.
  intros Hj.
  exact (inv_fields _ (exec_inv BASE ls _ (init_inv fs0)) j m Hj).
Qed.

(** * One run as a trace of the system *)

Lemma step_task (BASE : Fs.Path) (i : nat) (a : TaskLabel) (s : System)
    (t : Task) (pc' : Pc)
    (w' : gmap string JobMeta * gmap (list string) Fs.Node) :
  sys_tasks s !! i = Some t ->
  runner_step BASE a (task_job t) (task_payload t) (task_pc t)
              (sys_jobs s, sys_fs s) = Some (pc', w') ->
  step BASE (LTask i a) s
  = {| sys_jobs := w'.1; sys_fs := w'.2;
       sys_tasks := <[i := task_at t pc']> (sys_tasks s) |}.
Proof. intros Ht Hr. cbn [step]. rewrite Ht, Hr. reflexivity. Qed.

Lemma step_task_skip (BASE : Fs.Path) (i : nat) (a : TaskLabel) (s : System)
    (t : Task) :
  sys_tasks s !! i = Some t ->
  runner_step BASE a (task_job t) (task_payload t) (task_pc t)
              (sys_jobs s, sys_fs s) = None ->
  step BASE (LTask i a) s = s.
Proof. intros Ht Hr. cbn [step]. rewrite Ht, Hr. reflexivity. Qed.

Lemma exec_skip (BASE : Fs.Path) (i : nat) (s : System) (t : Task)
    (esc : option Exc) (acts : list TaskLabel) :
  sys_tasks s !! i = Some t -> task_pc t = PcDone esc ->
  exec BASE (map (LTask i) acts) s = s.
Proof.
  intros Ht Hpc. unfold exec.
  induction acts as [|a acts IH]; cbn [map fold_left]; [reflexivity|].
  rewrite (step_task_skip BASE i a s t Ht); [exact IH|].
  rewrite Hpc. destruct a; reflexivity.
Qed.

Lemma exec_download (BASE : Fs.Path) (i : nat) (actions : list DlAction) :
  forall (s : System) (t : Task),
    sys_tasks s !! i = Some t -> task_pc t = PcDownload ->
    exec BASE (map (LTask i) (map TDl actions)) s
    = {| sys_jobs := (download BASE (task_job t) (task_payload t) actions
                        (sys_jobs s, sys_fs s)).1;
         sys_fs := (download BASE (task_job t) (task_payload t) actions
                      (sys_jobs s, sys_fs s)).2;
         sys_tasks := sys_tasks s |}.
Proof.
  unfold exec, download.
  induction actions as [|a actions IH]; intros s t Ht Hpc; cbn [map fold_left].
  - destruct s; reflexivity.
  - rewrite (step_task BASE i (TDl a) s t PcDownload
               (dl_step (task_job t) (season_dir BASE (task_payload t)) a
                  (sys_jobs s, sys_fs s)) Ht)
      by (rewrite Hpc; reflexivity).
    assert (Hsame : <[i := task_at t PcDownload]> (sys_tasks s) = sys_tasks s).
    { apply list_insert_id. rewrite Ht. f_equal. destruct t; cbn in *.
      subst. reflexivity. }
    rewrite Hsame.
    rewrite (IH _ t); [|exact Ht|exact Hpc]. cbn [sys_jobs sys_fs sys_tasks].
    destruct (dl_step _ _ a _) as [j f]. reflexivity.
Qed.

Lemma exec_cons (BASE : Fs.Path) (l : Label) (ls : list Label) (s : System) :
  exec BASE (l :: ls) s = exec BASE ls (step BASE l s).
Proof. reflexivity. Qed.

Lemma exec_app (BASE : Fs.Path) (l1 l2 : list Label) (s : System) :
  exec BASE (l1 ++ l2)%list s = exec BASE l2 (exec BASE l1 s).
Proof. unfold exec. apply fold_left_app. Qed.

Lemma step_at (BASE : Fs.Path) (i : nat) (a : TaskLabel)
    (J : gmap string JobMeta) (F : gmap (list string) Fs.Node) (T : list Task)
    (t : Task) (pc pc' : Pc)
    (w' : gmap string JobMeta * gmap (list string) Fs.Node) :
  T !! i = Some (task_at t pc) ->
  runner_step BASE a (task_job t) (task_payload t) pc (J, F) = Some (pc', w') ->
  exists T',
    step BASE (LTask i a) {| sys_jobs := J; sys_fs := F; sys_tasks := T |}
    = {| sys_jobs := w'.1; sys_fs := w'.2; sys_tasks := T' |}
    /\ T' !! i = Some (task_at t pc').
Proof.
  intros Ht Hr. eexists. split.
  - apply (step_task BASE i a
             {| sys_jobs := J; sys_fs := F; sys_tasks := T |}
             (task_at t pc) pc' w' Ht). exact Hr.
  - cbn [sys_tasks]. apply list_lookup_insert_eq.
    exact (lookup_lt_Some _ _ _ Ht).
Qed.

Lemma skip_at (BASE : Fs.Path) (i : nat) (acts : list TaskLabel)
    (J : gmap string JobMeta) (F : gmap (list string) Fs.Node) (T : list Task)
    (t : Task) :
  T !! i = Some t ->
  (forall a w, In a acts ->
     runner_step BASE a (task_job t) (task_payload t) (task_pc t) w = None) ->
  exec BASE (map (LTask i) acts)
    {| sys_jobs := J; sys_fs := F; sys_tasks := T |}
  = {| sys_jobs := J; sys_fs := F; sys_tasks := T |}.
Proof.
  intros Ht Hn. unfold exec.
  induction acts as [|a acts IH]; cbn [map fold_left]; [reflexivity|].
  rewrite (step_task_skip BASE i a
             {| sys_jobs := J; sys_fs := F; sys_tasks := T |} t Ht)
    by (apply Hn; left; reflexivity).
  apply IH. intros a' w Hin. apply Hn. right. exact Hin.
Qed.

Lemma download_at (BASE : Fs.Path) (i : nat) (actions : list DlAction)
    (J : gmap string JobMeta) (F : gmap (list string) Fs.Node) (T : list Task)
    (t : Task) :
  T !! i = Some (task_at t PcDownload) ->
  exec BASE (map (LTask i) (map TDl actions))
    {| sys_jobs := J; sys_fs := F; sys_tasks := T |}
  = {| sys_jobs := (download BASE (task_job t) (task_payload t) actions (J, F)).1;
       sys_fs := (download BASE (task_job t) (task_payload t) actions (J, F)).2;
       sys_tasks := T |}.
Proof.
  intros Ht.
  exact (exec_download BASE i actions
           {| sys_jobs := J; sys_fs := F; sys_tasks := T |}
           (task_at t PcDownload) Ht eq_refl).
Qed.

Lemma escaped_at (J : gmap string JobMeta) (F : gmap (list string) Fs.Node)
    (T : list Task) (i : nat) (t : Task) (esc : option Exc) :
  T !! i = Some (task_at t (PcDone esc)) ->
  escaped_of {| sys_jobs := J; sys_fs := F; sys_tasks := T |} i = esc.
Proof. intros H. unfold escaped_of. cbn [sys_tasks]. rewrite H. reflexivity. Qed.

(** One uninterrupted run of a queued task is [_run_download]. *)
Lemma run_labels_exec (BASE : Fs.Path) (i : nat) (env : RunEnv)
    (J : gmap string JobMeta) (F : gmap (list string) Fs.Node) (T : list Task)
    (t : Task) :
  T !! i = Some t -> task_pc t = PcQueued ->
  let s' := exec BASE (run_labels i env)
              {| sys_jobs := J; sys_fs := F; sys_tasks := T |} in
  ((sys_jobs s', sys_fs s'), escaped_of s' i)
  = _run_download BASE (task_job t) (task_payload t) env (J, F).
Proof.
  intros Ht Hpc.
  assert (Ht0 : T !! i = Some (task_at t PcQueued)).
  { rewrite Ht. f_equal. destruct t; cbn in *; subst; reflexivity. }
  clear Ht Hpc. cbv zeta. unfold run_labels, _run_download.
  cbn [map]. rewrite exec_cons.
  assert (Hdone : forall J' F' T' esc acts,
             T' !! i = Some (task_at t (PcDone esc)) ->
             exec BASE (map (LTask i) acts)
               {| sys_jobs := J'; sys_fs := F'; sys_tasks := T' |}
             = {| sys_jobs := J'; sys_fs := F'; sys_tasks := T' |}).
  { intros J' F' T' esc acts H'.
    apply (skip_at BASE i acts J' F' T' _ H'). intros a w _.
    destruct a; reflexivity. }
  destruct (import_ok env) eqn:Hi; cbn [negb fst snd].
  - destruct (run_begin (task_job t) (t_started env) J) as [e|J1] eqn:Eb.
    + edestruct (step_at BASE i (TBegin true (t_started env)) J F T t)
        as (T1 & -> & H1); [exact Ht0 | cbn; rewrite Eb; reflexivity |].
      rewrite <- map_cons. rewrite (Hdone _ _ _ _ _ H1). cbn [sys_jobs sys_fs fst snd].
      rewrite (escaped_at _ _ _ _ _ _ H1). reflexivity.
    + edestruct (step_at BASE i (TBegin true (t_started env)) J F T t)
        as (T1 & -> & H1); [exact Ht0 | cbn; rewrite Eb; reflexivity |].
      cbn [fst snd]. rewrite exec_cons. unfold try_body. cbn [fst snd].
      destruct (make_dirs BASE (task_payload t) F) as [F1 [e|]] eqn:Emk.
      * edestruct (step_at BASE i TMkdirs J1 F T1 t)
          as (T2 & -> & H2); [exact H1 | cbn; rewrite Emk; reflexivity |].
        cbn [fst snd]. rewrite map_app, exec_app.
        rewrite (skip_at BASE i (map TDl (dl_actions env)) _ _ _ _ H2).
        2:{ intros a w Hin. apply in_map_iff in Hin.
            destruct Hin as (act & <- & _). reflexivity. }
        cbn [map]. rewrite exec_cons.
        rewrite (step_task_skip BASE i _
                   {| sys_jobs := J1; sys_fs := F1; sys_tasks := T2 |} _ H2)
          by (cbn; destruct (dl_outcome env); reflexivity).
        rewrite exec_cons.
        destruct (run_except (task_job t) (t_finished env) e J1) as [e'|J3] eqn:Ex;
          edestruct (step_at BASE i (THandle (t_finished env)) J1 F1 T2 t)
            as (T3 & -> & H3); try exact H2; try (cbn; rewrite Ex; reflexivity);
          cbn [exec fold_left sys_jobs sys_fs fst snd];
          rewrite (escaped_at _ _ _ _ _ _ H3); reflexivity.
      * edestruct (step_at BASE i TMkdirs J1 F T1 t)
          as (T2 & -> & H2); [exact H1 | cbn; rewrite Emk; reflexivity |].
        cbn [fst snd]. rewrite map_app, exec_app.
        rewrite (download_at BASE i (dl_actions env) _ _ _ _ H2).
        destruct (download BASE (task_job t) (task_payload t) (dl_actions env)
                    (J1, F1)) as [J2 F2] eqn:Edl.
        cbn [fst snd map]. rewrite exec_cons.
        destruct (dl_outcome env) as [e|].
        -- edestruct (step_at BASE i (TDlRaise e) J2 F2 T2 t)
             as (T3 & -> & H3); [exact H2 | reflexivity |].
           cbn [fst snd]. rewrite exec_cons.
           destruct (run_except (task_job t) (t_finished env) e J2)
             as [e'|J3] eqn:Ex;
             edestruct (step_at BASE i (THandle (t_finished env)) J2 F2 T3 t)
               as (T4 & -> & H4); try exact H3;
               try (cbn; rewrite Ex; reflexivity);
             cbn [exec fold_left sys_jobs sys_fs fst snd];
             rewrite (escaped_at _ _ _ _ _ _ H4); reflexivity.
        -- destruct (run_finished (task_job t) (t_finished env)
                       (season_dir BASE (task_payload t)) J2) as [e|J3] eqn:Ef.
           ++ edestruct (step_at BASE i (TDlReturn (t_finished env)) J2 F2 T2 t)
                as (T3 & -> & H3); [exact H2 | cbn; rewrite Ef; reflexivity |].
              cbn [fst snd]. rewrite exec_cons.
              destruct (run_except (task_job t) (t_finished env) e J2)
                as [e'|J4] eqn:Ex;
                edestruct (step_at BASE i (THandle (t_finished env)) J2 F2 T3 t)
                  as (T4 & -> & H4); try exact H3;
                  try (cbn; rewrite Ex; reflexivity);
                cbn [exec fold_left sys_jobs sys_fs fst snd];
                rewrite (escaped_at _ _ _ _ _ _ H4); reflexivity.
           ++ edestruct (step_at BASE i (TDlReturn (t_finished env)) J2 F2 T2 t)
                as (T3 & -> & H3); [exact H2 | cbn; rewrite Ef; reflexivity |].
              cbn [fst snd].
              change [LTask i (THandle (t_finished env))]
                with (map (LTask i) [THandle (t_finished env)]).
              rewrite (Hdone _ _ _ _ _ H3). cbn [sys_jobs sys_fs].
              rewrite (escaped_at _ _ _ _ _ _ H3). reflexivity.
  - edestruct (step_at BASE i (TBegin false (t_started env)) J F T t)
      as (T1 & -> & H1); [exact Ht0 | reflexivity |].
    rewrite <- map_cons. rewrite (Hdone _ _ _ _ _ H1). cbn [sys_jobs sys_fs fst snd].
    rewrite (escaped_at _ _ _ _ _ _ H1). reflexivity.
Qed.

(** * The theorems at concrete inputs *)

Lemma demo_fs_well_formed : fs_well_formed demo_fs.
Proof.
  unfold fs_well_formed.
  apply (bool_decide_unpack _). vm_compute. reflexivity.
Qed.

Lemma season_folder_exclusive_witness :
  exists jobs' m',
    _run_download demo_base "job-1" demo_payload demo_env (demo_pending, demo_fs)
    = ((jobs', demo_fs), None)
    /\ jobs' !! "job-1" = Some m'
    /\ status m' = failed
    /\ error m' = Some "Season folder already exists"
    /\ any_active jobs' = false.
Proof.
  destruct (season_folder_exclusive demo_base "job-1" demo_payload demo_env
              demo_pending demo_fs
              (new_job demo_payload "2024-01-01T10:00:00"))
    as (_ & jobs' & m' & H1 & H2 & H3 & _ & H5 & H6).
  - vm_compute. reflexivity.
  - reflexivity.
  - exact demo_fs_well_formed.
  - vm_compute. reflexivity.
  - exists jobs', m'. repeat (split; [assumption|]).
    apply H6. intros j mj N Hj.
    assert (Ep : demo_pending
                 = <["job-1" := new_job demo_payload "2024-01-01T10:00:00"]> ∅)
      by (vm_compute; reflexivity).
    rewrite Ep in Hj.
    apply lookup_insert_Some in Hj. destruct Hj as [[E _]|[_ Hj]].
    + congruence.
    + rewrite lookup_empty in Hj. discriminate.
Defined.

Lemma runner_failures_recorded_witness :
  exists jobs' fs' m',
    _run_download demo_base "job-1" demo_payload2 failing_env
      (demo_pending2, demo_fs) = ((jobs', fs'), None)
    /\ jobs' !! "job-1" = Some m'
    /\ status m' = failed
    /\ error m' = Some "ERROR: unable to download video data".
Proof.
  destruct (runner_failures_recorded demo_base "job-1" demo_payload2 failing_env
              demo_pending2 demo_fs
              (new_job demo_payload2 "2024-01-01T10:00:00"))
    as (jobs' & fs' & esc & m' & H1 & H2 & _ & H4 & _).
  - vm_compute. reflexivity.
  - reflexivity.
  - destruct (H4 eq_refl) as [-> H5].
    assert (Hw : workflow_failure demo_base demo_payload2 failing_env demo_fs
                 = dl_outcome failing_env) by (vm_compute; reflexivity).
    rewrite Hw in H5. cbn in H5. destruct H5 as (H5 & _ & H6).
    exists jobs', fs', m'. auto.
Defined.


Lemma single_active_job_witness :
  pull demo_payload2 "job-2" "2024-01-01T10:00:02" demo_pending
  = (demo_pending,
     inl {| status_code := 409;
            detail := "Another download is already in progress. Please wait or cancel it." |})
  /\ at_most_one_active (sys_jobs (exec demo_base demo_trace (init demo_fs))).
Proof.
  destruct (single_active_job demo_base demo_fs demo_trace demo_payload2
              "job-2" "2024-01-01T10:00:02" demo_pending) as (H1 & _ & H3 & _).
  split; [|exact H3].
  apply H1. exists "job-1", (new_job demo_payload "2024-01-01T10:00:00").
  split; [vm_compute; reflexivity | left; reflexivity].
Defined.

Lemma status_monotone_witness :
  exists m',
    sys_jobs (step demo_base (LTask 0 (TBegin true "2024-01-01T10:00:01"))
                (exec demo_base
                   [LPull demo_payload2 "job-1" "2024-01-01T10:00:00"]
                   (init demo_fs))) !! "job-1" = Some m'
    /\ status m' = running.
Proof.
  destruct (status_monotone demo_base demo_fs
              [LPull demo_payload2 "job-1" "2024-01-01T10:00:00"] []
              (LTask 0 (TBegin true "2024-01-01T10:00:01")) "job-1"
              (new_job demo_payload2 "2024-01-01T10:00:00"))
    as [H1 _]; [vm_compute; reflexivity|].
  destruct H1 as (m' & Hm' & Hs); [split; exact I|].
  exists m'. split; [exact Hm'|].
  assert (Hc : sys_jobs (step demo_base (LTask 0 (TBegin true "2024-01-01T10:00:01"))
                (exec demo_base
                   [LPull demo_payload2 "job-1" "2024-01-01T10:00:00"]
                   (init demo_fs))) !! "job-1"
               = Some (set_running "2024-01-01T10:00:01"
                         (new_job demo_payload2 "2024-01-01T10:00:00")))
    by (vm_compute; reflexivity).
  rewrite Hc in Hm'. inversion Hm'. reflexivity.
Defined.

Lemma outcome_fields_witness :
  exists m,
    sys_jobs (exec demo_base demo_trace (init demo_fs)) !! "job-1" = Some m
    /\ status m = failed
    /\ is_Some (error m)
    /\ ~ is_Some (result_path m).
Proof.
  assert (H : exists m,
             sys_jobs (exec demo_base demo_trace (init demo_fs)) !! "job-1" = Some m
             /\ status m = failed).
  { eexists. split; vm_compute; reflexivity. }
  destruct H as (m & Hm & Hs).
  destruct (outcome_fields demo_base demo_fs demo_trace "job-1" m Hm) as [H1 H2].
  exists m. split; [exact Hm | split; [exact Hs | split]].
  - apply H2, Hs.
  - intros Hr. apply H1 in Hr. rewrite Hs in Hr. discriminate.
Defined.

(** * The status answer read by read and read at once *)

Lemma respond_settled (job_id : string) (m : JobMeta) :
  Api.respond job_id (fun _ => m) = inr (Api.status_response job_id m).
Proof.
  unfold Api.respond, Api.status_response, Api.text_if_truthy, is_active.
  destruct m as [st cr pl sa pp ct sp ce fa rp ms er]. cbn.
  destruct pp as [pp|], ct as [ct|], sp as [sp|], ce as [ce|]; cbn;
    try destruct (String.eqb ct ""); try destruct (String.eqb sp ""); cbn;
    destruct st; reflexivity.
Qed.

Lemma status_settled (job_id : string) (jobs : gmap string JobMeta) :
  Api.status job_id jobs
  = match jobs !! job_id with
    | Some m => inr (inr (Api.status_response job_id m))
    | None => inl {| status_code := 404; detail := "Job ID not found" |}
    end.
Proof.
  unfold Api.status. destruct (jobs !! job_id); [|reflexivity].
  rewrite respond_settled. reflexivity.
Qed.

(** * More on the registry, the runner and the status answer *)

Lemma new_job_active (request : RequestPayload) (now : string) :
  is_active (new_job request now) = true.
Proof. reflexivity. Qed.

Lemma any_active_insert_active (jobs : gmap string JobMeta) (j : string)
    (m : JobMeta) :
  is_active m = true -> any_active (<[j := m]> jobs) = true.
Proof.
  intros H. apply any_active_true. exists j, m.
  split; [apply lookup_insert_eq | exact H].
Qed.

(** X1: a [pull] that finds no active job answers with the new identifier,
    stores under it a [pending] record holding the request and the creation
    time and nothing else, leaves every other record as it was, and
    [GET /status] of the new identifier, answered on that registry, reports
    [pending] with the message "Job is still processing." and no progress,
    result or error field. *)
Theorem pull_then_status (request : RequestPayload) (job_id now : string)
    (jobs : gmap string JobMeta) :
  any_active jobs = false ->
  let jobs' := (pull request job_id now jobs).1 in
  (pull request job_id now jobs).2
  = inr {| resp_job_id := job_id; resp_status := pending;
           resp_message := "Download started." |}
  /\ jobs' !! job_id = Some (new_job request now)
  /\ (forall j, j <> job_id -> jobs' !! j = jobs !! j)
  /\ dom jobs' = {[job_id]} ∪ dom jobs
  /\ Api.status job_id jobs'
     = inr (inr {| Api.st_job_id := job_id;
              Api.st_status := pending;
              Api.st_created_at := Some now;
              Api.st_progress_percent := None;
              Api.st_current_title := None;
              Api.st_speed := None;
              Api.st_current_episode := None;
              Api.st_message := Some (Some "Job is still processing.");
              Api.st_finished_at := None;
              Api.st_result_path := None;
              Api.st_error := None |}).
Proof.
  intros Ha. unfold pull. rewrite Ha. cbn [fst snd].
  split; [reflexivity | split; [apply lookup_insert_eq | split; [|split]]].
  - intros j N. apply lookup_insert_ne. congruence.
  - apply dom_insert_L.
  - rewrite status_settled, lookup_insert_eq. reflexivity.
Qed.

Lemma pull_then_status_witness :
  Api.status "job-1" (pull demo_payload "job-1" "2024-01-01T10:00:00" ∅).1
  = inr (inr {| Api.st_job_id := "job-1";
           Api.st_status := pending;
           Api.st_created_at := Some "2024-01-01T10:00:00";
           Api.st_progress_percent := None;
           Api.st_current_title := None;
           Api.st_speed := None;
           Api.st_current_episode := None;
           Api.st_message := Some (Some "Job is still processing.");
           Api.st_finished_at := None;
           Api.st_result_path := None;
           Api.st_error := None |}).
Proof.
  apply (pull_then_status demo_payload "job-1" "2024-01-01T10:00:00" ∅).
  vm_compute. reflexivity.
Defined.

(** X2: once a [pull] has been accepted, every further [pull] is refused
    with 409 and changes nothing, before the runner starts and while it
    downloads, whatever progress events arrive. *)
Theorem pull_refused_while_active (BASE : Fs.Path) (request r2 : RequestPayload)
    (job_id id2 now now1 now2 : string) (jobs : gmap string JobMeta)
    (fs : gmap (list string) Fs.Node) (actions : list DlAction) :
  any_active jobs = false ->
  let queued := (pull request job_id now jobs).1 in
  pull r2 id2 now2 queued
  = (queued,
     inl {| status_code := 409;
            detail := "Another download is already in progress. Please wait or cancel it." |})
  /\ exists started,
      run_begin job_id now1 queued = inr started
      /\ let busy := (download BASE job_id request actions (started, fs)).1 in
         pull r2 id2 now2 busy
         = (busy,
            inl {| status_code := 409;
                   detail := "Another download is already in progress. Please wait or cancel it." |}).
Proof.
  intros Ha. unfold pull at 1 3. rewrite Ha. cbn [fst].
  assert (Hrefuse : forall js, any_active js = true ->
            pull r2 id2 now2 js
            = (js, inl {| status_code := 409;
                          detail := "Another download is already in progress. Please wait or cancel it." |})).
  { intros js H. unfold pull. rewrite H. reflexivity. }
  split.
  - apply Hrefuse, any_active_insert_active, new_job_active.
  - unfold run_begin, update_job. rewrite lookup_insert_eq.
    eexists. split; [reflexivity|]. cbv zeta.
    apply Hrefuse, any_active_true.
    destruct (download_frame BASE job_id request actions
                (<[job_id := set_running now1 (new_job request now)]>
                   (<[job_id := new_job request now]> jobs), fs)
                (set_running now1 (new_job request now)))
      as (m1 & H1 & F1); [apply lookup_insert_eq|].
    exists job_id, m1. split; [exact H1|].
    unfold is_active. destruct F1 as [-> _]. reflexivity.
Qed.

Lemma pull_refused_while_active_witness :
  pull demo_payload2 "job-2" "2024-01-01T10:00:02"
    (pull demo_payload "job-1" "2024-01-01T10:00:00" ∅).1
  = ((pull demo_payload "job-1" "2024-01-01T10:00:00" ∅).1,
     inl {| status_code := 409;
            detail := "Another download is already in progress. Please wait or cancel it." |}).
Proof.
  apply (pull_refused_while_active demo_base demo_payload demo_payload2
           "job-1" "job-2" "2024-01-01T10:00:00" "2024-01-01T10:00:01"
           "2024-01-01T10:00:02" ∅ demo_fs []).
  vm_compute. reflexivity.
Defined.

(** X3: when the job is the only active one and the import succeeds, the
    run ends with no active job left, whatever the file system and the
    downloader do, and the next [pull] is accepted. *)
Theorem run_frees_registry (BASE : Fs.Path) (job_id : string)
    (payload : RequestPayload) (env : RunEnv)
    (jobs : gmap string JobMeta) (fs : gmap (list string) Fs.Node) (m : JobMeta)
    (request : RequestPayload) (new_id now : string) :
  jobs !! job_id = Some m ->
  import_ok env = true ->
  (forall j mj, j <> job_id -> jobs !! j = Some mj -> is_active mj = false) ->
  let jobs' := (_run_download BASE job_id payload env (jobs, fs)).1.1 in
  any_active jobs' = false
  /\ pull request new_id now jobs'
     = (<[new_id := new_job request now]> jobs',
        inr {| resp_job_id := new_id; resp_status := pending;
               resp_message := "Download started." |}).
Proof.
  intros Hm Hi Hidle.
  destruct (run_download_outcome BASE job_id payload env jobs fs m Hm Hi)
    as (jobs' & fs' & m1 & Hrun & F & Hoth & Hj).
  rewrite Hrun. cbn [fst].
  assert (Hna : any_active jobs' = false).
  { apply any_active_false. intros j mj Hmj.
    destruct (decide (j = job_id)) as [->|N].
    - rewrite Hj in Hmj. inversion Hmj.
      destruct (workflow_failure BASE payload env fs); reflexivity.
    - rewrite (Hoth j N) in Hmj. exact (Hidle j mj N Hmj). }
  split; [exact Hna|]. unfold pull. rewrite Hna. reflexivity.
Qed.

Lemma run_frees_registry_witness :
  any_active (_run_download demo_base "job-1" demo_payload2 failing_env
                (demo_pending2, demo_fs)).1.1 = false.
Proof.
  apply (run_frees_registry demo_base "job-1" demo_payload2 failing_env
           demo_pending2 demo_fs (new_job demo_payload2 "2024-01-01T10:00:00")
           demo_payload "job-2" "2024-01-01T10:06:00").
  - vm_compute. reflexivity.
  - reflexivity.
  - intros j mj N Hj.
    assert (Ep : demo_pending2
                 = <["job-1" := new_job demo_payload2 "2024-01-01T10:00:00"]> ∅)
      by (vm_compute; reflexivity).
    rewrite Ep in Hj. apply lookup_insert_Some in Hj.
    destruct Hj as [[E _]|[_ Hj]]; [congruence|].
    rewrite lookup_empty in Hj. discriminate.
Defined.

(** X4: when the import of the downloader fails, the exception leaves
    [_run_download], nothing is written, the job stays [pending], and every
    later [pull] is refused with 409. *)
Theorem import_failure_blocks (BASE : Fs.Path) (job_id : string)
    (payload : RequestPayload) (env : RunEnv)
    (jobs : gmap string JobMeta) (fs : gmap (list string) Fs.Node) (m : JobMeta)
    (request : RequestPayload) (new_id now : string) :
  jobs !! job_id = Some m ->
  status m = pending ->
  import_ok env = false ->
  exists e,
    _run_download BASE job_id payload env (jobs, fs) = ((jobs, fs), Some e)
    /\ exc_class e = ImportError
    /\ pull request new_id now jobs
       = (jobs,
          inl {| status_code := 409;
                 detail := "Another download is already in progress. Please wait or cancel it." |}).
Proof.
  intros Hm Hs Hi. eexists. split; [|split].
  - unfold _run_download. rewrite Hi. reflexivity.
  - reflexivity.
  - unfold pull.
    assert (Ha : any_active jobs = true).
    { apply any_active_true. exists job_id, m. split; [exact Hm|].
      unfold is_active. rewrite Hs. reflexivity. }
    rewrite Ha. reflexivity.
Qed.

(** X5: [_run_download] for an identifier that the registry does not hold
    lets the [KeyError] of line 95 escape: nothing is recorded and no
    directory is made; in the running system this does not happen, since the
    record of every task that has not returned is in the registry. *)
Theorem run_unknown_job (BASE : Fs.Path) (job_id : string)
    (payload : RequestPayload) (env : RunEnv)
    (jobs : gmap string JobMeta) (fs fs0 : gmap (list string) Fs.Node)
    (ls : list Label) (i : nat) (t : Task) :
  (jobs !! job_id = None ->
   import_ok env = true ->
   _run_download BASE job_id payload env (jobs, fs)
   = ((jobs, fs), Some (KeyError job_id)))
  /\ (sys_tasks (exec BASE ls (init fs0)) !! i = Some t ->
      live (task_pc t) = true ->
      is_Some (sys_jobs (exec BASE ls (init fs0)) !! task_job t)).
Proof.
  split.
  - intros Hn Hi. unfold _run_download, run_begin, update_job.
    rewrite Hi. cbn [negb fst]. rewrite Hn. reflexivity.
  - intros Ht Hl.
    destruct (inv_task _ (exec_inv BASE ls _ (init_inv fs0)) i t Ht Hl)
      as (m & Hm & _).
    exists m. exact Hm.
Qed.

Lemma run_unknown_job_witness :
  _run_download demo_base "job-9" demo_payload demo_env (demo_pending, demo_fs)
  = ((demo_pending, demo_fs), Some (KeyError "job-9")).
Proof.
  apply (run_unknown_job demo_base "job-9" demo_payload demo_env
           demo_pending demo_fs demo_fs [] 0
           {| task_job := "job-9"; task_payload := demo_payload;
              task_pc := PcQueued |}).
  - vm_compute. reflexivity.
  - reflexivity.
Defined.

Lemma import_failure_blocks_witness :
  exists e,
    _run_download demo_base "job-1" demo_payload import_failing_env
      (demo_pending, demo_fs) = ((demo_pending, demo_fs), Some e)
    /\ exc_class e = ImportError
    /\ pull demo_payload2 "job-2" "2024-01-01T10:06:00" demo_pending
       = (demo_pending,
          inl {| status_code := 409;
                 detail := "Another download is already in progress. Please wait or cancel it." |}).
Proof.
  apply (import_failure_blocks demo_base "job-1" demo_payload import_failing_env
           demo_pending demo_fs (new_job demo_payload "2024-01-01T10:00:00")).
  - vm_compute. reflexivity.
  - reflexivity.
  - reflexivity.
Defined.

Lemma download_dom (BASE : Fs.Path) (job_id : string)
    (payload : RequestPayload) (actions : list DlAction) :
  forall w, dom (download BASE job_id payload actions w).1 = dom w.1.
Proof.
  unfold download.
  induction actions as [|a actions IH]; intros w; cbn [fold_left]; [reflexivity|].
  rewrite IH. destruct a as [p n|d]; cbn [dl_step fst snd]; [reflexivity|].
  unfold hook. destruct (negb _); [reflexivity|].
  destruct (w.1 !! job_id) as [m|] eqn:E; [|reflexivity].
  rewrite dom_insert_L. apply subseteq_union_1_L, singleton_subseteq_l.
  apply elem_of_dom_2 in E. exact E.
Qed.

Lemma dom_insert_present (jobs : gmap string JobMeta) (j : string)
    (m m' : JobMeta) :
  jobs !! j = Some m -> dom (<[j := m']> jobs) = dom jobs.
Proof.
  intros H. rewrite dom_insert_L. apply subseteq_union_1_L, singleton_subseteq_l.
  apply elem_of_dom_2 in H. exact H.
Qed.

(** The registry after a run, when the record is there and the import
    succeeds: the record of the job is replaced, nothing else changes. *)
Lemma run_download_registry (BASE : Fs.Path) (job_id : string)
    (pl : RequestPayload) (env : RunEnv)
    (jobs : gmap string JobMeta) (fs : gmap (list string) Fs.Node) (m : JobMeta) :
  jobs !! job_id = Some m ->
  import_ok env = true ->
  exists m',
    (_run_download BASE job_id pl env (jobs, fs)).1.1
    = <[job_id := m']> jobs
    /\ created_at m' = created_at m
    /\ payload m' = payload m
    /\ started_at m' = Some (t_started env).
Proof.
  intros Hm Hi.
  destruct (run_download_outcome BASE job_id pl env jobs fs m Hm Hi)
    as (jobs' & fs' & m1 & Hrun & F & Hoth & Hj).
  rewrite Hrun. cbn [fst].
  destruct F as (F1 & F2 & F3 & F4 & _).
  eexists. split.
  - apply map_eq. intros j. destruct (decide (j = job_id)) as [->|N].
    + rewrite Hj, lookup_insert_eq. reflexivity.
    + rewrite (Hoth j N), lookup_insert_ne by congruence. reflexivity.
  - destruct (workflow_failure BASE pl env fs); cbn;
      rewrite F2, F3, F4; repeat split.
Qed.

(** X6: a run of [_run_download] touches the record of its own job only:
    every other record is as before, no identifier is added or removed, and
    the record keeps its creation time and its request; when the import
    succeeds it carries the start time. *)
Theorem run_touches_own_record (BASE : Fs.Path) (job_id : string)
    (pl : RequestPayload) (env : RunEnv)
    (jobs : gmap string JobMeta) (fs : gmap (list string) Fs.Node) (m : JobMeta) :
  jobs !! job_id = Some m ->
  let jobs' := (_run_download BASE job_id pl env (jobs, fs)).1.1 in
  (forall j, j <> job_id -> jobs' !! j = jobs !! j)
  /\ dom jobs' = dom jobs
  /\ exists m',
      jobs' !! job_id = Some m'
      /\ created_at m' = created_at m
      /\ payload m' = payload m
      /\ (import_ok env = true -> started_at m' = Some (t_started env)).
Proof.
  intros Hm. cbv zeta. destruct (import_ok env) eqn:Hi.
  - destruct (run_download_registry BASE job_id pl env jobs fs m Hm Hi)
      as (m' & -> & H1 & H2 & H3).
    split; [|split].
    + intros j N. apply lookup_insert_ne. congruence.
    + apply (dom_insert_present _ _ _ _ Hm).
    + exists m'. rewrite lookup_insert_eq. auto.
  - unfold _run_download. rewrite Hi. cbn [negb fst].
    split; [reflexivity | split; [reflexivity|]].
    exists m. split; [exact Hm|]. split; [reflexivity|].
    split; [reflexivity | discriminate].
Qed.

Lemma run_touches_own_record_witness :
  dom (_run_download demo_base "job-1" demo_payload2 failing_env
         (demo_pending2, demo_fs)).1.1 = dom demo_pending2.
Proof.
  apply (run_touches_own_record demo_base "job-1" demo_payload2 failing_env
           demo_pending2 demo_fs (new_job demo_payload2 "2024-01-01T10:00:00")).
  vm_compute. reflexivity.
Defined.

Lemma hook_accepts_stores (job_id : string) (sd : Fs.Path) (d : Event)
    (fs : gmap (list string) Fs.Node) (jobs : gmap string JobMeta) (m : JobMeta) :
  jobs !! job_id = Some m ->
  hook_accepts d = true ->
  hook job_id sd d fs jobs
  = <[job_id := hook_update (hook_percent d) (default "" (info_title d))
                  (hook_speed (ev_speed d)) (count_media_files fs sd ".mp4") m]>
      jobs.
Proof.
  intros Hm Ha. unfold hook. fold (hook_accepts d). rewrite Ha, Hm. reflexivity.
Qed.

Lemma download_snoc (BASE : Fs.Path) (job_id : string) (pl : RequestPayload)
    (acts : list DlAction) (a : DlAction)
    (w : gmap string JobMeta * gmap (list string) Fs.Node) :
  download BASE job_id pl (acts ++ [a])%list w
  = dl_step job_id (season_dir BASE pl) a (download BASE job_id pl acts w).
Proof. unfold download. rewrite fold_left_app. reflexivity. Qed.

(** X7: when the downloader raises after a last accepted progress event,
    the [failed] record keeps the percentage, title, speed and episode count
    of that event: the [except] clauses reset none of them; when it returns
    normally the [finished] record has 100, an empty title and an empty speed,
    and keeps the episode count of the last event. *)
Theorem failure_keeps_progress (BASE : Fs.Path) (job_id : string)
    (pl : RequestPayload) (env : RunEnv)
    (jobs : gmap string JobMeta) (fs fs1 : gmap (list string) Fs.Node)
    (m : JobMeta) (acts : list DlAction) (d : Event) :
  jobs !! job_id = Some m ->
  import_ok env = true ->
  make_dirs BASE pl fs = (fs1, None) ->
  dl_actions env = (acts ++ [DlHook d])%list ->
  hook_accepts d = true ->
  let before := download BASE job_id pl acts
                  (<[job_id := set_running (t_started env) m]> jobs, fs1) in
  exists m',
    (_run_download BASE job_id pl env (jobs, fs)).1.1 !! job_id = Some m'
    /\ current_episode m'
       = Some (count_media_files before.2 (season_dir BASE pl) ".mp4")
    /\ match dl_outcome env with
       | Some e =>
           status m' = failed
           /\ progress_percent m' = Some (hook_percent d)
           /\ current_title m' = Some (default "" (info_title d))
           /\ speed m' = Some (hook_speed (ev_speed d))
       | None =>
           status m' = finished
           /\ progress_percent m' = Some 100
           /\ current_title m' = Some ""
           /\ speed m' = Some ""
       end.
Proof.
  intros Hm Hi Hmk Hacts Ha. cbv zeta.
  unfold _run_download, run_begin, update_job.
  rewrite Hi. cbn [negb fst snd]. rewrite Hm.
  unfold try_body. cbn [fst snd]. rewrite Hmk, Hacts, download_snoc.
  set (w := download BASE job_id pl acts
              (<[job_id := set_running (t_started env) m]> jobs, fs1)).
  destruct (download_frame BASE job_id pl acts
              (<[job_id := set_running (t_started env) m]> jobs, fs1)
              (set_running (t_started env) m)) as (m1 & H1 & _);
    [apply lookup_insert_eq|].
  fold w in H1. cbn [dl_step fst snd].
  rewrite (hook_accepts_stores _ _ _ _ _ _ H1 Ha).
  destruct (dl_outcome env) as [e|].
  - unfold run_except, update_job. cbn [fst snd]. rewrite lookup_insert_eq.
    cbn [fst snd]. rewrite lookup_insert_eq.
    eexists. split; [reflexivity|]. repeat split.
  - unfold run_finished, update_job. cbn [fst snd]. rewrite lookup_insert_eq.
    cbn [fst snd]. rewrite lookup_insert_eq.
    eexists. split; [reflexivity|]. repeat split.
Qed.

Lemma failure_keeps_progress_witness :
  exists m',
    (_run_download demo_base "job-1" demo_payload2 failing_env
       (demo_pending2, demo_fs)).1.1 !! "job-1" = Some m'
    /\ status m' = failed
    /\ progress_percent m' = Some 28
    /\ speed m' = Some "2.00 KiB/s".
Proof.
  destruct (failure_keeps_progress demo_base "job-1" demo_payload2 failing_env
              demo_pending2 demo_fs
              (<[season_dir demo_base demo_payload2 := Fs.Directory]> demo_fs)
              (new_job demo_payload2 "2024-01-01T10:00:00") [] half_way_event)
    as (m' & H1 & _ & H3).
  - vm_compute. reflexivity.
  - reflexivity.
  - reflexivity.
  - reflexivity.
  - reflexivity.
  - cbn in H3. destruct H3 as (S1 & S2 & _ & S4).
    exists m'. split; [exact H1 | split; [exact S1 | split]].
    + rewrite S2. vm_compute. reflexivity.
    + rewrite S4. vm_compute. reflexivity.
Defined.

(** X8: when the root output path exists and is not a directory, the root
    [mkdir] raises [FileExistsError], which the first [except] clause takes:
    the job ends [failed] with the text "Season folder already exists",
    and the file system is as before. *)
Theorem root_not_a_directory (BASE : Fs.Path) (job_id : string)
    (pl : RequestPayload) (env : RunEnv)
    (jobs : gmap string JobMeta) (fs : gmap (list string) Fs.Node) (m : JobMeta) :
  jobs !! job_id = Some m ->
  import_ok env = true ->
  Fs.exists_ fs (main_dir BASE pl) = true ->
  Fs.is_dir fs (main_dir BASE pl) = false ->
  exists jobs' m',
    _run_download BASE job_id pl env (jobs, fs) = ((jobs', fs), None)
    /\ jobs' !! job_id = Some m'
    /\ status m' = failed
    /\ finished_at m' = Some (t_finished env)
    /\ error m' = Some "Season folder already exists".
Proof.
  intros Hm Hi He Hd.
  assert (Hmk : make_dirs BASE pl fs
                = (fs, Some {| exc_class := FileExistsError;
                               exc_text := Fs.errno_text "[Errno 17] File exists"
                                             (main_dir BASE pl) |})).
  { unfold make_dirs. rewrite mkdir_unfold, (os_mkdir_exists _ fs He).
    cbn. rewrite Hd. reflexivity. }
  unfold _run_download, run_begin, update_job, try_body.
  rewrite Hi. cbn [negb fst snd]. rewrite Hm. cbn [fst snd]. rewrite Hmk.
  unfold run_except, update_job. cbn [fst snd]. rewrite lookup_insert_eq.
  eexists _, _. split; [reflexivity|].
  split; [apply lookup_insert_eq|]. repeat split.
Qed.

Lemma root_not_a_directory_witness :
  exists jobs' m',
    _run_download demo_base "job-1" demo_payload demo_env
      (demo_pending, blocked_fs) = ((jobs', blocked_fs), None)
    /\ jobs' !! "job-1" = Some m'
    /\ status m' = failed
    /\ finished_at m' = Some (t_finished demo_env)
    /\ error m' = Some "Season folder already exists".
Proof.
  apply (root_not_a_directory demo_base "job-1" demo_payload demo_env
           demo_pending blocked_fs (new_job demo_payload "2024-01-01T10:00:00")).
  - vm_compute. reflexivity.
  - reflexivity.
  - vm_compute. reflexivity.
  - vm_compute. reflexivity.
Defined.

(** * More on the progress hook *)

Lemma hook_ignores (job_id : string) (sd : Fs.Path) (d : Event)
    (fs : gmap (list string) Fs.Node) (jobs : gmap string JobMeta) :
  hook_accepts d = false \/ jobs !! job_id = None ->
  hook job_id sd d fs jobs = jobs.
Proof.
  intros H. unfold hook. fold (hook_accepts d).
  destruct (hook_accepts d); cbn [negb]; [|reflexivity].
  destruct H as [H|H]; [discriminate|]. rewrite H. reflexivity.
Qed.

(** X9: progress events whose status tag is neither "downloading" nor
    "finished" are dropped, and so is every event for a job that the
    registry does not hold: a download made of such events leaves the registry
    exactly as it was. *)
Theorem ignored_events (BASE : Fs.Path) (job_id : string)
    (pl : RequestPayload) (actions : list DlAction)
    (w : gmap string JobMeta * gmap (list string) Fs.Node) :
  forallb ignored_action actions = true \/ w.1 !! job_id = None ->
  (download BASE job_id pl actions w).1 = w.1.
Proof.
  unfold download. revert w.
  induction actions as [|a actions IH]; intros w H; cbn [fold_left]; [reflexivity|].
  assert (Hstep : (dl_step job_id (season_dir BASE pl) a w).1 = w.1).
  { destruct a as [p n|d]; cbn [dl_step fst]; [reflexivity|].
    apply hook_ignores. destruct H as [H|H]; [left|right; exact H].
    cbn in H. apply andb_true_iff in H. destruct H as [H _].
    apply negb_true_iff in H. exact H. }
  rewrite IH; [exact Hstep|]. rewrite Hstep.
  destruct H as [H|H]; [left|right; exact H].
  cbn in H. apply andb_true_iff in H. apply H.
Qed.

Lemma ignored_events_witness :
  (download demo_base "job-1" demo_payload
     [DlHook postprocessing_event] (demo_running, demo_fs)).1 = demo_running.
Proof.
  apply (ignored_events demo_base "job-1" demo_payload
           [DlHook postprocessing_event] (demo_running, demo_fs)).
  left. reflexivity.
Defined.

(** X10: whatever the downloader does, the progress hook writes only the
    four progress fields of the record of its own job: no identifier is added
    or removed, every other record is untouched, and status, timestamps,
    request, result path, message and error of the record are as before. *)
Theorem hook_writes_progress_only (BASE : Fs.Path) (job_id : string)
    (pl : RequestPayload) (actions : list DlAction)
    (w : gmap string JobMeta * gmap (list string) Fs.Node) (m : JobMeta) :
  dom (download BASE job_id pl actions w).1 = dom w.1
  /\ (forall j, j <> job_id ->
        (download BASE job_id pl actions w).1 !! j = w.1 !! j)
  /\ (w.1 !! job_id = Some m ->
      exists m',
        (download BASE job_id pl actions w).1 !! job_id = Some m'
        /\ status m' = status m
        /\ created_at m' = created_at m
        /\ payload m' = payload m
        /\ started_at m' = started_at m
        /\ finished_at m' = finished_at m
        /\ result_path m' = result_path m
        /\ message m' = message m
        /\ error m' = error m).
Proof.
  split; [apply download_dom | split].
  - intros j N. apply download_other, N.
  - intros Hm.
    destruct (download_frame BASE job_id pl actions w m Hm) as (m' & H1 & F).
    exists m'. split; [exact H1 | exact F].
Qed.

Lemma hook_writes_progress_only_witness :
  exists m',
    (download demo_base "job-1" demo_payload
       [DlHook half_way_event] (demo_running, demo_fs)).1 !! "job-1" = Some m'
    /\ status m' = running.
Proof.
  destruct (hook_writes_progress_only demo_base "job-1" demo_payload
              [DlHook half_way_event] (demo_running, demo_fs)
              (set_running "2024-01-01T10:00:01"
                 (new_job demo_payload "2024-01-01T10:00:00")))
    as (_ & _ & H).
  destruct H as (m' & H1 & H2 & _); [vm_compute; reflexivity|].
  exists m'. split; [exact H1 | exact H2].
Defined.

(** X11: the last accepted event wins: the registry after two events is
    the registry after the second one alone. *)
Theorem hook_last_event_wins (job_id : string) (sd : Fs.Path) (d1 d2 : Event)
    (fs1 fs2 : gmap (list string) Fs.Node) (jobs : gmap string JobMeta) :
  hook_accepts d2 = true ->
  hook job_id sd d2 fs2 (hook job_id sd d1 fs1 jobs)
  = hook job_id sd d2 fs2 jobs.
Proof.
  intros Ha. destruct (jobs !! job_id) as [m|] eqn:Em.
  - destruct (hook_accepts d1) eqn:Ha1.
    + rewrite (hook_accepts_stores job_id sd d1 fs1 jobs m Em Ha1).
      rewrite (hook_accepts_stores job_id sd d2 fs2 _ _
                 (lookup_insert_eq _ _ _) Ha).
      rewrite (hook_accepts_stores job_id sd d2 fs2 jobs m Em Ha).
      apply insert_insert_eq.
    + rewrite (hook_ignores job_id sd d1 fs1 jobs) by (left; exact Ha1).
      reflexivity.
  - rewrite (hook_ignores job_id sd d1 fs1 jobs) by (right; exact Em).
    reflexivity.
Qed.

Lemma hook_last_event_wins_witness :
  hook "job-1" demo_season_dir half_way_event demo_fs
    (hook "job-1" demo_season_dir low_estimate_event demo_fs demo_running)
  = hook "job-1" demo_season_dir half_way_event demo_fs demo_running.
Proof.
  apply (hook_last_event_wins "job-1" demo_season_dir low_estimate_event
           half_way_event demo_fs demo_fs demo_running).
  reflexivity.
Defined.

(** * More on the percentage and the speed text *)

Lemma rn53_mono_nonneg (x y : Q) :
  (0 <= x)%Q -> (x <= y)%Q -> (PyFloat.rn53 x <= PyFloat.rn53 y)%Q.
Proof.
  intros H0 Hxy. destruct (Qlt_le_dec 0 x) as [H|H].
  - apply rn53_mono_pos; assumption.
  - rewrite (rn53_zero x) by lra. apply rn53_nonneg. lra.
Qed.

Lemma rn53_comp_nonneg (x y : Q) :
  (0 <= x)%Q -> (x == y)%Q -> (PyFloat.rn53 x == PyFloat.rn53 y)%Q.
Proof.
  intros H0 E. apply Qle_antisym; apply rn53_mono_nonneg; lra.
Qed.

Lemma int_mono_nonneg (x y : Q) :
  (0 <= x)%Q -> (x <= y)%Q -> PyFloat.int x <= PyFloat.int y.
Proof.
  intros H0 Hxy. unfold PyFloat.int.
  assert (Hy : (0 <= y)%Q) by lra.
  apply Qle_bool_iff in H0, Hy. rewrite H0, Hy.
  apply Qfloor_resp_le, Hxy.
Qed.

Lemma percent_value_mono (d1 d2 t : Q) :
  (0 < t)%Q -> (0 <= d1)%Q -> (d1 <= d2)%Q ->
  PyFloat.int (PyFloat.mul (PyFloat.truediv d1 t) 100)
  <= PyFloat.int (PyFloat.mul (PyFloat.truediv d2 t) 100).
Proof.
  intros Ht H1 H12. unfold PyFloat.mul, PyFloat.truediv.
  assert (Hq1 : (0 <= d1 / t)%Q) by (apply Qle_shift_div_l; [exact Ht | lra]).
  assert (Hq : (d1 / t <= d2 / t)%Q).
  { unfold Qdiv. apply Qmult_le_compat_r; [exact H12|].
    apply Qlt_le_weak, Qinv_lt_0_compat, Ht. }
  pose proof (rn53_nonneg _ Hq1) as Hx.
  pose proof (rn53_mono_nonneg _ _ Hq1 Hq) as Hm.
  apply int_mono_nonneg; [apply rn53_nonneg; lra|].
  apply rn53_mono_nonneg; lra.
Qed.

(** X12: for one and the same positive total, the stored percentage never
    goes down when the downloaded count goes up: the two roundings and the
    truncation of [int((downloaded / total) * 100)] are monotone. *)
Theorem percent_monotone (e1 e2 : Event) (t : Q) :
  py_or (total_bytes e1) (total_bytes_estimate e1) = Some t ->
  py_or (total_bytes e2) (total_bytes_estimate e2) = Some t ->
  (0 < t)%Q ->
  (0 <= default 0%Q (downloaded_bytes e1))%Q ->
  (default 0%Q (downloaded_bytes e1) <= default 0%Q (downloaded_bytes e2))%Q ->
  hook_percent e1 <= hook_percent e2.
Proof.
  intros T1 T2 Ht H1 H12.
  rewrite (hook_percent_truthy e1 t T1 (truthy_pos t Ht)).
  rewrite (hook_percent_truthy e2 t T2 (truthy_pos t Ht)).
  apply percent_value_mono; assumption.
Qed.

Lemma percent_monotone_witness :
  hook_percent half_way_event
  <= hook_percent {| ev_status := Some "downloading";
                     total_bytes := Some 1000%Q;
                     total_bytes_estimate := None;
                     downloaded_bytes := Some 570%Q;
                     info_title := None;
                     ev_speed := None |}.
Proof.
  apply (percent_monotone half_way_event _ 1000%Q);
    try reflexivity; vm_compute; discriminate.
Defined.

(** X13: when the downloaded count equals a nonzero total the percentage
    is exactly 100, and when nothing is downloaded yet (the count is zero or
    missing) it is exactly 0: the roundings lose nothing at the two ends. *)
Theorem percent_endpoints (e : Event) (t : Q) :
  py_or (total_bytes e) (total_bytes_estimate e) = Some t ->
  ~ (t == 0)%Q ->
  ((default 0%Q (downloaded_bytes e) == t)%Q -> hook_percent e = 100)
  /\ ((default 0%Q (downloaded_bytes e) == 0)%Q -> hook_percent e = 0).
Proof.
  intros T Ht.
  rewrite (hook_percent_truthy e t T (proj2 (truthy_Some t) Ht)).
  unfold PyFloat.mul, PyFloat.truediv. split; intros Hd.
  - assert (E1 : (default 0%Q (downloaded_bytes e) / t == 1)%Q).
    { rewrite Hd. field. exact Ht. }
    assert (R1 : (PyFloat.rn53 (default 0%Q (downloaded_bytes e) / t) == 1)%Q).
    { rewrite (rn53_comp_nonneg _ 1%Q); [vm_compute; reflexivity | lra | exact E1]. }
    assert (R2 : (PyFloat.rn53
                    (PyFloat.rn53 (default 0%Q (downloaded_bytes e) / t) * 100)
                  == 100)%Q).
    { rewrite (rn53_comp_nonneg _ 100%Q); [vm_compute; reflexivity | lra | lra]. }
    unfold PyFloat.int.
    assert (Hb : Qle_bool 0
                   (PyFloat.rn53
                      (PyFloat.rn53 (default 0%Q (downloaded_bytes e) / t) * 100))
                 = true) by (apply Qle_bool_iff; lra).
    rewrite Hb, (Qfloor_comp _ _ R2). reflexivity.
  - assert (E0 : (default 0%Q (downloaded_bytes e) / t == 0)%Q).
    { rewrite Hd. field. exact Ht. }
    rewrite (rn53_zero _ E0).
    rewrite (rn53_zero (0 * 100)%Q) by reflexivity. reflexivity.
Qed.

Lemma percent_endpoints_witness :
  hook_percent {| ev_status := Some "finished";
                  total_bytes := Some 734003200%Q;
                  total_bytes_estimate := None;
                  downloaded_bytes := Some 734003200%Q;
                  info_title := None;
                  ev_speed := None |} = 100.
Proof.
  apply (percent_endpoints _ 734003200%Q); try reflexivity.
  vm_compute. discriminate.
Defined.

Lemma append_not_empty (a b : string) : b <> "" -> a ++ b <> "".
Proof.
  intros Hb. destruct a as [|c a]; [exact Hb|].
  change (String c a ++ b) with (String c (a ++ b)). discriminate.
Qed.

(** X14: the speed text is empty exactly when the rate is missing or zero;
    a job whose last accepted event carried a nonzero rate therefore shows a
    [speed] field in its status answer, and one without a rate shows none
    (the answer being read with no write in between). *)
Theorem speed_shown_iff_rate (job_id : string) (sd : Fs.Path) (d : Event)
    (fs : gmap (list string) Fs.Node) (jobs : gmap string JobMeta) (m : JobMeta) :
  (hook_speed (ev_speed d) = "" <-> truthy (ev_speed d) = false)
  /\ (jobs !! job_id = Some m ->
      hook_accepts d = true ->
      exists r,
        Api.status job_id (hook job_id sd d fs jobs) = inr (inr r)
        /\ Api.st_speed r
           = if truthy (ev_speed d) then Some (hook_speed (ev_speed d))
             else None).
Proof.
  assert (Hiff : hook_speed (ev_speed d) = "" <-> truthy (ev_speed d) = false).
  { unfold hook_speed. destruct (ev_speed d) as [r|]; [|split; reflexivity].
    destruct (truthy (Some r)); [|split; reflexivity].
    split; [|discriminate]. intros H. exfalso. revert H.
    repeat (destruct (Qgt_bool _ _)); apply append_not_empty; discriminate. }
  split; [exact Hiff|].
  intros Hm Ha. rewrite (hook_accepts_stores _ _ _ _ _ _ Hm Ha).
  rewrite status_settled, lookup_insert_eq. eexists. split; [reflexivity|].
  cbn [Api.st_speed Api.status_response speed hook_update Api.if_truthy].
  destruct (truthy (ev_speed d)) eqn:Et.
  - destruct (String.eqb (hook_speed (ev_speed d)) "") eqn:E; [|reflexivity].
    apply String.eqb_eq, Hiff in E. discriminate.
  - rewrite (proj2 Hiff eq_refl). reflexivity.
Qed.

Lemma speed_shown_iff_rate_witness :
  exists r,
    Api.status "job-1"
      (hook "job-1" demo_season_dir half_way_event demo_fs demo_running)
    = inr (inr r)
    /\ Api.st_speed r = Some "2.00 KiB/s".
Proof.
  destruct (speed_shown_iff_rate "job-1" demo_season_dir half_way_event demo_fs
              demo_running
              (set_running "2024-01-01T10:00:01"
                 (new_job demo_payload "2024-01-01T10:00:00")))
    as [_ H].
  destruct H as (r & H1 & H2); [vm_compute; reflexivity | reflexivity |].
  exists r. split; [exact H1|]. rewrite H2. vm_compute. reflexivity.
Defined.

(** * More on the episode count *)

Lemma count_as_length (fs : gmap (list string) Fs.Node) (folder : Fs.Path)
    (sfx : string) :
  Fs.is_dir fs folder = true ->
  count_media_files fs folder sfx
  = Z.of_nat (length (List.filter (is_media fs sfx) (Fs.iterdir fs folder))).
Proof. intros H. unfold count_media_files. rewrite H. reflexivity. Qed.

Lemma child_of_spec (folder p : Fs.Path) :
  Fs.child_of folder p = true <-> exists c, p = c :: folder.
Proof.
  unfold Fs.child_of. destruct p as [|c par].
  - split; [discriminate | intros [c H]; discriminate].
  - rewrite bool_decide_eq_true. split.
    + intros ->. eauto.
    + intros [c' H]. inversion H. reflexivity.
Qed.

Lemma child_not_folder (folder p : Fs.Path) :
  Fs.child_of folder p = true -> p <> folder.
Proof.
  intros H E. apply child_of_spec in H. destruct H as [c ->].
  apply (f_equal length) in E. rewrite length_cons in E. lia.
Qed.

Lemma node_insert_ne (fs : gmap (list string) Fs.Node) (p q : Fs.Path)
    (n : Fs.Node) :
  p <> q -> Fs.node (<[p := n]> fs) q = Fs.node fs q.
Proof.
  intros N. unfold Fs.node. destruct (Fs.is_anchor q); [reflexivity|].
  apply lookup_insert_ne, N.
Qed.

Lemma is_media_insert_ne (fs : gmap (list string) Fs.Node) (p q : Fs.Path)
    (n : Fs.Node) (sfx : string) :
  p <> q -> is_media (<[p := n]> fs) sfx q = is_media fs sfx q.
Proof.
  intros N. unfold is_media, Fs.is_file. rewrite node_insert_ne by exact N.
  reflexivity.
Qed.

(** X15: a new regular file with the looked-for suffix, written directly
    into the folder, raises the count by exactly one; the comparison of the
    suffix ignores case. *)
Theorem count_new_media_file (fs : gmap (list string) Fs.Node)
    (folder p : Fs.Path) (sfx : string) :
  Fs.is_dir fs folder = true ->
  Fs.child_of folder p = true ->
  Fs.exists_ fs p = false ->
  PyStr.lower (Fs.suffix p) = PyStr.lower sfx ->
  count_media_files (<[p := Fs.RegularFile]> fs) folder sfx
  = count_media_files fs folder sfx + 1.
Proof.
  intros Hd Hc He Hs.
  destruct (not_exists_not_anchor p fs He) as [Hna Hnone].
  pose proof (child_not_folder folder p Hc) as Hpf.
  assert (Hd' : Fs.is_dir (<[p := Fs.RegularFile]> fs) folder = true).
  { unfold Fs.is_dir. rewrite node_insert_ne by exact Hpf. exact Hd. }
  rewrite (count_as_length _ _ _ Hd'), (count_as_length _ _ _ Hd).
  assert (Hnew : is_media (<[p := Fs.RegularFile]> fs) sfx p = true).
  { unfold is_media, Fs.is_file. rewrite node_insert_eq by exact Hna.
    rewrite Hs. apply String.eqb_refl. }
  assert (Hold : is_media fs sfx p = false).
  { unfold is_media, Fs.is_file, Fs.node. rewrite Hna, Hnone. reflexivity. }
  assert (Hperm :
    List.filter (is_media (<[p := Fs.RegularFile]> fs) sfx)
      (Fs.iterdir (<[p := Fs.RegularFile]> fs) folder)
    ≡ₚ p :: List.filter (is_media fs sfx) (Fs.iterdir fs folder)).
  { apply NoDup_Permutation.
    - apply media_entries_NoDup.
    - apply NoDup_cons. split; [|apply media_entries_NoDup].
      rewrite media_entries_elem. intros [_ H]. congruence.
    - intros x. rewrite elem_of_cons, !media_entries_elem.
      destruct (decide (x = p)) as [->|N].
      + split; [left; reflexivity | intros _; split; assumption].
      + rewrite is_media_insert_ne by congruence.
        split; [intros H; right; exact H | intros [H|H]; [contradiction|exact H]]. }
  rewrite (Permutation_length Hperm), length_cons. lia.
Qed.

Lemma count_new_media_file_witness :
  count_media_files
    (<[ ["Show S01E04.Mp4"; "Season 01"; "Show [imdbid-tt1234567]"; "data"]
        := Fs.RegularFile ]> demo_fs) demo_season_dir ".mp4"
  = count_media_files demo_fs demo_season_dir ".mp4" + 1.
Proof.
  apply (count_new_media_file demo_fs demo_season_dir
           ["Show S01E04.Mp4"; "Season 01"; "Show [imdbid-tt1234567]"; "data"]
           ".mp4"); vm_compute; reflexivity.
Defined.

Lemma count_same_media (fs1 fs2 : gmap (list string) Fs.Node)
    (folder : Fs.Path) (sfx : string) :
  Fs.is_dir fs1 folder = Fs.is_dir fs2 folder ->
  (forall x, Fs.child_of folder x = true ->
             is_media fs1 sfx x = is_media fs2 sfx x) ->
  count_media_files fs1 folder sfx = count_media_files fs2 folder sfx.
Proof.
  intros Hd Hm. unfold count_media_files. rewrite Hd.
  destruct (negb _); [reflexivity|]. f_equal.
  apply Permutation_length, NoDup_Permutation; try apply media_entries_NoDup.
  intros x.
  change (x ∈ List.filter (is_media fs1 sfx) (Fs.iterdir fs1 folder)
          <-> x ∈ List.filter (is_media fs2 sfx) (Fs.iterdir fs2 folder)).
  rewrite !media_entries_elem.
  split; intros [H1 H2]; (split; [exact H1|]);
    [rewrite <- (Hm x H1) | rewrite (Hm x H1)]; exact H2.
Qed.

(** X16: a write leaves the count of a folder as it is when it lands
    elsewhere (neither the folder itself nor a direct entry of it), and when
    it creates, where nothing was, a directory, a special file or a file with
    another suffix. *)
Theorem count_unrelated_write (fs : gmap (list string) Fs.Node)
    (folder p : Fs.Path) (n : Fs.Node) (sfx : string) :
  p <> folder ->
  Fs.child_of folder p = false
  \/ (Fs.exists_ fs p = false
      /\ (n <> Fs.RegularFile
          \/ PyStr.lower (Fs.suffix p) <> PyStr.lower sfx)) ->
  count_media_files (<[p := n]> fs) folder sfx
  = count_media_files fs folder sfx.
Proof.
  intros Hpf H. apply count_same_media.
  - unfold Fs.is_dir. rewrite node_insert_ne by exact Hpf. reflexivity.
  - intros x Hx. destruct (decide (p = x)) as [->|N];
      [|apply is_media_insert_ne, N].
    destruct H as [H|[He H]]; [congruence|].
    destruct (not_exists_not_anchor x fs He) as [Hna Hnone].
    unfold is_media, Fs.is_file.
    rewrite node_insert_eq by exact Hna. unfold Fs.node. rewrite Hna, Hnone.
    destruct H as [H|H].
    + destruct n; try reflexivity. contradiction.
    + apply String.eqb_neq in H. rewrite H. apply andb_false_r.
Qed.

Lemma count_unrelated_write_witness :
  count_media_files
    (<[ ["Show S01E04.f137.mp4.part"; "Season 01"; "Show [imdbid-tt1234567]"; "data"]
        := Fs.RegularFile ]> demo_fs) demo_season_dir ".mp4"
  = count_media_files demo_fs demo_season_dir ".mp4".
Proof.
  apply (count_unrelated_write demo_fs demo_season_dir
           ["Show S01E04.f137.mp4.part"; "Season 01"; "Show [imdbid-tt1234567]"; "data"]
           Fs.RegularFile ".mp4").
  - discriminate.
  - right. split; [vm_compute; reflexivity|]. right. vm_compute. discriminate.
Defined.

(** X17: in a file system where every entry sits in a directory, the season
    folder that the runner has just made holds no finished file: the count is
    0, and that is the episode number the first progress event stores. *)
Theorem fresh_season_counts_zero (BASE : Fs.Path) (job_id : string)
    (pl : RequestPayload) (d : Event)
    (fs : gmap (list string) Fs.Node) (jobs : gmap string JobMeta) (m : JobMeta) :
  fs_well_formed fs ->
  Fs.is_dir fs (main_dir BASE pl) = true ->
  Fs.exists_ fs (season_dir BASE pl) = false ->
  exists fs2,
    make_dirs BASE pl fs = (fs2, None)
    /\ Fs.is_dir fs2 (season_dir BASE pl) = true
    /\ count_media_files fs2 (season_dir BASE pl) ".mp4" = 0
    /\ (jobs !! job_id = Some m -> hook_accepts d = true ->
        current_episode <$>
          (hook job_id (season_dir BASE pl) d fs2 jobs !! job_id)
        = Some (Some 0)).
Proof.
  intros Hwf Hd He.
  destruct (not_exists_not_anchor _ fs He) as [Hna Hnone].
  exists (<[season_dir BASE pl := Fs.Directory]> fs).
  assert (Hdir : Fs.is_dir (<[season_dir BASE pl := Fs.Directory]> fs)
                   (season_dir BASE pl) = true).
  { unfold Fs.is_dir. rewrite node_insert_eq by exact Hna. reflexivity. }
  assert (H0 : count_media_files (<[season_dir BASE pl := Fs.Directory]> fs)
                 (season_dir BASE pl) ".mp4" = 0).
  { rewrite (count_as_length _ _ _ Hdir).
    destruct (List.filter _ _) as [|x l] eqn:El; [reflexivity|exfalso].
    assert (Hx : x ∈ List.filter
                   (is_media (<[season_dir BASE pl := Fs.Directory]> fs) ".mp4")
                   (Fs.iterdir (<[season_dir BASE pl := Fs.Directory]> fs)
                      (season_dir BASE pl)))
      by (rewrite El; apply list_elem_of_here).
    apply media_entries_elem in Hx. destruct Hx as [Hc Hm].
    pose proof (child_not_folder _ _ Hc) as Hne.
    rewrite is_media_insert_ne in Hm by congruence.
    unfold is_media in Hm. apply andb_true_iff in Hm. destruct Hm as [Hf _].
    apply is_file_lookup in Hf.
    pose proof (Hwf x _ Hf) as Hpar. cbn beta in Hpar.
    apply child_of_spec in Hc. destruct Hc as [c ->]. cbn [tail] in Hpar.
    apply is_dir_exists in Hpar. congruence. }
  split; [apply make_dirs_new_season; assumption|].
  split; [exact Hdir | split; [exact H0|]].
  intros Hm Ha. rewrite (hook_accepts_stores _ _ _ _ _ _ Hm Ha).
  rewrite lookup_insert_eq. cbn. rewrite H0. reflexivity.
Qed.

Lemma fresh_season_counts_zero_witness :
  exists fs2,
    make_dirs demo_base demo_payload2 demo_fs = (fs2, None)
    /\ count_media_files fs2 (season_dir demo_base demo_payload2) ".mp4" = 0.
Proof.
  destruct (fresh_season_counts_zero demo_base "job-1" demo_payload2
              half_way_event demo_fs demo_running
              (set_running "2024-01-01T10:00:01"
                 (new_job demo_payload "2024-01-01T10:00:00")))
    as (fs2 & H1 & _ & H3 & _).
  - exact demo_fs_well_formed.
  - vm_compute. reflexivity.
  - vm_compute. reflexivity.
  - exists fs2. split; assumption.
Defined.

(** * More on the validators and the names *)

Lemma substring_0_0 (s : string) : String.substring 0 0 s = "".
Proof. destruct s; reflexivity. Qed.

Lemma startswith_tt (v : string) :
  PyStr.startswith "tt" v = true <-> exists rest, v = "tt" ++ rest.
Proof.
  unfold PyStr.startswith. rewrite String.prefix_correct.
  destruct v as [|a [|b rest]].
  - split; [discriminate | intros [r H]; discriminate].
  - split; [discriminate | intros [r H]; discriminate].
  - change (String.substring 0 (String.length "tt") (String a (String b rest)))
      with (String a (String b (String.substring 0 0 rest))).
    rewrite substring_0_0. split.
    + intros H. inversion H. exists rest. reflexivity.
    + intros [r H]. inversion H. reflexivity.
Qed.

(** X18: a payload passes the validators exactly when the catalog id is
    "tt" followed by at least five more characters, of any kind, and the
    season is at least 1. *)
Theorem valid_payload_iff (p : RequestPayload) :
  valid_payload p = true
  <-> (exists rest, imdbid p = "tt" ++ rest /\ (5 <= String.length rest)%nat)
      /\ 1 <= season p.
Proof.
  unfold valid_payload, validate_imdbid, validate_season.
  rewrite andb_true_iff, !negb_true_iff, orb_false_iff, negb_false_iff.
  rewrite startswith_tt, !Z.ltb_ge. split.
  - intros [[[rest E] Hl] Hs]. split; [|exact Hs].
    exists rest. split; [exact E|]. rewrite E in Hl.
    change (String.length ("tt" ++ rest)) with (S (S (String.length rest))) in Hl.
    lia.
  - intros [(rest & E & Hl) Hs]. split; [|exact Hs].
    split; [exists rest; exact E|]. rewrite E.
    change (String.length ("tt" ++ rest)) with (S (S (String.length rest))).
    lia.
Qed.

Lemma parse_dec_zero (s : string) : parse_dec (String "0" s) = parse_dec s.
Proof.
  unfold parse_dec. cbn [NilEmpty.uint_of_string].
  destruct (NilEmpty.uint_of_string s); reflexivity.
Qed.

Lemma parse_dec_zeros (k : nat) (s : string) :
  parse_dec (zeros k ++ s) = parse_dec s.
Proof.
  induction k as [|k IH]; [reflexivity|].
  cbn [zeros]. rewrite append_cons, parse_dec_zero. exact IH.
Qed.

Lemma parse_dec_dec (z : Z) : 0 <= z -> parse_dec (dec z) = Some z.
Proof.
  intros H. unfold parse_dec, dec. rewrite NilEmpty.usu. cbn [option_map].
  rewrite DecimalN.Unsigned.of_to, Z2N.id by exact H. reflexivity.
Qed.

Lemma parse_format_0d (w : nat) (z : Z) :
  0 <= z -> parse_dec (format_0d w z) = Some z.
Proof.
  intros H. unfold format_0d, zfill.
  destruct (z <? 0) eqn:E; [lia|].
  rewrite parse_dec_zeros. apply parse_dec_dec, H.
Qed.

Lemma string_app_inv_head (s a b : string) : s ++ a = s ++ b -> a = b.
Proof.
  induction s as [|c s IH]; [intros H; exact H|].
  rewrite !append_cons. intros H. inversion H. auto.
Qed.

Lemma string_length_app (a b : string) :
  String.length (a ++ b) = (String.length a + String.length b)%nat.
Proof.
  induction a as [|c a IH]; [reflexivity|].
  rewrite append_cons. cbn [String.length]. rewrite IH. reflexivity.
Qed.

Lemma string_app_inv_tail (a b s : string) : a ++ s = b ++ s -> a = b.
Proof.
  revert b. induction a as [|c a IH]; intros [|c' b] H.
  - reflexivity.
  - apply (f_equal String.length) in H. rewrite !string_length_app in H.
    cbn [String.length] in H. lia.
  - apply (f_equal String.length) in H. rewrite !string_length_app in H.
    cbn [String.length] in H. lia.
  - rewrite !append_cons in H. inversion H. f_equal. auto.
Qed.

(** X19: the zero-padded season text reads back as the season, so
    different seasons never share a season folder name or, for one display
    name, an output template. *)
Theorem season_names_injective (p1 p2 : RequestPayload) (nm : string) :
  0 <= season p1 -> 0 <= season p2 ->
  parse_dec (format_0d 2 (season p1)) = Some (season p1)
  /\ (season_folder_name p1 = season_folder_name p2 -> season p1 = season p2)
  /\ (build_output_template nm (season p1)
      = build_output_template nm (season p2) -> season p1 = season p2).
Proof.
  intros H1 H2.
  assert (Hinj : format_0d 2 (season p1) = format_0d 2 (season p2) ->
                 season p1 = season p2).
  { intros E. apply (f_equal parse_dec) in E.
    rewrite !parse_format_0d in E by assumption. congruence. }
  split; [apply parse_format_0d, H1 | split].
  - unfold season_folder_name. intros E.
    apply string_app_inv_head in E. auto.
  - unfold build_output_template. intros E.
    apply string_app_inv_head, string_app_inv_head, string_app_inv_tail in E.
    auto.
Qed.

Lemma season_names_injective_witness :
  parse_dec (format_0d 2 (season demo_payload2)) = Some 2.
Proof.
  apply (season_names_injective demo_payload2 demo_payload "Show");
    vm_compute; discriminate.
Defined.

Lemma no_slash_lstrip (s : string) :
  no_slash s = true -> no_slash (PyStr.lstrip s) = true.
Proof.
  induction s as [|c s IH]; [auto|]. intros H. cbn [PyStr.lstrip].
  destruct (PyStr.isspace c); [|exact H].
  cbn [no_slash] in H. apply andb_true_iff in H. apply IH, H.
Qed.

Lemma no_slash_rstrip (s : string) :
  no_slash s = true -> no_slash (PyStr.rstrip s) = true.
Proof.
  induction s as [|c s IH]; [auto|]. intros H. cbn [PyStr.rstrip].
  cbn [no_slash] in H. apply andb_true_iff in H. destruct H as [Hc Hs].
  specialize (IH Hs).
  destruct (PyStr.rstrip s) as [|c' r].
  - destruct (PyStr.isspace c); [reflexivity|]. cbn [no_slash].
    rewrite Hc. reflexivity.
  - cbn [no_slash] in *. rewrite Hc. exact IH.
Qed.

(** X20: the season folder is always a direct entry of the root output
    folder, whatever the display name; and when neither the display name nor
    the catalog id holds a "/", the root output folder is a direct entry of
    [BASE_DATA_DIR]: nothing is made outside of it. *)
Theorem output_folders_nest (BASE : Fs.Path) (p : RequestPayload) :
  season_dir BASE p = season_folder_name p :: main_dir BASE p
  /\ (no_slash (name p) = true -> no_slash (imdbid p) = true ->
      main_dir BASE p = main_folder_name p :: BASE
      /\ season_dir BASE p = season_folder_name p :: main_folder_name p :: BASE).
Proof.
  split; [apply season_dir_cons|].
  intros Hn Hi.
  assert (Hm : main_dir BASE p = main_folder_name p :: BASE).
  { unfold main_dir.
    assert (Hns : no_slash (main_folder_name p) = true).
    { unfold main_folder_name, safe_name, PyStr.strip.
      apply no_slash_app; [apply no_slash_rstrip, no_slash_lstrip, Hn|].
      apply no_slash_app; [reflexivity|].
      apply no_slash_app; [exact Hi | reflexivity]. }
    assert (Hlen : (2 <= String.length (main_folder_name p))%nat).
    { unfold main_folder_name. rewrite !string_length_app.
      change (String.length " [imdbid-") with 9%nat. lia. }
    destruct (main_folder_name p) as [|c s] eqn:E; [cbn in Hlen; lia|].
    apply joinpath_single; [exact Hns|].
    intros Hdot. rewrite Hdot in Hlen. cbn in Hlen. lia. }
  split; [exact Hm|]. rewrite season_dir_cons, Hm. reflexivity.
Qed.

Lemma output_folders_nest_witness :
  season_dir demo_base demo_payload
  = ["Season 01"; "Show [imdbid-tt1234567]"; "data"].
Proof.
  destruct (output_folders_nest demo_base demo_payload) as [_ H].
  destruct H as [_ H]; [reflexivity | reflexivity|].
  rewrite H. reflexivity.
Defined.

(** * More on the status answer and on the running system *)

(** X21: [GET /status], read with no write in between, answers 404 exactly
    for an identifier that the registry does not hold; for an identifier
    that it holds the handler raises nothing and answers: the answer names
    the job, its status and its creation time, carries [result_path] exactly
    when the status is [finished], [error] exactly when it is [failed],
    [finished_at] exactly when it is one of the two, a message unless it is
    [failed], and never an empty title or speed. *)
Theorem status_answer_keys (job_id : string) (jobs : gmap string JobMeta) :
  (Api.status job_id jobs
   = inl {| status_code := 404; detail := "Job ID not found" |}
   <-> jobs !! job_id = None)
  /\ forall meta,
      jobs !! job_id = Some meta ->
      exists r,
        Api.status job_id jobs = inr (inr r)
        /\ Api.st_job_id r = job_id
        /\ Api.st_status r = status meta
        /\ Api.st_created_at r = created_at meta
        /\ (is_Some (Api.st_result_path r) <-> Api.st_status r = finished)
        /\ (is_Some (Api.st_error r) <-> Api.st_status r = failed)
        /\ (is_Some (Api.st_finished_at r)
            <-> terminal (Api.st_status r) = true)
        /\ (is_Some (Api.st_message r) <-> Api.st_status r <> failed)
        /\ Api.st_current_title r <> Some ""
        /\ Api.st_speed r <> Some "".
Proof.
  assert (Htr : forall x, Api.if_truthy x <> Some "").
  { intros [t|]; cbn; [|discriminate].
    destruct (String.eqb t "") eqn:E; [discriminate|].
    apply String.eqb_neq in E. congruence. }
  rewrite status_settled. destruct (jobs !! job_id) as [m|] eqn:Em.
  - split; [split; discriminate|].
    intros meta Hmeta. inversion Hmeta; subst m.
    exists (Api.status_response job_id meta).
    split; [reflexivity|]. cbn.
    repeat (split; [reflexivity|]).
    destruct (status meta); cbn;
      (repeat split); try (intros H; discriminate H);
      try (intros [x H]; discriminate H);
      try (intros _; discriminate);
      try (intros _; eexists; reflexivity);
      try apply Htr;
      try (intros H; exfalso; apply H; reflexivity).
  - split; [split; reflexivity|]. intros meta Hmeta. discriminate.
Qed.

Lemma status_answer_keys_witness :
  Api.status "job-7" demo_running
  = inl {| status_code := 404; detail := "Job ID not found" |}
  /\ exists r,
      Api.status "job-1" demo_running = inr (inr r)
      /\ Api.st_status r = running
      /\ Api.st_created_at r = Some "2024-01-01T10:00:00"
      /\ Api.st_result_path r = None.
Proof.
  split.
  - apply (status_answer_keys "job-7" demo_running). vm_compute. reflexivity.
  - destruct (status_answer_keys "job-1" demo_running) as [_ H].
    destruct (H (set_running "2024-01-01T10:00:01"
                   (new_job demo_payload "2024-01-01T10:00:00")))
      as (r & H1 & _ & H3 & H4 & H5 & _); [vm_compute; reflexivity|].
    exists r. split; [exact H1|]. split; [exact H3|]. split; [exact H4|].
    destruct (Api.st_result_path r) as [x|] eqn:E; [|reflexivity].
    assert (Hs : is_Some (Some x)) by (eexists; reflexivity).
    apply H5 in Hs. rewrite H3 in Hs. discriminate.
Defined.

Lemma new_job_shape (request : RequestPayload) (now : string) :
  record_shape (new_job request now).
Proof.
  unfold record_shape. cbn.
  repeat split; try reflexivity; eexists; reflexivity.
Qed.

(** One move of a task keeps the shape of its record. *)
Lemma runner_step_record (BASE : Fs.Path) (a : TaskLabel) (job : string)
    (pl : RequestPayload) (pc pc' : Pc)
    (jobs jobs' : gmap string JobMeta) (fs fs' : gmap (list string) Fs.Node)
    (m : JobMeta) :
  runner_step BASE a job pl pc (jobs, fs) = Some (pc', (jobs', fs')) ->
  jobs !! job = Some m ->
  status m = pc_status pc ->
  record_shape m ->
  exists m', jobs' = <[job := m']> jobs /\ record_shape m'.
Proof.
  intros Hstep Hm Hs Hok.
  assert (Hid : jobs = <[job := m]> jobs) by (symmetry; apply insert_id, Hm).
  destruct pc as [| | |e|esc], a as [ok now| |act|now|e'|now];
    cbn in Hstep; try discriminate; cbn in Hs.
  - destruct ok; cbn in Hstep.
    + unfold run_begin, update_job in Hstep. rewrite Hm in Hstep.
      inversion Hstep; subst. eexists. split; [reflexivity|].
      unfold record_shape in *. rewrite Hs in Hok. cbn.
      destruct Hok as (H1 & H2 & H3 & H4 & H5 & H6 & H7 & H8 & H9).
      repeat split; try assumption; try (eexists; reflexivity).
    + inversion Hstep; subst. exists m. split; [exact Hid | exact Hok].
  - destruct (make_dirs BASE pl fs) as [fs1 [e|]];
      inversion Hstep; subst; exists m; (split; [exact Hid | exact Hok]).
  - destruct act as [p n|d]; cbn [dl_step fst snd] in Hstep;
      inversion Hstep; subst.
    + exists m. split; [exact Hid | exact Hok].
    + unfold hook. destruct (negb _).
      * exists m. split; [exact Hid | exact Hok].
      * rewrite Hm. eexists. split; [reflexivity|].
        unfold record_shape in *. rewrite Hs in Hok. cbn. rewrite Hs.
        destruct Hok as (H1 & H2 & H3 & H4 & H5 & H6 & H7 & H8).
        repeat split; try assumption; eexists; reflexivity.
  - unfold run_finished, update_job in Hstep. cbn [fst] in Hstep.
    rewrite Hm in Hstep. inversion Hstep; subst.
    eexists. split; [reflexivity|].
    unfold record_shape in *. rewrite Hs in Hok. cbn.
    destruct Hok as (H1 & H2 & H3 & H4 & H5 & H6 & H7 & H8).
    repeat split; try assumption; eexists; reflexivity.
  - inversion Hstep; subst. exists m. split; [exact Hid | exact Hok].
  - unfold run_except, update_job in Hstep. cbn [fst] in Hstep.
    rewrite Hm in Hstep. inversion Hstep; subst.
    eexists. split; [reflexivity|].
    unfold record_shape in *. rewrite Hs in Hok. cbn.
    destruct Hok as (H1 & H2 & H3 & H4 & H5 & H6 & H7 & H8).
    repeat split; try assumption; eexists; reflexivity.
Qed.

Lemma step_record_shape (BASE : Fs.Path) (l : Label) (s : System) :
  Inv s ->
  (forall j m, sys_jobs s !! j = Some m -> record_shape m) ->
  forall j m, sys_jobs (step BASE l s) !! j = Some m -> record_shape m.
Proof.
  intros HI Hsh j mj. destruct l as [request job_id now|i a]; cbn [step].
  - unfold pull. destruct (any_active (sys_jobs s)); cbn [sys_jobs].
    + apply Hsh.
    + intros Hj. apply lookup_insert_Some in Hj.
      destruct Hj as [[_ <-]|[_ Hj]]; [apply new_job_shape | exact (Hsh _ _ Hj)].
  - destruct (sys_tasks s !! i) as [t|] eqn:Et; [|apply Hsh].
    destruct (runner_step BASE a (task_job t) (task_payload t) (task_pc t)
                (sys_jobs s, sys_fs s)) as [[pc' [jobs' fs']]|] eqn:Er;
      [|apply Hsh].
    pose proof (runner_step_live _ _ _ _ _ _ _ Er) as Hl.
    destruct (inv_task s HI i t Et Hl) as (m & Hm & Hs).
    destruct (runner_step_record _ _ _ _ _ _ _ _ _ _ m Er Hm Hs (Hsh _ _ Hm))
      as (m' & -> & Hok).
    cbn [sys_jobs fst]. intros Hj. apply lookup_insert_Some in Hj.
    destruct Hj as [[_ <-]|[_ Hj]]; [exact Hok | exact (Hsh _ _ Hj)].
Qed.

Lemma exec_record_shape (BASE : Fs.Path) (ls : list Label) :
  forall s,
    Inv s ->
    (forall j m, sys_jobs s !! j = Some m -> record_shape m) ->
    forall j m, sys_jobs (exec BASE ls s) !! j = Some m -> record_shape m.
Proof.
  unfold exec.
  induction ls as [|l ls IH]; intros s HI Hsh; cbn [fold_left]; [exact Hsh|].
  apply IH; [apply step_inv, HI | apply step_record_shape; assumption].
Qed.

Lemma reachable_record_shape (BASE : Fs.Path)
    (fs0 : gmap (list string) Fs.Node) (ls : list Label) (j : string)
    (m : JobMeta) :
  sys_jobs (exec BASE ls (init fs0)) !! j = Some m -> record_shape m.
Proof.
  apply exec_record_shape; [apply init_inv|].
  intros j' m' H. cbn in H. rewrite lookup_empty in H. discriminate.
Qed.

(** X22: in every state the system can reach, each record holds the keys
    of its status: a [pending] record only the creation time and the request,
    a [running] one also the start time and the progress fields, a [finished]
    one the finish time, the result path, the success message, 100 percent
    and empty title and speed, a [failed] one the finish time and the error;
    no record has a message unless it is [finished]. *)
Theorem records_well_shaped (BASE : Fs.Path)
    (fs0 : gmap (list string) Fs.Node) (ls : list Label) (j : string)
    (m : JobMeta) :
  sys_jobs (exec BASE ls (init fs0)) !! j = Some m ->
  is_Some (created_at m) /\ is_Some (payload m)
  /\ (status m = pending ->
      started_at m = None /\ progress_percent m = None
      /\ current_title m = None /\ speed m = None
      /\ current_episode m = None /\ finished_at m = None)
  /\ (status m <> pending ->
      is_Some (started_at m) /\ is_Some (progress_percent m)
      /\ is_Some (current_title m) /\ is_Some (speed m))
  /\ (status m = finished ->
      progress_percent m = Some 100 /\ current_title m = Some ""
      /\ speed m = Some "" /\ is_Some (result_path m))
  /\ (status m = failed -> is_Some (error m))
  /\ (is_Some (finished_at m) <-> terminal (status m) = true)
  /\ (message m = if bool_decide (status m = finished)
                  then Some "Download completed successfully" else None).
Proof.
  intros Hj. pose proof (reachable_record_shape BASE fs0 ls j m Hj) as H.
  unfold record_shape in H. destruct H as (H1 & H2 & H3).
  split; [exact H1 | split; [exact H2|]].
  assert (Hn : forall A : Type, ~ is_Some (@None A))
    by (intros A [x Hx]; discriminate).
  destruct (status m); cbn;
    [destruct H3 as (A & B & C & D & E & F & G)
    |destruct H3 as (A & B & C & D & E & F)
    |destruct H3 as (A & B & C & D & E & F & G)
    |destruct H3 as (A & B & C & D & E & F & G)];
    repeat match goal with |- _ /\ _ => split end;
    try (intros X; try discriminate X; try congruence;
         repeat match goal with |- _ /\ _ => split end;
         try assumption; try reflexivity).
  all: try congruence.
  all: try (rewrite ?A, ?B, ?C, ?D, ?E, ?F; eexists; reflexivity).
  all: try (split; intros X; try discriminate X; try reflexivity;
            try assumption; exfalso; rewrite ?E, ?F in X;
            exact (Hn _ X)).
  all: rewrite G; reflexivity.
Qed.

Lemma records_well_shaped_witness :
  exists m,
    sys_jobs (exec demo_base demo_trace (init demo_fs)) !! "job-1" = Some m
    /\ is_Some (created_at m) /\ is_Some (error m).
Proof.
  assert (H : exists m,
             sys_jobs (exec demo_base demo_trace (init demo_fs)) !! "job-1" = Some m
             /\ status m = failed).
  { eexists. split; vm_compute; reflexivity. }
  destruct H as (m & Hm & Hs).
  destruct (records_well_shaped demo_base demo_fs demo_trace "job-1" m Hm)
    as (H1 & _ & _ & _ & _ & H6 & _).
  exists m. split; [exact Hm | split; [exact H1 | exact (H6 Hs)]].
Defined.

(** X23: in every reachable state the answer of [GET /status], read with
    no write in between, for a [finished] job carries a result path, a finish time and the success
    message, none of them [null], with 100 percent and neither title nor
    speed; for a [failed] job it carries an error text and a finish time,
    neither of them [null]. *)
Theorem status_answer_complete (BASE : Fs.Path)
    (fs0 : gmap (list string) Fs.Node) (ls : list Label) (j : string)
    (r : Api.StatusResponse) :
  Api.status j (sys_jobs (exec BASE ls (init fs0))) = inr (inr r) ->
  is_Some (Api.st_created_at r)
  /\ (Api.st_status r = finished ->
      (exists path, Api.st_result_path r = Some (Some path))
      /\ (exists t, Api.st_finished_at r = Some (Some t))
      /\ Api.st_message r = Some (Some "Download completed successfully")
      /\ Api.st_progress_percent r = Some 100
      /\ Api.st_current_title r = None /\ Api.st_speed r = None)
  /\ (Api.st_status r = failed ->
      (exists text, Api.st_error r = Some (Some text))
      /\ (exists t, Api.st_finished_at r = Some (Some t))
      /\ Api.st_message r = None /\ Api.st_result_path r = None)
  /\ (Api.st_status r = pending ->
      Api.st_progress_percent r = None /\ Api.st_current_episode r = None
      /\ Api.st_message r = Some (Some "Job is still processing."))
  /\ (Api.st_status r = running -> is_Some (Api.st_progress_percent r)).
Proof.
  rewrite status_settled.
  destruct (sys_jobs (exec BASE ls (init fs0)) !! j) as [m|] eqn:Hj;
    [|discriminate].
  intros Hr. inversion Hr; subst r. clear Hr.
  pose proof (reachable_record_shape BASE fs0 ls j m Hj) as H.
  unfold record_shape in H. destruct H as (H1 & H2 & H3).
  cbn. split; [exact H1|].
  destruct (status m); cbn;
    [destruct H3 as (A & B & C & D & E & F & G)
    |destruct H3 as (A & B & C & D & E & F)
    |destruct H3 as (A & B & C & D & [t E] & [p F] & G)
    |destruct H3 as (A & B & C & D & [t E] & [x F] & G)];
    repeat match goal with |- _ /\ _ => split end;
    try (intros X; try discriminate X;
         repeat match goal with |- _ /\ _ => split end;
         try assumption; try reflexivity).
  all: rewrite ?B, ?C, ?D, ?E, ?F, ?G; cbn; try reflexivity; eauto.
Qed.

Lemma status_answer_complete_witness :
  exists r,
    Api.status "job-1" (sys_jobs (exec demo_base demo_trace (init demo_fs)))
    = inr (inr r)
    /\ Api.st_error r = Some (Some "ERROR: unable to download video data").
Proof.
  assert (H : exists r,
             Api.status "job-1"
               (sys_jobs (exec demo_base demo_trace (init demo_fs)))
             = inr (inr r)
             /\ Api.st_status r = failed
             /\ (forall text, Api.st_error r = Some (Some text) ->
                 text = "ERROR: unable to download video data")).
  { eexists. split; [vm_compute; reflexivity|].
    split; [reflexivity|]. intros text H. cbn in H. congruence. }
  destruct H as (r & Hr & Hs & Hu).
  destruct (status_answer_complete demo_base demo_fs demo_trace "job-1" r Hr)
    as (_ & _ & H3 & _).
  destruct (H3 Hs) as ([text Ht] & _).
  exists r. split; [exact Hr|]. rewrite Ht, (Hu text Ht). reflexivity.
Defined.

Lemma step_freezes (BASE : Fs.Path) (l : Label) (s : System) (j : string)
    (m : JobMeta) :
  Inv s ->
  match l with
  | LPull _ job_id _ => sys_jobs s !! job_id = None
  | LTask _ _ => True
  end ->
  sys_jobs s !! j = Some m ->
  terminal (status m) = true ->
  sys_jobs (step BASE l s) !! j = Some m.
Proof.
  intros HI Hfresh Hj Ht. destruct l as [request job_id now|i a]; cbn [step].
  - unfold pull. destruct (any_active (sys_jobs s)); cbn [sys_jobs];
      [exact Hj|].
    rewrite lookup_insert_ne; [exact Hj|]. intros <-. congruence.
  - destruct (sys_tasks s !! i) as [t|] eqn:Et; [|exact Hj].
    destruct (runner_step BASE a (task_job t) (task_payload t) (task_pc t)
                (sys_jobs s, sys_fs s)) as [[pc' [jobs' fs']]|] eqn:Er;
      [|exact Hj].
    pose proof (runner_step_live _ _ _ _ _ _ _ Er) as Hl.
    destruct (inv_task s HI i t Et Hl) as (mt & Hm & Hs).
    destruct (runner_step_shape _ _ _ _ _ _ _ _ _ _ mt Er Hm Hs
                (inv_fields s HI _ _ Hm)) as (_ & m' & -> & _).
    cbn [sys_jobs fst]. rewrite lookup_insert_ne; [exact Hj|].
    intros <-. rewrite Hm in Hj. inversion Hj; subst mt.
    pose proof (pc_status_active m _ Hs) as Hact.
    unfold is_active in Hact. destruct (status m); discriminate.
Qed.

(** X24: with every new identifier fresh, a record that is [finished] or
    [failed] is never written again: after any further requests and task
    moves it is the same record, field by field; so the answer of
    [GET /status] for it is the same whatever the system does between the
    handler's reads. *)
Theorem terminal_records_frozen (BASE : Fs.Path)
    (fs0 : gmap (list string) Fs.Node) (ls : list Label) (j : string)
    (m : JobMeta) :
  sys_jobs (exec BASE ls (init fs0)) !! j = Some m ->
  terminal (status m) = true ->
  (forall ls',
      fresh_pulls BASE ls' (exec BASE ls (init fs0)) ->
      sys_jobs (exec BASE ls' (exec BASE ls (init fs0))) !! j = Some m)
  /\ (forall (later : nat -> list Label) (meta : nat -> JobMeta),
         (forall k, fresh_pulls BASE (later k) (exec BASE ls (init fs0))) ->
         (forall k,
             sys_jobs (exec BASE (later k) (exec BASE ls (init fs0))) !! j
             = Some (meta k)) ->
         Api.status_racing j (sys_jobs (exec BASE ls (init fs0))) meta
         = Api.status j (sys_jobs (exec BASE ls (init fs0)))).
Proof.
  intros Hj Ht.
  pose proof (exec_inv BASE ls _ (init_inv fs0)) as HI.
  assert (H : forall ls' s, Inv s -> sys_jobs s !! j = Some m ->
                            fresh_pulls BASE ls' s ->
                            sys_jobs (exec BASE ls' s) !! j = Some m).
  { clear Hj HI. unfold exec.
    induction ls' as [|l ls' IH]; intros s HI Hj Hf; cbn [fold_left];
      [exact Hj|].
    cbn [fresh_pulls] in Hf. destruct Hf as [Hl Hf].
    apply IH; [apply step_inv, HI | | exact Hf].
    apply step_freezes; assumption. }
  split; [intros ls' Hf; exact (H ls' _ HI Hj Hf)|].
  intros later meta Hf Hmeta.
  assert (Hk : forall k, meta k = m).
  { intros k. pose proof (H (later k) _ HI Hj (Hf k)) as Hm.
    rewrite Hmeta in Hm. congruence. }
  unfold Api.status_racing, Api.status. rewrite Hj.
  unfold Api.respond. rewrite !Hk. reflexivity.
Qed.

Lemma terminal_records_frozen_witness :
  exists m,
    sys_jobs (exec demo_base
                [LPull demo_payload "job-3" "2024-01-01T11:00:00";
                 LTask 1 (TBegin true "2024-01-01T11:00:01")]
                (exec demo_base demo_trace (init demo_fs))) !! "job-1" = Some m
    /\ status m = failed.
Proof.
  assert (H : exists m,
             sys_jobs (exec demo_base demo_trace (init demo_fs)) !! "job-1" = Some m
             /\ status m = failed).
  { eexists. split; vm_compute; reflexivity. }
  destruct H as (m & Hm & Hs).
  exists m. split; [|exact Hs].
  assert (Ht : terminal (status m) = true) by (rewrite Hs; reflexivity).
  destruct (terminal_records_frozen demo_base demo_fs demo_trace "job-1" m
              Hm Ht) as [H _].
  apply H. cbn [fresh_pulls].
  split; [vm_compute; reflexivity | split; exact I].
Defined.

(** * The status answer while the runner writes *)

(** X25: when the runner's final write of a [running] job falls between
    the handler's first read of the status and its test for [finished],
    the answer says [running] and yet carries the finish time, the result
    path and the success message; no answer read between two writes has that
    form. *)
Theorem finish_between_reads (job_id now : string) (sd : Fs.Path)
    (jobs : gmap string JobMeta) (m : JobMeta) (c : nat) :
  jobs !! job_id = Some m ->
  status m = running ->
  (1 <= c <= 14)%nat ->
  (exists r,
      Api.status_racing job_id jobs (finish_before_read c now sd m)
      = inr (inr r)
      /\ Api.st_status r = running
      /\ Api.st_message r = Some (Some "Download completed successfully")
      /\ Api.st_result_path r = Some (Some (Fs.str sd))
      /\ Api.st_finished_at r = Some (Some now)
      /\ Api.st_error r = None)
  /\ forall jobs' r',
      Api.status job_id jobs' = inr (inr r') ->
      Api.st_status r' = running -> Api.st_result_path r' = None.
Proof.
  intros Hj Hs Hc. split.
  - unfold Api.status_racing. rewrite Hj.
    unfold Api.respond, Api.text_if_truthy, finish_before_read, set_finished,
      is_active.
    generalize (Fs.str sd). intros path.
    destruct m as [st cr pl sa pp ct sp ce fa rp ms er]. cbn in Hs. subst st.
    assert (Hcases : (c = 1 \/ c = 2 \/ c = 3 \/ c = 4 \/ c = 5 \/ c = 6
                      \/ c = 7 \/ c = 8 \/ c = 9 \/ c = 10 \/ c = 11
                      \/ c = 12 \/ c = 13 \/ c = 14)%nat) by lia.
    clear Hc Hj.
    repeat (destruct Hcases as [-> | Hcases]); try subst c; cbn;
      destruct pp as [pp|], ct as [ct|], sp as [sp|], ce as [ce|]; cbn;
      try destruct (String.eqb ct ""); try destruct (String.eqb sp ""); cbn;
      (eexists; split; [reflexivity|]); cbn; repeat split.
  - intros jobs' r'. rewrite status_settled.
    destruct (jobs' !! job_id) as [m'|]; [|discriminate].
    intros Hr. inversion Hr; subst r'. cbn. intros ->. reflexivity.
Qed.

Lemma finish_between_reads_witness :
  exists r,
    Api.status_racing "job-1" demo_running
      (finish_before_read 13 "2024-01-01T10:30:00" demo_season_dir
         (set_running "2024-01-01T10:00:01"
            (new_job demo_payload "2024-01-01T10:00:00")))
    = inr (inr r)
    /\ Api.st_status r = running
    /\ Api.st_result_path r = Some (Some (Fs.str demo_season_dir)).
Proof.
  destruct (finish_between_reads "job-1" "2024-01-01T10:30:00" demo_season_dir
              demo_running
              (set_running "2024-01-01T10:00:01"
                 (new_job demo_payload "2024-01-01T10:00:00")) 13)
    as [(r & H1 & H2 & _ & H4 & _) _];
    [vm_compute; reflexivity | reflexivity | lia |].
  exists r. split; [exact H1 | split; [exact H2 | exact H4]].
Defined.

(** X26: as long as the record loses no key between two reads, the
    handler raises no [KeyError]: it answers, with the status of its first
    read, a result path only if the record was [finished] at the test of
    line 218 and an error only if it was [failed] at the test of line
    225. *)
Theorem status_never_raises (job_id : string) (jobs : gmap string JobMeta)
    (meta : nat -> JobMeta) :
  is_Some (jobs !! job_id) ->
  keys_grow meta ->
  exists r,
    Api.status_racing job_id jobs meta = inr (inr r)
    /\ Api.st_job_id r = job_id
    /\ Api.st_status r = status (meta 0%nat)
    /\ Api.st_created_at r = created_at (meta 1%nat)
    /\ (is_Some (Api.st_result_path r) <-> status (meta 14%nat) = finished)
    /\ (is_Some (Api.st_error r) <-> status (meta 18%nat) = failed).
Proof.
  intros [m0 Hj] Hg. unfold Api.status_racing. rewrite Hj.
  assert (Hn : forall A : Type, ~ is_Some (@None A))
    by (intros A [x Hx]; discriminate).
  assert (Hpp : forall k, progress_percent (meta k) <> None ->
                          progress_percent (meta (S k)) <> None).
  { intros k H E. destruct (Hg k) as (G & _).
    destruct (progress_percent (meta k)) as [v|]; [|congruence].
    rewrite E in G. exact (Hn _ (G (ex_intro _ v eq_refl))). }
  assert (Hct : forall k, current_title (meta k) <> None ->
                          current_title (meta (S k)) <> None).
  { intros k H E. destruct (Hg k) as (_ & G & _).
    destruct (current_title (meta k)) as [v|]; [|congruence].
    rewrite E in G. exact (Hn _ (G (ex_intro _ v eq_refl))). }
  assert (Hsp : forall k, speed (meta k) <> None ->
                          speed (meta (S k)) <> None).
  { intros k H E. destruct (Hg k) as (_ & _ & G & _).
    destruct (speed (meta k)) as [v|]; [|congruence].
    rewrite E in G. exact (Hn _ (G (ex_intro _ v eq_refl))). }
  assert (Hce : forall k, current_episode (meta k) <> None ->
                          current_episode (meta (S k)) <> None).
  { intros k H E. destruct (Hg k) as (_ & _ & _ & G).
    destruct (current_episode (meta k)) as [v|]; [|congruence].
    rewrite E in G. exact (Hn _ (G (ex_intro _ v eq_refl))). }
  unfold Api.respond, Api.text_if_truthy.
  pose proof (Hpp 2%nat) as P2.
  pose proof (Hct 4%nat) as T4. pose proof (Hct 5%nat) as T5.
  pose proof (Hsp 7%nat) as S7. pose proof (Hsp 8%nat) as S8.
  pose proof (Hce 10%nat) as E10. pose proof (Hce 11%nat) as E11.
  destruct (progress_percent (meta 2%nat)) as [p2|];
    [destruct (progress_percent (meta 3%nat)) as [p3|];
       [|exfalso; apply P2; congruence]|];
    (destruct (current_title (meta 4%nat)) as [t4|];
     [destruct (current_title (meta 5%nat)) as [t5|];
        [destruct (current_title (meta 6%nat)) as [t6|];
           [|exfalso; apply T5; congruence]
        |exfalso; apply T4; congruence]|]);
    (destruct (speed (meta 7%nat)) as [s7|];
     [destruct (speed (meta 8%nat)) as [s8|];
        [destruct (speed (meta 9%nat)) as [s9|];
           [|exfalso; apply S8; congruence]
        |exfalso; apply S7; congruence]|]);
    (destruct (current_episode (meta 10%nat)) as [e10|];
     [destruct (current_episode (meta 11%nat)) as [e11|];
        [destruct (current_episode (meta 12%nat)) as [e12|];
           [|exfalso; apply E11; congruence]
        |exfalso; apply E10; congruence]|]);
    cbn;
    try destruct (String.eqb t5 ""); try destruct (String.eqb s8 ""); cbn;
    (eexists; split; [reflexivity|]); cbn;
    (split; [reflexivity|]); (split; [reflexivity|]); (split; [reflexivity|]);
    (split; [destruct (status (meta 14%nat)) | destruct (status (meta 18%nat))]);
    cbn; split; intros X; try discriminate X; try reflexivity;
    try (exfalso; exact (Hn _ X)); eexists; reflexivity.
Qed.

Lemma status_never_raises_witness :
  exists r,
    Api.status_racing "job-1" demo_running
      (finish_before_read 6 "2024-01-01T10:30:00" demo_season_dir
         (hook_update 29 "Episode 3" "2.00 KiB/s" 2
            (set_running "2024-01-01T10:00:01"
               (new_job demo_payload "2024-01-01T10:00:00"))))
    = inr (inr r)
    /\ Api.st_status r = running.
Proof.
  destruct (status_never_raises "job-1" demo_running
              (finish_before_read 6 "2024-01-01T10:30:00" demo_season_dir
                 (hook_update 29 "Episode 3" "2.00 KiB/s" 2
                    (set_running "2024-01-01T10:00:01"
                       (new_job demo_payload "2024-01-01T10:00:00")))))
    as (r & H1 & _ & H3 & _).
  - eexists. vm_compute. reflexivity.
  - intros k. unfold finish_before_read.
    destruct (k <? 6)%nat, (S k <? 6)%nat; cbn;
      repeat split; intros _; eexists; reflexivity.
  - exists r. split; [exact H1|]. rewrite H3. reflexivity.
Defined.

Lemma keys_kept_refl (m : JobMeta) : keys_kept m m.
Proof. unfold keys_kept. repeat split; intros H; exact H. Qed.

Lemma keys_kept_trans (a b c : JobMeta) :
  keys_kept a b -> keys_kept b c -> keys_kept a c.
Proof.
  unfold keys_kept.
  intros (A1 & A2 & A3 & A4 & A5 & A6 & A7 & A8 & A9 & A10 & A11)
         (B1 & B2 & B3 & B4 & B5 & B6 & B7 & B8 & B9 & B10 & B11).
  repeat split; try congruence; auto.
Qed.

Lemma set_running_keys (now : string) (m : JobMeta) :
  keys_kept m (set_running now m).
Proof.
  unfold keys_kept. cbn.
  repeat split; try (intros H; exact H); intros _; eexists; reflexivity.
Qed.

Lemma set_finished_keys (now : string) (sd : Fs.Path) (m : JobMeta) :
  keys_kept m (set_finished now sd m).
Proof.
  unfold keys_kept. cbn.
  repeat split; try (intros H; exact H); intros _; eexists; reflexivity.
Qed.

Lemma set_failed_keys (now text : string) (m : JobMeta) :
  keys_kept m (set_failed now text m).
Proof.
  unfold keys_kept. cbn.
  repeat split; try (intros H; exact H); intros _; eexists; reflexivity.
Qed.

Lemma hook_update_keys (percent : Z) (title speed_text : string)
    (episode_no : Z) (m : JobMeta) :
  keys_kept m (hook_update percent title speed_text episode_no m).
Proof.
  unfold keys_kept. cbn.
  repeat split; try (intros H; exact H); intros _; eexists; reflexivity.
Qed.

(** One move of a task removes no key from its record. *)
Lemma runner_step_keys (BASE : Fs.Path) (a : TaskLabel) (job : string)
    (pl : RequestPayload) (pc pc' : Pc)
    (jobs jobs' : gmap string JobMeta) (fs fs' : gmap (list string) Fs.Node)
    (m : JobMeta) :
  runner_step BASE a job pl pc (jobs, fs) = Some (pc', (jobs', fs')) ->
  jobs !! job = Some m ->
  exists m', jobs' = <[job := m']> jobs /\ keys_kept m m'.
Proof.
  intros Hstep Hm.
  assert (Hid : exists m', jobs = <[job := m']> jobs /\ keys_kept m m').
  { exists m. split; [symmetry; apply insert_id, Hm | apply keys_kept_refl]. }
  destruct pc as [| | |e|esc], a as [ok now| |act|now|e'|now];
    cbn in Hstep; try discriminate.
  - destruct ok; cbn in Hstep.
    + unfold run_begin, update_job in Hstep. rewrite Hm in Hstep.
      inversion Hstep; subst.
      eexists. split; [reflexivity | apply set_running_keys].
    + inversion Hstep; subst. exact Hid.
  - destruct (make_dirs BASE pl fs) as [fs1 [e|]];
      inversion Hstep; subst; exact Hid.
  - destruct act as [p n|d]; cbn [dl_step fst snd] in Hstep;
      inversion Hstep; subst; [exact Hid|].
    unfold hook. destruct (negb _); [exact Hid|].
    rewrite Hm. eexists. split; [reflexivity | apply hook_update_keys].
  - unfold run_finished, update_job in Hstep. cbn [fst] in Hstep.
    rewrite Hm in Hstep. inversion Hstep; subst.
    eexists. split; [reflexivity | apply set_finished_keys].
  - inversion Hstep; subst. exact Hid.
  - unfold run_except, update_job in Hstep. cbn [fst] in Hstep.
    rewrite Hm in Hstep. inversion Hstep; subst.
    eexists. split; [reflexivity | apply set_failed_keys].
Qed.

Lemma step_keys (BASE : Fs.Path) (l : Label) (s : System) (j : string)
    (m : JobMeta) :
  Inv s ->
  match l with
  | LPull _ job_id _ => sys_jobs s !! job_id = None
  | LTask _ _ => True
  end ->
  sys_jobs s !! j = Some m ->
  exists m', sys_jobs (step BASE l s) !! j = Some m' /\ keys_kept m m'.
Proof.
  intros HI Hfresh Hj.
  assert (Hsame : exists m', sys_jobs s !! j = Some m' /\ keys_kept m m')
    by (exists m; split; [exact Hj | apply keys_kept_refl]).
  destruct l as [request job_id now|i a]; cbn [step].
  - unfold pull. destruct (any_active (sys_jobs s)); cbn [sys_jobs];
      [exact Hsame|].
    rewrite lookup_insert_ne; [exact Hsame|]. intros <-. congruence.
  - destruct (sys_tasks s !! i) as [t|] eqn:Et; [|exact Hsame].
    destruct (runner_step BASE a (task_job t) (task_payload t) (task_pc t)
                (sys_jobs s, sys_fs s)) as [[pc' [jobs' fs']]|] eqn:Er;
      [|exact Hsame].
    pose proof (runner_step_live _ _ _ _ _ _ _ Er) as Hl.
    destruct (inv_task s HI i t Et Hl) as (mt & Hm & Hs).
    destruct (runner_step_keys _ _ _ _ _ _ _ _ _ _ mt Er Hm)
      as (m' & -> & Hk).
    cbn [sys_jobs fst].
    destruct (decide (task_job t = j)) as [<-|N].
    + rewrite lookup_insert_eq. exists m'. split; [reflexivity|].
      rewrite Hm in Hj. inversion Hj; subst mt. exact Hk.
    + rewrite lookup_insert_ne; [exact Hsame | exact N].
Qed.

Lemma exec_keys (BASE : Fs.Path) (ls : list Label) :
  forall (s : System) (j : string) (m : JobMeta),
    Inv s ->
    fresh_pulls BASE ls s ->
    sys_jobs s !! j = Some m ->
    exists m', sys_jobs (exec BASE ls s) !! j = Some m' /\ keys_kept m m'.
Proof.
  unfold exec.
  induction ls as [|l ls IH]; intros s j m HI Hf Hj; cbn [fold_left].
  - exists m. split; [exact Hj | apply keys_kept_refl].
  - cbn [fresh_pulls] in Hf. destruct Hf as [Hl Hf].
    destruct (step_keys BASE l s j m HI Hl Hj) as (m1 & H1 & K1).
    destruct (IH (step BASE l s) j m1 (step_inv _ _ _ HI) Hf H1)
      as (m2 & H2 & K2).
    exists m2. split; [exact H2 | exact (keys_kept_trans _ _ _ K1 K2)].
Qed.

(** X27: with every new identifier fresh, no request and no move of a
    runner removes a record from the registry or a key from a record, and the
    creation time and the stored request of a record never change. *)
Theorem keys_only_grow (BASE : Fs.Path) (fs0 : gmap (list string) Fs.Node)
    (ls ls' : list Label) (j : string) (m : JobMeta) :
  sys_jobs (exec BASE ls (init fs0)) !! j = Some m ->
  fresh_pulls BASE ls' (exec BASE ls (init fs0)) ->
  exists m',
    sys_jobs (exec BASE ls' (exec BASE ls (init fs0))) !! j = Some m'
    /\ created_at m' = created_at m /\ payload m' = payload m
    /\ (is_Some (started_at m) -> is_Some (started_at m'))
    /\ (is_Some (progress_percent m) -> is_Some (progress_percent m'))
    /\ (is_Some (current_title m) -> is_Some (current_title m'))
    /\ (is_Some (speed m) -> is_Some (speed m'))
    /\ (is_Some (current_episode m) -> is_Some (current_episode m'))
    /\ (is_Some (finished_at m) -> is_Some (finished_at m'))
    /\ (is_Some (result_path m) -> is_Some (result_path m'))
    /\ (is_Some (message m) -> is_Some (message m'))
    /\ (is_Some (error m) -> is_Some (error m')).
Proof.
  intros Hj Hf.
  exact (exec_keys BASE ls' _ j m (exec_inv BASE ls _ (init_inv fs0)) Hf Hj).
Qed.

Lemma keys_only_grow_witness :
  exists m',
    sys_jobs (exec demo_base demo_trace (init demo_fs)) !! "job-1" = Some m'
    /\ created_at m' = Some "2024-01-01T10:00:00".
Proof.
  destruct (keys_only_grow demo_base demo_fs
              [LPull demo_payload2 "job-1" "2024-01-01T10:00:00"]
              (tl demo_trace) "job-1"
              (new_job demo_payload2 "2024-01-01T10:00:00"))
    as (m' & H1 & H2 & _).
  - vm_compute. reflexivity.
  - vm_compute. repeat split.
  - exists m'. split; [exact H1 | exact H2].
Defined.

(** * Where the folders are made *)

Lemma startswith_slash_app (a b : string) :
  PyStr.startswith "/" a = true -> PyStr.startswith "/" (a ++ b) = true.
Proof.
  unfold PyStr.startswith. destruct a as [|c a]; [discriminate|].
  change (String c a ++ b) with (String c (a ++ b)).
  cbn [String.prefix].
  destruct (Ascii.ascii_dec "/" c) as [_|N]; [|discriminate].
  intros _. destruct (a ++ b); reflexivity.
Qed.

(** X28: the display name is joined to [BASE_DATA_DIR] as a path, so when
    it begins with "/" once its blanks are stripped, the root output folder
    and the season folder are the same whatever [BASE_DATA_DIR] is, and so is
    the whole run: the folders are made where the name says. *)
Theorem absolute_name_ignores_base (BASE BASE' : Fs.Path) (job_id : string)
    (pl : RequestPayload) (env : RunEnv)
    (w : gmap string JobMeta * gmap (list string) Fs.Node) :
  PyStr.startswith "/" (safe_name pl) = true ->
  main_dir BASE pl = main_dir BASE' pl
  /\ season_dir BASE pl = season_dir BASE' pl
  /\ _run_download BASE job_id pl env w = _run_download BASE' job_id pl env w.
Proof.
  intros Hs.
  assert (Hm : main_dir BASE pl = main_dir BASE' pl).
  { unfold main_dir, Fs.joinpath, main_folder_name.
    rewrite (startswith_slash_app _ _ Hs). reflexivity. }
  assert (Hd : season_dir BASE pl = season_dir BASE' pl)
    by (unfold season_dir; rewrite Hm; reflexivity).
  split; [exact Hm | split; [exact Hd|]].
  unfold _run_download, try_body, make_dirs, download.
  rewrite Hm, Hd. reflexivity.
Qed.

Lemma absolute_name_ignores_base_witness :
  season_dir demo_base absolute_payload
  = ["Season 01"; "media [imdbid-tt1234567]"; "srv"; "/"].
Proof.
  destruct (absolute_name_ignores_base demo_base [] "job-1" absolute_payload
              demo_env (demo_pending, demo_fs)) as (_ & H & _).
  - reflexivity.
  - rewrite H. reflexivity.
Defined.

(** * Folder and file names on disk (C8) *)

Lemma string_app_assoc (a b c : string) : (a ++ b) ++ c = a ++ (b ++ c).
Proof.
  induction a as [|x a IH]; [reflexivity|].
  rewrite !append_cons. f_equal. exact IH.
Qed.

Lemma cut_suffix_app (suffix a : string) :
  cut_suffix suffix (a ++ suffix) = Some a.
Proof.
  induction a as [|c a IH].
  - rewrite append_nil_l. destruct suffix; cbn [cut_suffix];
      rewrite String.eqb_refl; reflexivity.
  - rewrite append_cons. cbn [cut_suffix].
    destruct (String.eqb (String c (a ++ suffix)) suffix) eqn:E.
    + apply String.eqb_eq in E.
      apply (f_equal String.length) in E. cbn [String.length] in E.
      rewrite string_length_app in E. lia.
    + rewrite IH. reflexivity.
Qed.

Lemma safe_name_no_slash (p : RequestPayload) :
  no_slash (name p) = true -> no_slash (safe_name p) = true.
Proof.
  intros H. unfold safe_name, PyStr.strip.
  apply no_slash_rstrip, no_slash_lstrip, H.
Qed.

(** A name made of a text without "/" followed by at least two more
    characters without "/" is joined to a path as one component. *)
Lemma joinpath_name (q : Fs.Path) (a b : string) :
  no_slash a = true -> no_slash b = true -> (2 <= String.length b)%nat ->
  Fs.joinpath q (a ++ b) = (a ++ b) :: q.
Proof.
  intros Ha Hb Hl.
  assert (Hn : no_slash (a ++ b) = true) by (apply no_slash_app; assumption).
  assert (Hlen : (2 <= String.length (a ++ b))%nat)
    by (rewrite string_length_app; lia).
  destruct (a ++ b) as [|c s] eqn:E; [cbn in Hlen; lia|].
  apply joinpath_single; [exact Hn|].
  intros Hdot. rewrite Hdot in Hlen. cbn in Hlen. lia.
Qed.

Lemma main_dir_entry (BASE : Fs.Path) (p : RequestPayload) :
  no_slash (name p) = true -> no_slash (imdbid p) = true ->
  main_dir BASE p = main_folder_name p :: BASE.
Proof.
  intros Hn Hi. unfold main_dir, main_folder_name.
  apply joinpath_name; [apply safe_name_no_slash, Hn | |].
  - apply no_slash_app; [reflexivity|].
    apply no_slash_app; [exact Hi | reflexivity].
  - rewrite string_length_app. change (String.length " [imdbid-") with 9%nat.
    lia.
Qed.

Lemma outtmpl_path_entry (BASE : Fs.Path) (p : RequestPayload) :
  no_slash (name p) = true ->
  outtmpl_path BASE p = output_template p :: season_dir BASE p.
Proof.
  intros Hn. unfold outtmpl_path, output_template, build_output_template.
  apply joinpath_name; [apply safe_name_no_slash, Hn | |].
  - apply no_slash_app; [reflexivity|].
    apply no_slash_app; [apply no_slash_format_0d | reflexivity].
  - rewrite string_length_app. change (String.length " S") with 2%nat. lia.
Qed.

(** From a file system with nothing but directories on the way to the root
    folder and no season folder yet, the two [mkdir] calls leave both folders
    as directories. *)
Lemma make_dirs_makes_both (BASE : Fs.Path) (p : RequestPayload)
    (fs : gmap (list string) Fs.Node) :
  clear_way fs (main_dir BASE p) = true ->
  Fs.exists_ fs (season_dir BASE p) = false ->
  exists fs2,
    make_dirs BASE p fs = (fs2, None)
    /\ Fs.is_dir fs2 (main_dir BASE p) = true
    /\ Fs.is_dir fs2 (season_dir BASE p) = true.
Proof.
  intros Hw He.
  destruct (mkdir_parents_ok _ fs Hw) as (fs1 & Hmk & Hd & Hbelow & _).
  destruct (not_exists_not_anchor _ _ He) as [Hna Hnone].
  assert (He1 : Fs.exists_ fs1 (season_dir BASE p) = false).
  { unfold Fs.exists_, Fs.node. rewrite Hna, Hbelow, Hnone; [reflexivity|].
    rewrite season_dir_cons, length_cons. lia. }
  exists (<[season_dir BASE p := Fs.Directory]> fs1).
  split; [|split].
  - unfold make_dirs. rewrite Hmk, mkdir_unfold, os_mkdir_fresh;
      [reflexivity | exact He1 |].
    rewrite (proj1 (season_dir_parent BASE p)). exact Hd.
  - unfold Fs.is_dir. rewrite node_insert_ne; [exact Hd|].
    rewrite season_dir_cons. intros E.
    apply (f_equal (@length string)) in E. rewrite length_cons in E. lia.
  - unfold Fs.is_dir. rewrite node_insert_eq by exact Hna. reflexivity.
Qed.

(** C8 (amended): for every validated request whose display name and
    catalog id hold no "/", with the display name taken after its leading
    and trailing white space is removed, the root output folder is the entry
    ["<name> [imdbid-<catalog id>]"] of [BASE_DATA_DIR], the season subfolder
    is its entry ["Season <NN>"] with the season zero-padded to width 2, both
    are what the two [mkdir] calls make, the template handed to the downloader
    is the entry ["<name> S<NN>E%(autonumber)02d.%(ext)s"] of the season
    folder, and the output unit completed after [k] others is named
    ["<name> S<NN>E<k + 1, two digits>.<ext>"]: the numbering starts at 1. *)
Theorem output_names (BASE : Fs.Path) (p : RequestPayload) :
  valid_payload p = true ->
  no_slash (name p) = true ->
  no_slash (imdbid p) = true ->
  let nm := PyStr.strip (name p) in
  let nn := format_0d 2 (season p) in
  main_dir BASE p = (nm ++ " [imdbid-" ++ imdbid p ++ "]") :: BASE
  /\ season_dir BASE p
     = ("Season " ++ nn) :: (nm ++ " [imdbid-" ++ imdbid p ++ "]") :: BASE
  /\ outtmpl_path BASE p
     = (nm ++ " S" ++ nn ++ "E%(autonumber)02d.%(ext)s") :: season_dir BASE p
  /\ (forall (k : nat) (ext : string),
        unit_file_name (output_template p) k ext
        = Some (nm ++ " S" ++ nn ++ "E" ++ format_0d 2 (Z.of_nat k + 1)
                ++ "." ++ ext))
  /\ (season p < 10 -> nn = "0" ++ dec (season p))
  /\ (10 <= season p -> nn = dec (season p))
  /\ (exists pre post,
        name p = pre ++ nm ++ post
        /\ all_space pre = true /\ all_space post = true
        /\ starts_with_space nm = false /\ ends_with_space nm = false)
  /\ PyStr.startswith "tt" (imdbid p) = true
  /\ (forall fs : gmap (list string) Fs.Node,
        clear_way fs (main_dir BASE p) = true ->
        Fs.exists_ fs (season_dir BASE p) = false ->
        exists fs2,
          make_dirs BASE p fs = (fs2, None)
          /\ Fs.is_dir fs2 (main_dir BASE p) = true
          /\ Fs.is_dir fs2 (season_dir BASE p) = true).
Proof.
  intros Hv Hn Hid nm nn. unfold valid_payload in Hv.
  apply andb_true_iff in Hv. destruct Hv as [Hi Hs].
  unfold validate_season in Hs. apply negb_true_iff, Z.ltb_ge in Hs.
  unfold validate_imdbid in Hi.
  apply negb_true_iff, orb_false_iff in Hi. destruct Hi as [Hi _].
  apply negb_false_iff in Hi.
  pose proof (main_dir_entry BASE p Hn Hid) as Hm.
  split; [exact Hm|].
  split; [rewrite season_dir_cons, Hm; reflexivity|].
  split; [apply outtmpl_path_entry, Hn|].
  split.
  { intros k ext. unfold unit_file_name, output_template, build_output_template.
    change (safe_name p) with nm. change (format_0d 2 (season p)) with nn.
    replace (nm ++ " S" ++ nn ++ "E" ++ "%(autonumber)02d" ++ ".%(ext)s")
      with ((nm ++ " S" ++ nn ++ "E") ++ "%(autonumber)02d.%(ext)s")
      by (rewrite !string_app_assoc; reflexivity).
    rewrite cut_suffix_app. cbn [option_map]. f_equal.
    rewrite !string_app_assoc. reflexivity. }
  split; [intros H; apply format_02d_small; lia|].
  split; [apply format_02d_large|].
  split; [apply strip_spec|].
  split; [exact Hi|].
  intros fs. apply make_dirs_makes_both.
Qed.

Lemma output_names_witness :
  main_dir demo_base padded_payload = ["Show [imdbid-tt1234567]"; "data"]
  /\ season_dir demo_base padded_payload
     = ["Season 01"; "Show [imdbid-tt1234567]"; "data"]
  /\ outtmpl demo_base padded_payload
     = "data/Show [imdbid-tt1234567]/Season 01/Show S01E%(autonumber)02d.%(ext)s"
  /\ unit_file_name (output_template padded_payload) 0 "mp4"
     = Some "Show S01E01.mp4".
Proof.
  destruct (output_names demo_base padded_payload eq_refl eq_refl eq_refl)
    as (H1 & H2 & H3 & H4 & _).
  split; [rewrite H1; reflexivity|].
  split; [rewrite H2; reflexivity|].
  split; [unfold outtmpl; rewrite H3, H2; reflexivity|].
  rewrite H4. reflexivity.
Defined.
